(** * GetPass backend: a shallow embedding of [main.py]

    The service fills an Arabic visitor-pass Word template once per requested
    date, renders each filled document to PDF through an external converter and
    hands back one artifact (PDF, DOCX or ZIP).

    Python values are modelled as follows.
    - [str] is a list of Unicode code points ([pystr]); the literals of the
      source are written as UTF-8 string literals and decoded by [u].
    - [int] is [Z].
    - A python-docx document is a tree: tables, rows, cells, paragraphs, runs.
    - Statements that touch the file system, the log or can raise run in the
      state-and-exception monad [M].
    - Library routines whose result the program cannot determine by itself
      (the ISO parser, the Umm al-Qura table, the external PDF converter,
      I/O faults) are fields of an environment record [Env]; every theorem is
      stated for an arbitrary environment. *)

From Stdlib Require Import ZArith NArith Lia String Ascii.
From stdpp Require Import base list.

#[local] Open Scope Z_scope.

(** ** Python strings *)

Module PyStr.

(** A Python [str]: a sequence of Unicode code points. *)
Definition pystr : Type := list N.

Definition bytes_of (s : string) : list N :=
  List.map (fun a => N_of_ascii a) (list_ascii_of_string s).

(** UTF-8 decoding of a source literal (well-formed input only; a truncated
    sequence ends the result). *)
Fixpoint utf8_decode (l : list N) : pystr :=
  match l with
  | [] => []
  | b0 :: t =>
      if (b0 <? 128)%N then b0 :: utf8_decode t
      else if (b0 <? 224)%N then
        match t with
        | b1 :: t1 => ((b0 - 192) * 64 + (b1 - 128))%N :: utf8_decode t1
        | _ => []
        end
      else if (b0 <? 240)%N then
        match t with
        | b1 :: b2 :: t2 =>
            ((b0 - 224) * 4096 + (b1 - 128) * 64 + (b2 - 128))%N :: utf8_decode t2
        | _ => []
        end
      else
        match t with
        | b1 :: b2 :: b3 :: t3 =>
            ((b0 - 240) * 262144 + (b1 - 128) * 4096 + (b2 - 128) * 64 + (b3 - 128))%N
              :: utf8_decode t3
        | _ => []
        end
  end.

(** [u "..."] is the Python literal ["..."]. *)
Definition u (s : string) : pystr := utf8_decode (bytes_of s).

#[global] Arguments u : simpl never.

(** [a == b] *)
Fixpoint str_eqb (a b : pystr) : bool :=
  match a, b with
  | [], [] => true
  | x :: a', y :: b' => (x =? y)%N && str_eqb a' b'
  | _, _ => false
  end.

(** [s.startswith(p)] *)
Fixpoint startswith (p s : pystr) : bool :=
  match p, s with
  | [], _ => true
  | _ :: _, [] => false
  | a :: p', b :: s' => (a =? b)%N && startswith p' s'
  end.

(** [sub in s] *)
Fixpoint contains (sub s : pystr) : bool :=
  startswith sub s ||
  match s with
  | [] => false
  | _ :: s' => contains sub s'
  end.

(** [s.replace(old, new)] for a non-empty [old]: leftmost, non-overlapping
    occurrences.  [skip] counts the characters of a match still to be
    dropped.  (For an empty [old] Python interleaves [new]; the program only
    replaces non-empty keys and the model leaves the text unchanged.) *)
Fixpoint replace_from (old new s : pystr) (skip : nat) : pystr :=
  match s with
  | [] => []
  | c :: s' =>
      match skip with
      | S k => replace_from old new s' k
      | O =>
          if startswith old s
          then new ++ replace_from old new s' (length old - 1)
          else c :: replace_from old new s' O
      end
  end.

Definition replace (old new s : pystr) : pystr :=
  match old with
  | [] => s
  | _ => replace_from old new s O
  end.

(** The code points [str.strip()] removes: those for which [str.isspace]
    holds. *)
Definition isspace (c : N) : bool :=
  ((9 <=? c) && (c <=? 13) || (28 <=? c) && (c <=? 32)
   || (c =? 133) || (c =? 160) || (c =? 5760)
   || (8192 <=? c) && (c <=? 8202)
   || (c =? 8232) || (c =? 8233) || (c =? 8239) || (c =? 8287)
   || (c =? 12288))%N.

Fixpoint lstrip (s : pystr) : pystr :=
  match s with
  | [] => []
  | c :: s' => if isspace c then lstrip s' else s
  end.

(** [s.rstrip()]: a character stays when it is not a space or something
    after it stays. *)
Fixpoint rstrip (s : pystr) : pystr :=
  match s with
  | [] => []
  | c :: s' =>
      match rstrip s' with
      | [] => if isspace c then [] else [c]
      | r => c :: r
      end
  end.

(** [s.strip()] *)
Definition strip (s : pystr) : pystr := rstrip (lstrip s).

(** [s.split(sep)] for a one-character separator; the accumulator [cur]
    holds the current field reversed. *)
Fixpoint split_from (sep : N) (s cur : pystr) : list pystr :=
  match s with
  | [] => [rev cur]
  | c :: s' =>
      if (c =? sep)%N then rev cur :: split_from sep s' []
      else split_from sep s' (c :: cur)
  end.

Definition split (sep : N) (s : pystr) : list pystr := split_from sep s [].

(** [sep.join(parts)] *)
Fixpoint join (sep : pystr) (parts : list pystr) : pystr :=
  match parts with
  | [] => []
  | [p] => p
  | p :: rest => p ++ sep ++ join sep rest
  end.

(** Decimal digits of a natural number, most significant first. *)
Fixpoint digits_fuel (fuel : nat) (n : N) (acc : pystr) : pystr :=
  match fuel with
  | O => acc
  | S f =>
      let acc' := (48 + n mod 10)%N :: acc in
      if (n <? 10)%N then acc' else digits_fuel f (n / 10)%N acc'
  end.

Definition digits (n : N) : pystr := digits_fuel (S (N.to_nat (N.log2 n))) n [].

(** [str(z)] for an [int]. *)
Definition str_of_int (z : Z) : pystr :=
  if z <? 0 then 45%N :: digits (Z.to_N (- z)) else digits (Z.to_N z).

(** [format(z, "02d")]: the sign, then the digits padded with zeros so that
    the whole field is at least two characters wide. *)
Definition format_02d (z : Z) : pystr :=
  let d := digits (Z.to_N (Z.abs z)) in
  if z <? 0 then 45%N :: d
  else match d with
       | [c] => [48%N; c]
       | _ => d
       end.

(** [os.path.join(a, b)] on a POSIX system. *)
Definition path_join (a b : pystr) : pystr :=
  if startswith [47%N] b then b
  else match last a with
       | None => b
       | Some c => if (c =? 47)%N then a ++ b else a ++ 47%N :: b
       end.

(** [os.path.basename(p)]: what follows the last slash. *)
Definition basename (p : pystr) : pystr :=
  match last (split 47 p) with
  | Some b => b
  | None => []
  end.

End PyStr.
Export PyStr.

(** ** Calendar arithmetic of [datetime] *)

Module Calendar.

(** The fields of a [datetime] object the program reads. *)
Record datetime := mkDate { year : Z; month : Z; day : Z }.

Definition _is_leap (y : Z) : bool :=
  (y mod 4 =? 0) && (negb (y mod 100 =? 0) || (y mod 400 =? 0)).

Definition _days_before_year (year : Z) : Z :=
  let y := year - 1 in
  y * 365 + y / 4 - y / 100 + y / 400.

Definition _DAYS_IN_MONTH : list Z := [31; 28; 31; 30; 31; 30; 31; 31; 30; 31; 30; 31].

Definition _days_in_month (y m : Z) : Z :=
  if (m =? 2) && _is_leap y then 29
  else default 0 (_DAYS_IN_MONTH !! Z.to_nat (m - 1)).

(** [_DAYS_BEFORE_MONTH[month] + (month > 2 and _is_leap(year))] *)
Definition _days_before_month (y m : Z) : Z :=
  foldr Z.add 0 (take (Z.to_nat (m - 1)) _DAYS_IN_MONTH)
  + (if (2 <? m) && _is_leap y then 1 else 0).

Definition toordinal (d : datetime) : Z :=
  _days_before_year (year d) + _days_before_month (year d) (month d) + day d.

(** [date.weekday()]: Monday is 0, Sunday is 6. *)
Definition weekday (d : datetime) : Z := (toordinal d + 6) mod 7.

(** [date.isoweekday()]: Monday is 1, Sunday is 7. *)
Definition isoweekday (d : datetime) : Z :=
  let r := toordinal d mod 7 in if r =? 0 then 7 else r.

(** What the [datetime] constructor accepts. *)
Definition valid_date (d : datetime) : bool :=
  (1 <=? year d) && (year d <=? 9999) && (1 <=? month d) && (month d <=? 12)
  && (1 <=? day d) && (day d <=? _days_in_month (year d) (month d)).

End Calendar.
Export Calendar.

(** ** Exceptions *)

Inductive exn_class :=
| ValueError | IndexError | OverflowError | AttributeError | ImportError
| OSError | FileNotFoundError | RuntimeError | LibraryError.

(** A raised Python exception.  [HTTPException] is FastAPI's; it derives from
    [Exception] like every class of [exn_class]. *)
Inductive exn :=
| Exc (cls : exn_class) (msg : pystr)
| HTTPException (status_code : Z) (detail : pystr).

(** [isinstance(e, ValueError)], the test of [except ValueError]. *)
Definition is_ValueError (e : exn) : bool :=
  match e with
  | Exc ValueError _ => true
  | _ => false
  end.

(** [str(e)].  An [HTTPException] prints as its status code, a colon and its
    detail. *)
Definition str_of_exn (e : exn) : pystr :=
  match e with
  | Exc _ msg => msg
  | HTTPException sc d => str_of_int sc ++ u ": " ++ d
  end.

(** Pure code that may raise. *)
Definition result (A : Type) : Type := exn + A.

Definition rbind {A B} (r : result A) (k : A -> result B) : result B :=
  match r with
  | inl e => inl e
  | inr a => k a
  end.

Declare Scope result_scope.
Delimit Scope result_scope with result.
Notation "x <- r ;; k" := (rbind r (fun x => k))
  (at level 100, r at next level, right associativity) : result_scope.

(** [l[i]] for a non-negative index. *)
Definition index {A} (l : list A) (i : nat) : result A :=
  match l !! i with
  | Some a => inr a
  | None => inl (Exc IndexError (u "list index out of range"))
  end.

(** ** The python-docx document tree *)

Module Docx.

(** [WD_PARAGRAPH_ALIGNMENT] *)
Inductive alignment := LEFT | CENTER | RIGHT | JUSTIFY.

(** A run of text with the character formatting the program sets.  [None]
    is python-docx's "inherited".  [run.bold] and [run.font.bold] are the
    same property; sizes are in points ([Pt]). *)
Record run := mkRun {
  r_text : pystr;
  r_font_name : option pystr;
  r_font_size : option Z;
  r_bold : option bool
}.

Record paragraph := mkPar {
  p_runs : list run;
  p_alignment : option alignment
}.

(** A cell holds paragraphs (nested tables are not modelled). *)
Record cell := mkCell { c_paragraphs : list paragraph }.

(** [row.cells]; horizontally merged cells are not modelled, so the cells
    of a row are distinct objects. *)
Record row := mkRow { r_cells : list cell }.

(** [t_ncols] is the number of grid columns, which [add_row] copies. *)
Record table := mkTable { t_rows : list row; t_ncols : nat }.

(** [d_settings] lists the child elements of the settings part, by tag and
    [w:val]. *)
Record document := mkDoc {
  d_tables : list table;
  d_settings : list (pystr * pystr)
}.

(** [paragraph.text] *)
Definition paragraph_text (p : paragraph) : pystr :=
  concat (map r_text (p_runs p)).

(** [cell.text] (getter): the paragraphs' texts joined by newlines. *)
Definition cell_text (c : cell) : pystr :=
  join [10%N] (map paragraph_text (c_paragraphs c)).

(** [cell.text = s] (setter): the content becomes one paragraph holding one
    unformatted run with the text. *)
Definition set_cell_text (s : pystr) : cell :=
  mkCell [mkPar [mkRun s None None None] None].

(** The cell of a freshly added row: one empty paragraph. *)
Definition new_cell : cell := mkCell [mkPar [] None].

(** [table.add_row()]: one cell per grid column, appended after the last
    row. *)
Definition add_row (t : table) : table :=
  mkTable (t_rows t ++ [mkRow (replicate (t_ncols t) new_cell)]) (t_ncols t).

End Docx.
Export Docx.

(** ** Files, log and the state-and-exception monad *)

(** What a file holds: a Word document, a PDF (its pages, each an opaque
    text), or a ZIP archive (member name and member). *)
#[warnings="-register-all"]
Inductive file :=
| FDocx (d : document)
| FPdf (pages : list pystr)
| FZip (members : list (pystr * file)).

Inductive level := INFO | WARNING | ERROR.

(** The file system is an association list from path to content, the first
    binding of a path being the current one. *)
Record world := mkWorld {
  fs : list (pystr * file);
  log : list (level * pystr)
}.

Fixpoint fs_lookup (l : list (pystr * file)) (p : pystr) : option file :=
  match l with
  | [] => None
  | (q, f) :: l' => if str_eqb q p then Some f else fs_lookup l' p
  end.

Definition read_file (w : world) (p : pystr) : option file := fs_lookup (fs w) p.

Definition write_file (p : pystr) (f : file) (w : world) : world :=
  mkWorld ((p, f) :: fs w) (log w).

(** Removing a directory tree: every file below [dir] goes. *)
Definition remove_tree (dir : pystr) (w : world) : world :=
  mkWorld (filter (fun e => negb (startswith (dir ++ [47%N]) (fst e)) = true) (fs w)) (log w).

(** Computations over a state [S] that may raise. *)
Definition ST (S A : Type) : Type := S -> result A * S.

(** The monad of the program: the state is the outside world. *)
Definition M (A : Type) : Type := ST world A.

Definition ret {S A} (a : A) : ST S A := fun s => (inr a, s).

Definition raise {S A} (e : exn) : ST S A := fun s => (inl e, s).

Definition bind {S A B} (m : ST S A) (k : A -> ST S B) : ST S B :=
  fun s =>
    match m s with
    | (inl e, s') => (inl e, s')
    | (inr a, s') => k a s'
    end.

(** [try: m  except Exception as e: h e] *)
Definition try_except {S A} (m : ST S A) (h : exn -> ST S A) : ST S A :=
  fun s =>
    match m s with
    | (inl e, s') => h e s'
    | (inr a, s') => (inr a, s')
    end.

(** [try: m  finally: c], for a cleanup that does not raise. *)
Definition try_finally {S A} (m : ST S A) (c : S -> S) : ST S A :=
  fun s => let '(r, s') := m s in (r, c s').

Definition lift {S A} (r : result A) : ST S A := fun s => (r, s).

Definition modify {S} (f : S -> S) : ST S unit := fun s => (inr tt, f s).

Definition get {S} : ST S S := fun s => (inr s, s).

Declare Scope M_scope.
Delimit Scope M_scope with M.
Notation "x <- m ;; k" := (bind m (fun x => k))
  (at level 100, m at next level, right associativity) : M_scope.
Notation "m ;; k" := (bind m (fun _ => k))
  (at level 100, right associativity) : M_scope.

(** A [for] loop threading an accumulator. *)
Fixpoint foldM {S A B} (f : B -> A -> ST S B) (l : list A) (b : B) : ST S B :=
  match l with
  | [] => ret b
  | a :: l' => bind (f b a) (foldM f l')
  end.

(** A computation on a local object [x] beside the world; the object as the
    computation left it comes back with the result. *)
Definition with_local {X A} (x : X) (m : ST (X * world) A) : M (A * X) :=
  fun w =>
    match m (x, w) with
    | (inl e, (_, w')) => (inl e, w')
    | (inr a, (x', w')) => (inr (a, x'), w')
    end.

(** A computation on the world, run beside a local object. *)
Definition in_world {X A} (m : M A) : ST (X * world) A :=
  fun s => let '(r, w') := m (snd s) in (r, (fst s, w')).

(** [logger.info], [logger.warning], [logger.error] *)
Definition logger (l : level) (msg : pystr) : M unit :=
  modify (fun w => mkWorld (fs w) (log w ++ [(l, msg)])).

(** ** The environment: what the libraries and the operating system decide *)

(** The library and system calls that can raise for reasons outside the
    program ([S_import], [S_add_settings_part] and the three [S_oxml] sites
    are those of [embed_fonts]; [S_PdfMerger] is the import and creation of
    the PDF merger). *)
Inductive site :=
| S_mkdtemp
| S_copy (src dst : pystr)
| S_Document (path : pystr)
| S_save (path : pystr)
| S_import
| S_add_settings_part
| S_oxml (tag : pystr)
| S_makedirs (path : pystr)
| S_copy2 (src dst : pystr)
| S_PdfMerger
| S_merger_append (path : pystr)
| S_merger_write (path : pystr)
| S_zip_open (path : pystr)
| S_zip_write (path : pystr).

(** How the external converter process ends: it could not be started, or it
    exited with a return code, a standard error text and, possibly, an output
    file. *)
Inductive process :=
| Spawn_failed (e : exn)
| Exited (returncode : Z) (stderr : pystr) (output : option file).

Record Env := mkEnv {
  (** [datetime.fromisoformat] *)
  fromisoformat : pystr -> result datetime;
  (** The Umm al-Qura conversion of a Gregorian date inside the supported
      range: Hijri (year, month, day). *)
  ummalqura : Z -> Z -> Z -> Z * Z * Z;
  (** The name [tempfile.TemporaryDirectory()] picks. *)
  tempdir : pystr;
  (** The run of [unoconv -f pdf -o pdf_file docx_file], given what
      [docx_file] holds. *)
  unoconv : pystr -> pystr -> option file -> process;
  (** An exception a library call raises on its own. *)
  fault : site -> option exn
}.

(** A library call that may raise for an outside reason. *)
Definition call (env : Env) (s : site) : M unit :=
  match fault env s with
  | Some e => raise e
  | None => ret tt
  end.

(** ** The program *)

#[local] Open Scope M_scope.

(** *** Data models of the request *)

Record Person := mkPerson {
  name : pystr;
  nationality : pystr;
  id_number : pystr
}.

Record GetPassData := mkData {
  people : list Person;
  (** each [GregorianDate] holds one string, [date] *)
  dates : list pystr
}.

(** *** [embed_fonts] *)

(** [settings.append(elm)] for a new element [tag] with [w:val="true"]. *)
Definition append_setting (env : Env) (tag : pystr) : ST (document * world) unit :=
  in_world (call env (S_oxml tag)) ;;
  modify (fun s : document * world =>
            (mkDoc (d_tables (fst s)) (d_settings (fst s) ++ [(tag, u "true")]), snd s)).

Definition embed_fonts (env : Env) : ST (document * world) bool :=
  try_except
    (in_world (call env S_import) ;;
     s <- get ;;
     (* an element without children is false *)
     (if (length (d_settings (fst s)) =? 0)%nat
      then in_world (call env S_add_settings_part)
      else ret tt) ;;
     append_setting env (u "w:embedSystemFonts") ;;
     append_setting env (u "w:embedTrueTypeFonts") ;;
     append_setting env (u "w:saveSubsetFonts") ;;
     in_world (logger INFO (u "Added font embedding settings to document")) ;;
     ret true)
    (fun e =>
       in_world (logger ERROR (u "Failed to set font embedding: " ++ str_of_exn e)) ;;
       ret false).

(** *** [convert_to_hijri] *)

Definition ARABIC_DAY_NAMES : list pystr :=
  [u "الأحد"; u "الإثنين"; u "الثلاثاء"; u "الأربعاء"; u "الخميس"; u "الجمعة"; u "السبت"].

(** The range [hijri_converter] supports: 1 August 1924 to 16 November 2077. *)
Definition GREGORIAN_RANGE : (Z * Z * Z) * (Z * Z * Z) := ((1924, 8, 1), (2077, 11, 16)).

(** [a <= b] on tuples of three integers (lexicographic). *)
Definition tuple_leb (a b : Z * Z * Z) : bool :=
  let '(a1, a2, a3) := a in
  let '(b1, b2, b3) := b in
  (a1 <? b1) || (a1 =? b1) && ((a2 <? b2) || (a2 =? b2) && (a3 <=? b3)).

Definition in_gregorian_range (y m d : Z) : bool :=
  tuple_leb (fst GREGORIAN_RANGE) (y, m, d) && tuple_leb (y, m, d) (snd GREGORIAN_RANGE).

(** [hijri_converter.convert.Gregorian(y, m, d).to_hijri()]: outside the
    supported range the constructor raises [OverflowError]. *)
Definition to_hijri (env : Env) (y m d : Z) : result (Z * Z * Z) :=
  if in_gregorian_range y m d then inr (ummalqura env y m d)
  else inl (Exc OverflowError (u "date out of range")).

(** The body of the [try] block, up to the log line. *)
Definition convert_to_hijri_body (env : Env) (date_str : pystr)
  : result (pystr * pystr * pystr) :=
  (date_obj <- fromisoformat env (replace (u "Z") (u "+00:00") date_str) ;;
   let day_of_week := weekday date_obj in
   let arabic_day_index := (day_of_week + 1) mod 7 in
   arabic_day_name <- index ARABIC_DAY_NAMES (Z.to_nat arabic_day_index) ;;
   hijri <- to_hijri env (year date_obj) (month date_obj) (day date_obj) ;;
   let '(hy, hm, hd) := hijri in
   let hijri_date_str := format_02d hd ++ u "/" ++ format_02d hm ++ u "/" ++ str_of_int hy in
   let gregorian_date_str :=
     format_02d (day date_obj) ++ u "/" ++ format_02d (month date_obj) ++ u "/"
       ++ str_of_int (year date_obj) in
   inr (hijri_date_str, arabic_day_name, gregorian_date_str))%result.

Definition convert_to_hijri (env : Env) (date_str : pystr) : M (pystr * pystr * pystr) :=
  try_except
    (r <- lift (convert_to_hijri_body env date_str) ;;
     let '(hijri_date_str, arabic_day_name, gregorian_date_str) := r in
     logger INFO (u "Converted date: Gregorian " ++ gregorian_date_str ++ u " to Hijri "
                    ++ hijri_date_str ++ u ", Day: " ++ arabic_day_name) ;;
     ret r)
    (fun e =>
       logger ERROR (u "Error converting date: " ++ str_of_exn e) ;;
       raise (Exc ValueError (u "Invalid date format: " ++ date_str))).

(** *** [set_cell_style] *)

Definition ARIAL : pystr := u "Arial (Body CS)".
Definition TIMES : pystr := u "Times New Roman (Headings CS)".

Definition style_paragraph (p : paragraph) : paragraph :=
  mkPar (map (fun r => mkRun (r_text r) (Some ARIAL) (Some 15) (Some true)) (p_runs p))
        (Some CENTER).

Definition set_cell_style (c : cell) : cell :=
  let c1 := set_cell_text (strip (cell_text c)) in
  mkCell (map style_paragraph (c_paragraphs c1)).

(** *** [process_document]: the replacement table *)

(** A [dict] with string keys, in insertion order. *)
Definition dict : Type := list (pystr * pystr).

Fixpoint dict_get (d : dict) (k : pystr) : option pystr :=
  match d with
  | [] => None
  | (k', v) :: d' => if str_eqb k' k then Some v else dict_get d' k
  end.

(** [d[k] = v]: an existing key keeps its place. *)
Fixpoint dict_set (k v : pystr) (d : dict) : dict :=
  match d with
  | [] => [(k, v)]
  | (k', v') :: d' => if str_eqb k' k then (k', v) :: d' else (k', v') :: dict_set k v d'
  end.

Definition K_day : pystr := u "(اليوم)".
Definition K_D : pystr := u "[D]".
Definition K_M : pystr := u "[M]".
Definition K_Y : pystr := u "[Y]".
Definition K_d : pystr := u "[d]".
Definition K_m : pystr := u "[m]".
Definition K_yyyy : pystr := u "[yyyy]".
Definition K_count : pystr := u "الموضح هوياتهم بالبيان المرفق وعددهم (ع)".
Definition K_first : pystr := u "(اولهم)".
Definition K_last : pystr := u "(اخرهم)".

(** The keys [f"(الزائر{i})"], [f"(الهويه{i})"] and [f"(الجنسيه{i})"]. *)
Definition K_visitor (i : Z) : pystr := u "(الزائر" ++ str_of_int i ++ u ")".
Definition K_id (i : Z) : pystr := u "(الهويه" ++ str_of_int i ++ u ")".
Definition K_nationality (i : Z) : pystr := u "(الجنسيه" ++ str_of_int i ++ u ")".

(** The label that replaces [K_count]. *)
Definition count_label (num_people : Z) : pystr :=
  u "الموضح هوياتهم بالبيان المرفق وعددهم (" ++ format_02d num_people ++ u ") ☒".

(** [enumerate(l, start)] *)
Fixpoint enumerate {A} (start : Z) (l : list A) : list (Z * A) :=
  match l with
  | [] => []
  | a :: l' => (start, a) :: enumerate (start + 1) l'
  end.

(** [l[-1]] *)
Definition index_last {A} (l : list A) : result A :=
  match last l with
  | Some a => inr a
  | None => inl (Exc IndexError (u "list index out of range"))
  end.

(** Lines 143 to 186: the dictionary literal, the count label and the three
    cases on the number of visitors. *)
Definition build_replacements (date_info : pystr * pystr * pystr) (people : list Person)
  : result dict :=
  (let '(hijri_date_str, day, gregorian_date_str) := date_info in
   hD <- index (split 47 hijri_date_str) 0 ;;
   hM <- index (split 47 hijri_date_str) 1 ;;
   hY <- index (split 47 hijri_date_str) 2 ;;
   gd <- index (split 47 gregorian_date_str) 0 ;;
   gm <- index (split 47 gregorian_date_str) 1 ;;
   gy <- index (split 47 gregorian_date_str) 2 ;;
   let replacements : dict :=
     [(K_day, day); (K_D, hD); (K_M, hM); (K_Y, hY); (K_d, gd); (K_m, gm); (K_yyyy, gy)] in
   let num_people := Z.of_nat (length people) in
   let replacements := dict_set K_count (count_label num_people) replacements in
   if num_people =? 1 then
     person <- index people 0 ;;
     let replacements := dict_set (u "(الزائر1)") (name person) replacements in
     let replacements := dict_set (u "(الهويه1)") (id_number person) replacements in
     let replacements := dict_set (u "(الجنسيه1)") (nationality person) replacements in
     let replacements := dict_set (u "(الزائر2)") [] replacements in
     let replacements := dict_set (u "(الهويه2)") [] replacements in
     let replacements := dict_set (u "(الجنسيه2)") [] replacements in
     let replacements := dict_set K_first [] replacements in
     let replacements := dict_set K_last [] replacements in
     inr replacements
   else if num_people =? 2 then
     let replacements :=
       fold_left
         (fun (replacements : dict) (ip : Z * Person) =>
            let '(i, person) := ip in
            let replacements := dict_set (K_visitor i) (name person) replacements in
            let replacements := dict_set (K_id i) (id_number person) replacements in
            dict_set (K_nationality i) (nationality person) replacements)
         (enumerate 1 people) replacements in
     let replacements := dict_set K_first [] replacements in
     let replacements := dict_set K_last [] replacements in
     inr replacements
   else
     let replacements := dict_set (u "(الزائر1)") [] replacements in
     let replacements := dict_set (u "(الهويه1)") [] replacements in
     let replacements := dict_set (u "(الجنسيه1)") [] replacements in
     let replacements := dict_set (u "(الزائر2)") [] replacements in
     let replacements := dict_set (u "(الهويه2)") [] replacements in
     let replacements := dict_set (u "(الجنسيه2)") [] replacements in
     first <- index people 0 ;;
     let replacements := dict_set K_first (name first) replacements in
     final <- index_last people ;;
     let replacements := dict_set K_last (name final) replacements in
     inr replacements)%result.

(** *** [process_document]: filling the tables *)

Definition LABEL_FRAGMENT : pystr := u "لموضح هوياتهم بالبيان".

(** [text in {...}] for a set whose elements are results of [dict.get]. *)
Definition in_set (text : pystr) (set : list (option pystr)) : bool :=
  existsb (fun o => match o with
                    | Some s => str_eqb s text
                    | None => false
                    end) set.

(** Lines 192 to 194: every key found in the cell text is replaced, in the
    order of the dictionary. *)
Definition substitute_cell (replacements : dict) (c : cell) : cell :=
  fold_left
    (fun c kv => if contains (fst kv) (cell_text c)
                 then set_cell_text (replace (fst kv) (snd kv) (cell_text c))
                 else c)
    replacements c.

(** Lines 198 to 223 for one run: the run's new formatting and the
    alignment of its paragraph. *)
Definition restyle_run (replacements : dict) (people : list Person) (day : pystr)
    (r : run) (al : option alignment) : run * option alignment :=
  let text := strip (r_text r) in
  let get := dict_get replacements in
  if contains LABEL_FRAGMENT text then
    (mkRun (r_text r) (Some TIMES) (Some 15) (Some false), Some RIGHT)
  else if in_set text [get K_D; get K_M; get K_Y; get K_d; get K_m; get K_yyyy] then
    (mkRun (r_text r) (Some ARIAL) (Some 8) (Some true),
     if in_set text [get K_d; get K_D] then Some CENTER
     else if in_set text [get K_M; get K_m] then Some CENTER
     else if in_set text [get K_Y; get K_yyyy] then Some RIGHT
     else al)
  else if in_set text (map (fun p => Some (name p)) people
                       ++ map (fun p => Some (nationality p)) people
                       ++ map (fun p => Some (id_number p)) people
                       ++ [Some day]) then
    (mkRun (r_text r) (r_font_name r) (Some 15) (Some true), Some RIGHT)
  else
    (mkRun (r_text r) (Some TIMES) (Some 15) (Some true), al).

Definition restyle_paragraph (replacements : dict) (people : list Person) (day : pystr)
    (p : paragraph) : paragraph :=
  let '(runs, al) :=
    fold_left
      (fun (acc : list run * option alignment) r =>
         let '(r', al') := restyle_run replacements people day r (snd acc) in
         (fst acc ++ [r'], al'))
      (p_runs p) ([], p_alignment p) in
  mkPar runs al.

Definition fill_cell (replacements : dict) (people : list Person) (day : pystr)
    (c : cell) : cell :=
  let c1 := substitute_cell replacements c in
  mkCell (map (restyle_paragraph replacements people day) (c_paragraphs c1)).

(** Lines 189 to 223: every cell of every row of every table. *)
Definition fill_tables (replacements : dict) (people : list Person) (day : pystr)
    (doc : document) : document :=
  mkDoc
    (map (fun t => mkTable
                     (map (fun r => mkRow (map (fill_cell replacements people day) (r_cells r)))
                          (t_rows t))
                     (t_ncols t))
         (d_tables doc))
    (d_settings doc).

(** *** [process_document]: the table of all visitors *)

(** [row.cells[j].text = s] *)
Definition write_cell (j : nat) (s : pystr) (r : row) : result row :=
  (_ <- index (r_cells r) j ;;
   inr (mkRow (<[j := set_cell_text s]> (r_cells r))))%result.

(** [set_cell_style(row.cells[j])] *)
Definition style_cell (j : nat) (r : row) : result row :=
  (c <- index (r_cells r) j ;;
   inr (mkRow (<[j := set_cell_style c]> (r_cells r))))%result.

(** Lines 240 to 242. *)
Definition write_person (person : Person) (r : row) : result row :=
  (r <- write_cell 0 (id_number person) r ;;
   r <- write_cell 1 (nationality person) r ;;
   write_cell 2 (name person) r)%result.

(** Lines 245 and 246. *)
Definition style_row (r : row) : result row :=
  (r <- style_cell 0 r ;;
   r <- style_cell 1 r ;;
   style_cell 2 r)%result.

(** One turn of the loop of lines 231 to 246: the row is the existing row
    [i] when there is one, a new last row otherwise. *)
Definition overflow_step (t : table) (ip : Z * Person) : result table :=
  (let '(i, person) := ip in
   let '(t, k) :=
     if i <=? Z.of_nat (length (t_rows t)) - 1
     then (t, Z.to_nat i)
     else (add_row t, length (t_rows t)) in
   r <- index (t_rows t) k ;;
   r <- write_person person r ;;
   r <- style_row r ;;
   inr (mkTable (<[k := r]> (t_rows t)) (t_ncols t)))%result.

Fixpoint overflow_loop (t : table) (l : list (Z * Person)) : result table :=
  match l with
  | [] => inr t
  | ip :: l' => rbind (overflow_step t ip) (fun t' => overflow_loop t' l')
  end.

(** Lines 226 to 246. *)
Definition write_overflow (people : list Person) (doc : document) : result document :=
  (if 2 <? Z.of_nat (length people) then
     t <- index (d_tables doc) 1 ;;
     t <- overflow_loop t (enumerate 1 people) ;;
     inr (mkDoc (<[1%nat := t]> (d_tables doc)) (d_settings doc))
   else inr doc)%result.

(** *** [process_document] *)

Definition file_not_found (p : pystr) : exn :=
  Exc FileNotFoundError (u "[Errno 2] No such file or directory: '" ++ p ++ u "'").

(** [shutil.copy(src, dst)] *)
Definition shutil_copy (env : Env) (src dst : pystr) : M unit :=
  call env (S_copy src dst) ;;
  w <- get ;;
  match read_file w src with
  | Some f => modify (write_file dst f)
  | None => raise (file_not_found src)
  end.

(** [Document(path)] *)
Definition open_document (env : Env) (p : pystr) : M document :=
  call env (S_Document p) ;;
  w <- get ;;
  match read_file w p with
  | Some (FDocx d) => ret d
  | Some _ => raise (Exc LibraryError (u "file is not a Word file"))
  | None => raise (Exc LibraryError (u "Package not found at '" ++ p ++ u "'"))
  end.

(** [doc.save(path)] *)
Definition save_document (env : Env) (doc : document) (p : pystr) : M unit :=
  call env (S_save p) ;;
  modify (write_file p (FDocx doc)).

Definition process_document (env : Env) (date_info : pystr * pystr * pystr)
    (people : list Person) (template_file output_file : pystr) : M pystr :=
  shutil_copy env template_file output_file ;;
  doc <- open_document env output_file ;;
  let '(hijri_date_str, day, gregorian_date_str) := date_info in
  replacements <- lift (build_replacements date_info people) ;;
  let doc := fill_tables replacements people day doc in
  doc <- lift (write_overflow people doc) ;;
  bd <- with_local doc (embed_fonts env) ;;
  let doc := snd bd in
  save_document env doc output_file ;;
  logger INFO (u "تم إنشاء الملف بنجاح: " ++ output_file) ;;
  ret output_file.

(** *** [convert_to_pdf] *)

(** [os.path.exists(p)] *)
Definition path_exists (w : world) (p : pystr) : bool :=
  match read_file w p with
  | Some _ => true
  | None => false
  end.

Definition convert_to_pdf (env : Env) (docx_file pdf_file : pystr) : M bool :=
  try_except
    (w <- get ;;
     match unoconv env docx_file pdf_file (read_file w docx_file) with
     | Spawn_failed e => raise e
     | Exited returncode stderr output =>
         match output with
         | Some f => modify (write_file pdf_file f)
         | None => ret tt
         end ;;
         if negb (returncode =? 0) then
           logger ERROR (u "Error converting to PDF: " ++ stderr) ;;
           ret false
         else
           w <- get ;;
           if negb (path_exists w pdf_file) then
             logger ERROR (u "PDF file was not created: " ++ pdf_file) ;;
             ret false
           else ret true
     end)
    (fun e =>
       logger ERROR (u "Error in PDF conversion: " ++ str_of_exn e) ;;
       ret false).

(** *** [merge_pdfs] *)

(** [merger.append(pdf)]: the pages of the file join those collected. *)
Definition merger_append (env : Env) (pages : list pystr) (pdf : pystr) : M (list pystr) :=
  call env (S_merger_append pdf) ;;
  w <- get ;;
  match read_file w pdf with
  | Some (FPdf ps) => ret (pages ++ ps)
  | Some _ => raise (Exc LibraryError (u "EOF marker not found"))
  | None => raise (file_not_found pdf)
  end.

Definition merge_pdfs (env : Env) (pdf_files : list pystr) (output_file : pystr) : M bool :=
  try_except
    (call env S_PdfMerger ;;
     pages <- foldM (merger_append env) pdf_files [] ;;
     call env (S_merger_write output_file) ;;
     modify (write_file output_file (FPdf pages)) ;;
     ret true)
    (fun e =>
       logger ERROR (u "Error merging PDFs: " ++ str_of_exn e) ;;
       ret false).

(** *** [create_docx_zip] *)

(** [zipf.write(docx_file, os.path.basename(docx_file))]: the archive on disk
    gains the member. *)
Definition zip_write (env : Env) (output_zip : pystr) (members : list (pystr * file))
    (docx_file : pystr) : M (list (pystr * file)) :=
  call env (S_zip_write docx_file) ;;
  w <- get ;;
  match read_file w docx_file with
  | Some f =>
      let members := members ++ [(basename docx_file, f)] in
      modify (write_file output_zip (FZip members)) ;;
      ret members
  | None => raise (file_not_found docx_file)
  end.

Definition create_docx_zip (env : Env) (docx_files : list pystr) (output_zip : pystr) : M bool :=
  try_except
    (call env (S_zip_open output_zip) ;;
     modify (write_file output_zip (FZip [])) ;;
     foldM (zip_write env output_zip) docx_files [] ;;
     ret true)
    (fun e =>
       logger ERROR (u "Error creating ZIP file: " ++ str_of_exn e) ;;
       ret false).

(** *** [generate_getpass] *)

Record FileResponse := mkResponse {
  path : pystr;
  filename : pystr;
  media_type : pystr
}.

Definition MEDIA_PDF : pystr := u "application/pdf".
Definition MEDIA_DOCX : pystr :=
  u "application/vnd.openxmlformats-officedocument.wordprocessingml.document".
Definition MEDIA_ZIP : pystr := u "application/zip".

(** [shutil.copy2(src, dst)] *)
Definition shutil_copy2 (env : Env) (src dst : pystr) : M unit :=
  call env (S_copy2 src dst) ;;
  w <- get ;;
  match read_file w src with
  | Some f => modify (write_file dst f)
  | None => raise (file_not_found src)
  end.

(** The local variables the loop over the dates updates. *)
Record loop_state := mkLoop {
  docx_files : list pystr;
  pdf_files : list pystr;
  conversion_success : bool
}.

(** Lines 465 to 485: one date. *)
Definition date_step (env : Env) (people : list Person) (temp_dir : pystr)
    (st : loop_state) (id : Z * pystr) : M loop_state :=
  let '(i, date) := id in
  try_except
    (date_info <- convert_to_hijri env date ;;
     let docx_file := path_join temp_dir (u "getpass_" ++ str_of_int i ++ u ".docx") in
     let pdf_file := path_join temp_dir (u "getpass_" ++ str_of_int i ++ u ".pdf") in
     processed_docx <- process_document env date_info people (u "GETPASS.docx") docx_file ;;
     let docx_files := docx_files st ++ [processed_docx] in
     ok <- convert_to_pdf env docx_file pdf_file ;;
     if ok then
       ret (mkLoop docx_files (pdf_files st ++ [pdf_file]) (conversion_success st))
     else
       logger WARNING (u "Failed to convert " ++ docx_file ++ u " to PDF") ;;
       ret (mkLoop docx_files (pdf_files st) false))
    (fun e =>
       (* except ValueError as e *)
       if is_ValueError e then
         logger ERROR (u "Invalid date format: " ++ str_of_exn e) ;;
         raise (HTTPException 400 (u "Invalid date format: " ++ str_of_exn e))
       else raise e).

Definition len {A} (l : list A) : Z := Z.of_nat (length l).

(** Lines 491 to 512, the two PDF branches.  The result is the response
    returned, or [None] for reaching the next statement, and the value of
    [conversion_success] at that point. *)
Definition pdf_stage (env : Env) (st : loop_state) : M (option FileResponse * bool) :=
  let output_dir := u "output" in
  if conversion_success st && (1 <? len (pdf_files st)) then
    let final_pdf_path := path_join output_dir (u "getpass.pdf") in
    ok <- merge_pdfs env (pdf_files st) final_pdf_path ;;
    if ok then ret (Some (mkResponse final_pdf_path (u "getpass.pdf") MEDIA_PDF), true)
    else ret (None, false)
  else if conversion_success st && (len (pdf_files st) =? 1) then
    let final_pdf_path := path_join output_dir (u "getpass.pdf") in
    src <- lift (index (pdf_files st) 0) ;;
    shutil_copy2 env src final_pdf_path ;;
    ret (Some (mkResponse final_pdf_path (u "getpass.pdf") MEDIA_PDF), true)
  else ret (None, conversion_success st).

(** Lines 514 to 533, the Word branches, for the current value of
    [conversion_success]. *)
Definition word_stage (env : Env) (st : loop_state) (conversion_success : bool)
  : M (option FileResponse) :=
  let output_dir := u "output" in
  if negb conversion_success then
    if len (docx_files st) =? 1 then
      let final_docx_path := path_join output_dir (u "getpass.docx") in
      src <- lift (index (docx_files st) 0) ;;
      shutil_copy2 env src final_docx_path ;;
      ret (Some (mkResponse final_docx_path (u "getpass.docx") MEDIA_DOCX))
    else
      let zip_path := path_join output_dir (u "getpass_documents.zip") in
      ok <- create_docx_zip env (docx_files st) zip_path ;;
      if ok then ret (Some (mkResponse zip_path (u "getpass_documents.zip") MEDIA_ZIP))
      else ret None
  else ret None.

(** Lines 487 to 536. *)
Definition consolidate (env : Env) (st : loop_state) : M FileResponse :=
  let output_dir := u "output" in
  call env (S_makedirs output_dir) ;;
  first <- pdf_stage env st ;;
  match first with
  | (Some response, _) => ret response
  | (None, conversion_success) =>
      second <- word_stage env st conversion_success ;;
      match second with
      | Some response => ret response
      | None => raise (HTTPException 500 (u "Failed to generate documents"))
      end
  end.

(** [with tempfile.TemporaryDirectory() as temp_dir: body]: the directory and
    all it holds are removed when the block is left, normally or not. *)
Definition with_temporary_directory {A} (env : Env) (body : pystr -> M A) : M A :=
  call env S_mkdtemp ;;
  try_finally (body (tempdir env)) (remove_tree (tempdir env)).

Definition generate_getpass (env : Env) (data : GetPassData) : M FileResponse :=
  try_except
    (with_temporary_directory env (fun temp_dir =>
       st <- foldM (date_step env (people data) temp_dir)
                   (enumerate 0 (dates data)) (mkLoop [] [] true) ;;
       consolidate env st))
    (fun e =>
       logger ERROR (u "Error processing request: " ++ str_of_exn e) ;;
       raise (HTTPException 500 (u "Internal Server Error: " ++ str_of_exn e))).

(** What the client receives: the file of a [FileResponse] with status 200,
    or the status and detail of the [HTTPException] the handler raised; any
    other exception would be the framework's plain 500. *)
Inductive http_response :=
| Http_file (response : FileResponse)
| Http_error (status : Z) (detail : pystr).

Definition post_generate_getpass (env : Env) (data : GetPassData) (w : world)
  : http_response * world :=
  match generate_getpass env data w with
  | (inr response, w') => (Http_file response, w')
  | (inl (HTTPException sc d), w') => (Http_error sc d, w')
  | (inl (Exc _ _), w') => (Http_error 500 (u "Internal Server Error"), w')
  end.

Definition status_of (r : http_response) : Z :=
  match r with
  | Http_file _ => 200
  | Http_error sc _ => sc
  end.

(** ** An environment and a world to run the definitions on *)

Module Sample.

Definition digit_val (c : N) : option Z :=
  if ((48 <=? c) && (c <=? 57))%N then Some (Z.of_N c - 48) else None.

Fixpoint number (s : pystr) (acc : Z) : option Z :=
  match s with
  | [] => Some acc
  | c :: s' =>
      match digit_val c with
      | Some v => number s' (acc * 10 + v)
      | None => None
      end
  end.

(** An ISO parser for the calendar-date form [YYYY-MM-DD] alone. *)
Definition parse_date (s : pystr) : result datetime :=
  let bad := inl (Exc ValueError (u "Invalid isoformat string: '" ++ s ++ u "'")) in
  match s with
  | [y1; y2; y3; y4; 45; m1; m2; 45; d1; d2]%N =>
      match number [y1; y2; y3; y4] 0, number [m1; m2] 0, number [d1; d2] 0 with
      | Some y, Some m, Some d =>
          if valid_date (mkDate y m d) then inr (mkDate y m d) else bad
      | _, _, _ => bad
      end
  | _ => bad
  end.

(** A calendar table that knows the first days of January 2024. *)
Definition table (y m d : Z) : Z * Z * Z :=
  if (y =? 2024) && (m =? 1) && (d <=? 12) then (1445, 6, 18 + d) else (1445, 1, 1).

(** A converter that renders every Word document to a one-page PDF. *)
Definition converter (docx_file pdf_file : pystr) (content : option file) : process :=
  match content with
  | Some (FDocx _) => Exited 0 [] (Some (FPdf [u "page of " ++ docx_file]))
  | _ => Exited 1 (u "Error: source file could not be loaded") None
  end.

(** A converter that always fails. *)
Definition broken_converter (docx_file pdf_file : pystr) (content : option file) : process :=
  Exited 1 (u "unoconv: Cannot find a suitable office installation") None.

Definition no_fault (s : site) : option exn := None.

Definition env : Env := mkEnv parse_date table (u "/tmp/tmpk3v9x1") converter no_fault.

Definition env_no_pdf : Env :=
  mkEnv parse_date table (u "/tmp/tmpk3v9x1") broken_converter no_fault.

(** Font embedding fails at its first step. *)
Definition env_no_fonts : Env :=
  mkEnv parse_date table (u "/tmp/tmpk3v9x1") converter
    (fun s => match s with
              | S_import => Some (Exc ImportError (u "No module named 'docx.oxml'"))
              | _ => None
              end).

Definition text_cell (s : pystr) : cell := mkCell [mkPar [mkRun s None None None] None].

(** A template with the form table and the table of all visitors: a header
    row and two rows of three cells. *)
Definition template : document :=
  mkDoc
    [ mkTable
        [ mkRow [text_cell (u "(اليوم)"); text_cell (u "[D]"); text_cell (u "[M]");
                 text_cell (u "[Y]")];
          mkRow [text_cell (u "الموضح هوياتهم بالبيان المرفق وعددهم (ع)");
                 text_cell (u "(الزائر1)"); text_cell (u "(الزائر2)");
                 text_cell (u "(اولهم)")] ]
        4;
      mkTable
        [ mkRow [text_cell (u "id"); text_cell (u "nationality"); text_cell (u "name")];
          mkRow [new_cell; new_cell; new_cell];
          mkRow [new_cell; new_cell; new_cell] ]
        3 ]
    [(u "w:zoom", u "100")].

Definition world0 : world := mkWorld [(u "GETPASS.docx", FDocx template)] [].

Definition ali : Person := mkPerson (u "Ali") (u "SA") (u "1001").
Definition badr : Person := mkPerson (u " Badr ") (u "EG") (u "1002").
Definition carl : Person := mkPerson (u "Carl") (u "DE") (u "1003").
Definition dana : Person := mkPerson (u "Dana") (u "JO") (u "1004").

End Sample.

(** ** Vocabulary of the statements *)

(** The cell [set_cell_style] leaves after [s] was written into it: one
    centred paragraph with one bold run in Arial, 15 points, holding the text
    without surrounding white space. *)
Definition styled_cell (s : pystr) : cell :=
  mkCell [mkPar [mkRun (strip s) (Some ARIAL) (Some 15) (Some true)] (Some CENTER)].

(** Every row has the three cells the loop writes, and so has a new row. *)
Definition table_ok (t : table) : Prop :=
  Forall (fun r => (3 <= length (r_cells r))%nat) (t_rows t) /\ (3 <= t_ncols t)%nat.

(** The row a visitor is written into: row [m] of the table where it
    exists, a fresh row of empty cells otherwise. *)
Definition row_at (t : table) (m : nat) : row :=
  default (mkRow (replicate (t_ncols t) new_cell)) (t_rows t !! m).

(** Row [r'] is row [r] with the visitor's id number, nationality and name
    written into its first three cells and styled. *)
Definition holds_person (p : Person) (r r' : row) : Prop :=
  r_cells r' !! 0%nat = Some (styled_cell (id_number p)) /\
  r_cells r' !! 1%nat = Some (styled_cell (nationality p)) /\
  r_cells r' !! 2%nat = Some (styled_cell (name p)) /\
  drop 3 (r_cells r') = drop 3 (r_cells r).

(** The library calls made inside [embed_fonts]. *)
Definition embed_site (s : site) : bool :=
  match s with
  | S_import | S_add_settings_part | S_oxml _ => true
  | _ => false
  end.

(** The environment with other faults. *)
Definition with_fault (env : Env) (f : site -> option exn) : Env :=
  mkEnv (fromisoformat env) (ummalqura env) (tempdir env) (unoconv env) f.

(** A path below directory [dir]. *)
Definition below (dir p : pystr) : bool := startswith (dir ++ [47%N]) p.

(** What [tempfile] guarantees of the directory name: it is not empty and
    has no trailing slash. *)
Definition tempdir_ok (env : Env) : Prop :=
  exists c, last (tempdir env) = Some c /\ c <> 47%N.

(** [m] leaves every file outside [P] as it was. *)
Definition touches {A} (P : pystr -> Prop) (m : M A) : Prop :=
  forall w q, ~ P q -> read_file (snd (m w)) q = read_file w q.

(** The loop over the dates of [generate_getpass]. *)
Definition date_loop (env : Env) (people : list Person) (temp_dir : pystr)
    (dates : list pystr) : M loop_state :=
  foldM (date_step env people temp_dir) (enumerate 0 dates) (mkLoop [] [] true).

(** The body of the outer [try] block of [generate_getpass]. *)
Definition request_body (env : Env) (data : GetPassData) : M FileResponse :=
  with_temporary_directory env (fun temp_dir =>
    bind (date_loop env (people data) temp_dir (dates data)) (consolidate env)).

(** The working files of date number [i]. *)
Definition docx_name (temp_dir : pystr) (i : Z) : pystr :=
  path_join temp_dir (u "getpass_" ++ str_of_int i ++ u ".docx").

Definition pdf_name (temp_dir : pystr) (i : Z) : pystr :=
  path_join temp_dir (u "getpass_" ++ str_of_int i ++ u ".pdf").

(** The pages of the PDF files [files], in list order, when all of them are
    PDF files. *)
Fixpoint pdf_pages (w : world) (files : list pystr) : option (list pystr) :=
  match files with
  | [] => Some []
  | p :: files' =>
      match read_file w p, pdf_pages w files' with
      | Some (FPdf ps), Some rest => Some (ps ++ rest)
      | _, _ => None
      end
  end.

(** The paths the handler answers with, and its three responses. *)
Abbreviation OUT_PDF := (path_join (u "output") (u "getpass.pdf")).
Abbreviation OUT_DOCX := (path_join (u "output") (u "getpass.docx")).
Abbreviation OUT_ZIP := (path_join (u "output") (u "getpass_documents.zip")).

Abbreviation PDF_RESPONSE := (mkResponse OUT_PDF (u "getpass.pdf") MEDIA_PDF).
Abbreviation DOCX_RESPONSE := (mkResponse OUT_DOCX (u "getpass.docx") MEDIA_DOCX).
Abbreviation ZIP_RESPONSE := (mkResponse OUT_ZIP (u "getpass_documents.zip") MEDIA_ZIP).

(** The exception of line 536. *)
Abbreviation GENERATION_FAILED := (HTTPException 500 (u "Failed to generate documents")).


(** The runs of a cell, paragraph after paragraph. *)
Definition cell_runs (c : cell) : list run := concat (map p_runs (c_paragraphs c)).

(** The entries [embed_fonts] appends to the settings, in its order. *)
Definition FONT_SETTINGS : list (pystr * pystr) :=
  [(u "w:embedSystemFonts", u "true");
   (u "w:embedTrueTypeFonts", u "true");
   (u "w:saveSubsetFonts", u "true")].

(** The paths the handler writes its artifacts to. *)
Definition output_path (q : pystr) : Prop :=
  q = OUT_PDF \/ q = OUT_DOCX \/ q = OUT_ZIP.
(** * Properties *)

(** ** The string and calendar primitives on examples *)

Example u_ascii : u "[D]" = [91; 68; 93]%N.
Proof. reflexivity. Qed.

Example u_arabic : u "(ع)" = [40; 1593; 41]%N.
Proof. reflexivity. Qed.

Example u_box : u "☒" = [9746]%N.
Proof. reflexivity. Qed.

Example replace_ex : replace (u "ab") (u "X") (u "cabaabab") = u "cXaXX".
Proof. reflexivity. Qed.

Example strip_ex : strip (u "  a b 	") = u "a b".
Proof. reflexivity. Qed.

Example split_ex : split 47 (u "01/02/1445") = [u "01"; u "02"; u "1445"].
Proof. reflexivity. Qed.

Example fmt_ex : (format_02d 3, format_02d 12, format_02d 100, str_of_int 2024, format_02d 0)
                 = (u "03", u "12", u "100", u "2024", u "00").
Proof. reflexivity. Qed.

Example path_ex : (path_join (u "/tmp/x") (u "getpass_0.docx"), basename (u "/tmp/x/getpass_0.docx"))
                  = (u "/tmp/x/getpass_0.docx", u "getpass_0.docx").
Proof. reflexivity. Qed.

Example weekday_2024_01_01 : weekday (mkDate 2024 1 1) = 0 /\ isoweekday (mkDate 2024 1 1) = 1.
Proof. split; reflexivity. Qed.

Example weekday_2025_03_02 : weekday (mkDate 2025 3 2) = 6 /\ isoweekday (mkDate 2025 3 2) = 7.
Proof. split; reflexivity. Qed.


(** ** Basic facts: strings, lookups, the monad *)

Lemma str_eqb_eq (a b : pystr) : str_eqb a b = true <-> a = b.
Proof.
  revert b; induction a as [|x a IH]; intros [|y b]; simpl; try (split; congruence).
  rewrite andb_true_iff, N.eqb_eq, IH. split; [intros [-> ->]; reflexivity | intros [= -> ->]; auto].
Qed.

Lemma str_eqb_refl (a : pystr) : str_eqb a a = true.
Proof. apply str_eqb_eq; reflexivity. Qed.

Lemma index_Some {A} (l : list A) (i : nat) (a : A) : l !! i = Some a -> index l i = inr a.
Proof. unfold index; intros ->; reflexivity. Qed.

Lemma index_inr {A} (l : list A) (i : nat) (a : A) : index l i = inr a -> l !! i = Some a.
Proof. unfold index; destruct (l !! i); congruence. Qed.

Lemma index_inl {A} (l : list A) (i : nat) (e : exn) :
  index l i = inl e -> e = Exc IndexError (u "list index out of range").
Proof. unfold index; destruct (l !! i); congruence. Qed.

(** The Arabic index of a day, [(weekday + 1) % 7], is the ISO weekday
    number taken modulo 7 (Sunday 0, Monday 1, ..., Saturday 6). *)
Lemma arabic_index_iso (d : datetime) : (weekday d + 1) mod 7 = isoweekday d mod 7.
Proof.
  unfold weekday, isoweekday.
  destruct (toordinal d mod 7 =? 0) eqn:E.
  - apply Z.eqb_eq in E. Z.div_mod_to_equations. lia.
  - apply Z.eqb_neq in E. Z.div_mod_to_equations. lia.
Qed.

Lemma arabic_index_range (d : datetime) : (Z.to_nat ((weekday d + 1) mod 7) < 7)%nat.
Proof. pose proof (Z.mod_pos_bound (weekday d + 1) 7). lia. Qed.

Lemma day_name_exists (d : datetime) :
  exists n, ARABIC_DAY_NAMES !! Z.to_nat ((weekday d + 1) mod 7) = Some n.
Proof.
  apply lookup_lt_is_Some_2. change (length ARABIC_DAY_NAMES) with 7%nat.
  apply arabic_index_range.
Qed.

(** What [convert_to_hijri] does with the outcome of the body of its [try]
    block: a result is logged and returned, any exception is logged and
    replaced by [ValueError("Invalid date format: ...")]. *)
Lemma convert_to_hijri_run (env : Env) (s : pystr) (w : world) :
  convert_to_hijri env s w =
  match convert_to_hijri_body env s with
  | inr (h, n, g) =>
      (inr (h, n, g),
       mkWorld (fs w)
         (log w ++ [(INFO, u "Converted date: Gregorian " ++ g ++ u " to Hijri " ++ h
                             ++ u ", Day: " ++ n)]))
  | inl e =>
      (inl (Exc ValueError (u "Invalid date format: " ++ s)),
       mkWorld (fs w) (log w ++ [(ERROR, u "Error converting date: " ++ str_of_exn e)]))
  end.
Proof.
  unfold convert_to_hijri, try_except, bind, lift, logger, modify, ret, raise.
  destruct (convert_to_hijri_body env s) as [e | [[h n] g]]; reflexivity.
Qed.

Lemma convert_to_hijri_body_cases (env : Env) (s : pystr) :
  match fromisoformat env (replace (u "Z") (u "+00:00") s) with
  | inl e => convert_to_hijri_body env s = inl e
  | inr d =>
      exists n, ARABIC_DAY_NAMES !! Z.to_nat ((weekday d + 1) mod 7) = Some n /\
      if in_gregorian_range (year d) (month d) (day d) then
        let '(hy, hm, hd) := ummalqura env (year d) (month d) (day d) in
        convert_to_hijri_body env s =
        inr (format_02d hd ++ u "/" ++ format_02d hm ++ u "/" ++ str_of_int hy, n,
             format_02d (day d) ++ u "/" ++ format_02d (month d) ++ u "/"
               ++ str_of_int (year d))
      else convert_to_hijri_body env s = inl (Exc OverflowError (u "date out of range"))
  end.
Proof.
  unfold convert_to_hijri_body.
  destruct (fromisoformat env _) as [e | d]; simpl; [reflexivity|].
  destruct (day_name_exists d) as [n Hn]. exists n; split; [exact Hn|].
  rewrite (index_Some _ _ _ Hn); simpl. unfold to_hijri.
  destruct (in_gregorian_range _ _ _); simpl; [|reflexivity].
  destruct (ummalqura env _ _ _) as [[hy hm] hd]. reflexivity.
Qed.

(** C5 (as amended): [convert_to_hijri] raises exactly when the parser rejects
    the string or the parsed date lies outside the range the Hijri library
    supports, and what it raises is always
    [ValueError("Invalid date format: <input>")]; for a parsable date inside
    the range it returns the triple (Hijri date, Arabic day name, Gregorian
    date) built from the parsed fields. *)
Theorem convert_to_hijri_fails_iff (env : Env) (s : pystr) (w : world) :
  match fromisoformat env (replace (u "Z") (u "+00:00") s) with
  | inl _ =>
      fst (convert_to_hijri env s w) = inl (Exc ValueError (u "Invalid date format: " ++ s))
  | inr d =>
      if in_gregorian_range (year d) (month d) (day d) then
        exists n, ARABIC_DAY_NAMES !! Z.to_nat ((weekday d + 1) mod 7) = Some n /\
        fst (convert_to_hijri env s w) =
        inr (let '(hy, hm, hd) := ummalqura env (year d) (month d) (day d) in
             format_02d hd ++ u "/" ++ format_02d hm ++ u "/" ++ str_of_int hy,
             n,
             format_02d (day d) ++ u "/" ++ format_02d (month d) ++ u "/"
               ++ str_of_int (year d))
      else
        fst (convert_to_hijri env s w) = inl (Exc ValueError (u "Invalid date format: " ++ s))
  end.
Proof.
  rewrite convert_to_hijri_run.
  pose proof (convert_to_hijri_body_cases env s) as H.
  destruct (fromisoformat env _) as [e | d].
  - rewrite H; reflexivity.
  - destruct H as [n [Hn H]].
    destruct (in_gregorian_range _ _ _).
    + exists n; split; [exact Hn|].
      destruct (ummalqura env _ _ _) as [[hy hm] hd]. rewrite H; reflexivity.
    + rewrite H; reflexivity.
Qed.

(** C5, the claim as stated fails: the string 1900-01-01 parses as a valid
    calendar date, yet in every environment that parses it so the converter
    raises the invalid-date-format error, because the Hijri library rejects
    dates before 1 August 1924. *)
Lemma parsable_date_still_fails :
  exists s d,
    s = u "1900-01-01" /\ d = mkDate 1900 1 1 /\ valid_date d = true /\
    forall env w,
      fromisoformat env (replace (u "Z") (u "+00:00") s) = inr d ->
      fst (convert_to_hijri env s w) = inl (Exc ValueError (u "Invalid date format: " ++ s)).
Proof.
  exists (u "1900-01-01"), (mkDate 1900 1 1). repeat split.
  intros env w Hp. rewrite convert_to_hijri_run.
  pose proof (convert_to_hijri_body_cases env (u "1900-01-01")) as H.
  rewrite Hp in H. destruct H as (n & _ & H).
  change (in_gregorian_range 1900 1 1) with false in H. rewrite H. reflexivity.
Qed.



(** ** The replacement table *)

Lemma of_nat_length_cases {A} (x y z : A) (l : list A) :
  (Z.of_nat (length (x :: y :: z :: l)) =? 1) = false /\
  (Z.of_nat (length (x :: y :: z :: l)) =? 2) = false /\
  (2 <? Z.of_nat (length (x :: y :: z :: l))) = true.
Proof.
  repeat split; [apply Z.eqb_neq | apply Z.eqb_neq | apply Z.ltb_lt];
    cbn [length]; lia.
Qed.

Ltac date_fields H :=
  unfold build_replacements in H;
  repeat match type of H with
         | context [index (split 47 ?s) ?k] =>
             let E := fresh "E" in
             destruct (index (split 47 s) k) as [?|?] eqn:E; [discriminate H|];
             cbn [rbind] in H
         end.

(** ** The replacement table is built for every converted date *)

Lemma split_from_field (sep : N) (s : pystr) :
  Forall (fun c => c <> sep) s ->
  forall cur rest,
    split_from sep (s ++ sep :: rest) cur = (rev cur ++ s) :: split_from sep rest [].
Proof.
  induction 1 as [|c s Hc Hs IH]; intros cur rest; cbn [app split_from].
  - rewrite N.eqb_refl, app_nil_r. reflexivity.
  - apply N.eqb_neq in Hc. rewrite Hc, IH. cbn [rev]. rewrite <- app_assoc. reflexivity.
Qed.

Lemma split_from_end (sep : N) (s : pystr) :
  Forall (fun c => c <> sep) s -> forall cur, split_from sep s cur = [rev cur ++ s].
Proof.
  induction 1 as [|c s Hc Hs IH]; intros cur; cbn [split_from].
  - rewrite app_nil_r. reflexivity.
  - apply N.eqb_neq in Hc. rewrite Hc, IH. cbn [rev]. rewrite <- app_assoc. reflexivity.
Qed.

Lemma u_slash : u "/" = [47%N].
Proof. vm_compute. reflexivity. Qed.

(** [a/b/c] splits into its three fields. *)
Lemma split_date (a b c : pystr) :
  Forall (fun x => x <> 47%N) a -> Forall (fun x => x <> 47%N) b ->
  Forall (fun x => x <> 47%N) c ->
  split 47 (a ++ u "/" ++ b ++ u "/" ++ c) = [a; b; c].
Proof.
  intros Ha Hb Hc. unfold split. rewrite u_slash. cbn [app].
  rewrite (split_from_field 47 a Ha), (split_from_field 47 b Hb), (split_from_end 47 c Hc).
  reflexivity.
Qed.

Lemma digits_fuel_no_slash (f : nat) :
  forall n acc, Forall (fun x => x <> 47%N) acc ->
                Forall (fun x => x <> 47%N) (digits_fuel f n acc).
Proof.
  induction f as [|f IH]; intros n acc Hacc; cbn [digits_fuel]; [exact Hacc|].
  assert (Forall (fun x => x <> 47%N) ((48 + n mod 10)%N :: acc)) as H
      by (constructor; [generalize (n mod 10)%N; intros x; lia | exact Hacc]).
  destruct (n <? 10)%N; [exact H | apply IH; exact H].
Qed.

Lemma digits_no_slash (n : N) : Forall (fun x => x <> 47%N) (digits n).
Proof. apply digits_fuel_no_slash. constructor. Qed.

Lemma str_of_int_no_slash (z : Z) : Forall (fun x => x <> 47%N) (str_of_int z).
Proof.
  unfold str_of_int. destruct (z <? 0); [constructor; [lia|]|]; apply digits_no_slash.
Qed.

Lemma format_02d_no_slash (z : Z) : Forall (fun x => x <> 47%N) (format_02d z).
Proof.
  unfold format_02d. pose proof (digits_no_slash (Z.to_N (Z.abs z))) as H.
  destruct (z <? 0); [constructor; [lia | exact H]|].
  destruct (digits _) as [|c [|c' l]]; try exact H.
  constructor; [lia | exact H].
Qed.

(** The table is built whenever both date strings have three fields and
    there is a visitor. *)
Lemma build_replacements_total (h day g : pystr) (persons : list Person)
    (a b c a' b' c' : pystr) :
  split 47 h = [a; b; c] -> split 47 g = [a'; b'; c'] -> persons <> [] ->
  exists d, build_replacements (h, day, g) persons = inr d.
Proof.
  intros Hh Hg Hp. unfold build_replacements. rewrite Hh, Hg.
  unfold index at 1 2 3 4 5 6. cbn [lookup list_lookup rbind].
  destruct persons as [|p1 [|p2 [|p3 rest]]]; [contradiction| | |].
  - eexists. vm_compute. reflexivity.
  - eexists. vm_compute. reflexivity.
  - destruct (of_nat_length_cases p1 p2 p3 rest) as (N1 & N2 & _). rewrite N1, N2.
    destruct (last (p1 :: p2 :: p3 :: rest)) as [pl|] eqn:EL;
      [|apply last_None in EL; discriminate EL].
    unfold index_last. rewrite EL. unfold index. cbn [lookup list_lookup rbind].
    eexists. reflexivity.
Qed.

(** What [convert_to_hijri] returns is always accepted by the document
    operation's table: with at least one visitor [build_replacements]
    returns. *)
Lemma build_replacements_after_convert (env : Env) (s : pystr) (w w' : world)
    (date_info : pystr * pystr * pystr) (persons : list Person) :
  convert_to_hijri env s w = (inr date_info, w') -> persons <> [] ->
  exists d, build_replacements date_info persons = inr d.
Proof.
  intros H Hp. rewrite convert_to_hijri_run in H.
  pose proof (convert_to_hijri_body_cases env s) as C.
  destruct (fromisoformat env _) as [e | dt]; [rewrite C in H; discriminate H|].
  destruct C as (n & _ & C).
  destruct (in_gregorian_range _ _ _); [|rewrite C in H; discriminate H].
  destruct (ummalqura env _ _ _) as [[hy hm] hd].
  rewrite C in H. injection H as <- _.
  eapply build_replacements_total; [| |exact Hp];
    apply split_date; auto using format_02d_no_slash, str_of_int_no_slash.
Qed.

Ltac conj_compute :=
  repeat match goal with |- _ /\ _ => split end;
  try match goal with
      | |- dict_get _ _ = _ => vm_compute; reflexivity
      | |- forall doc, write_overflow _ doc = inr doc => intros; reflexivity
      end.

(** C2: the replacement table by visitor count.  It is built for every
    date the converter returns and every non-empty visitor list.  With one
    visitor, slot 1
    holds that person's name, id and nationality and slot 2 and the
    first/last-name keys hold the empty string; with two, slots 1 and 2 hold
    the two people in list order and the first/last-name keys are empty; with
    more than two, both slots are empty, the first-name key holds the name of
    the first person of the list and the last-name key the name of the last,
    and the table of all visitors is written (it is left alone otherwise). *)
Theorem replacements_by_count (date_info : pystr * pystr * pystr) (people : list Person) :
  (forall env s w w',
     convert_to_hijri env s w = (inr date_info, w') -> people <> [] ->
     exists d, build_replacements date_info people = inr d) /\
  forall d,
  build_replacements date_info people = inr d ->
  (forall p, people = [p] ->
     dict_get d (u "(الزائر1)") = Some (name p) /\
     dict_get d (u "(الهويه1)") = Some (id_number p) /\
     dict_get d (u "(الجنسيه1)") = Some (nationality p) /\
     dict_get d (u "(الزائر2)") = Some [] /\
     dict_get d (u "(الهويه2)") = Some [] /\
     dict_get d (u "(الجنسيه2)") = Some [] /\
     dict_get d (u "(اولهم)") = Some [] /\
     dict_get d (u "(اخرهم)") = Some [] /\
     forall doc, write_overflow people doc = inr doc) /\
  (forall p1 p2, people = [p1; p2] ->
     dict_get d (u "(الزائر1)") = Some (name p1) /\
     dict_get d (u "(الهويه1)") = Some (id_number p1) /\
     dict_get d (u "(الجنسيه1)") = Some (nationality p1) /\
     dict_get d (u "(الزائر2)") = Some (name p2) /\
     dict_get d (u "(الهويه2)") = Some (id_number p2) /\
     dict_get d (u "(الجنسيه2)") = Some (nationality p2) /\
     dict_get d (u "(اولهم)") = Some [] /\
     dict_get d (u "(اخرهم)") = Some [] /\
     forall doc, write_overflow people doc = inr doc) /\
  ((2 < length people)%nat ->
     dict_get d (u "(الزائر1)") = Some [] /\
     dict_get d (u "(الهويه1)") = Some [] /\
     dict_get d (u "(الجنسيه1)") = Some [] /\
     dict_get d (u "(الزائر2)") = Some [] /\
     dict_get d (u "(الهويه2)") = Some [] /\
     dict_get d (u "(الجنسيه2)") = Some [] /\
     (exists p, people !! 0%nat = Some p /\ dict_get d (u "(اولهم)") = Some (name p)) /\
     (exists p, last people = Some p /\ dict_get d (u "(اخرهم)") = Some (name p)) /\
     forall doc,
       write_overflow people doc =
       rbind (index (d_tables doc) 1)
         (fun t => rbind (overflow_loop t (enumerate 1 people))
            (fun t' => inr (mkDoc (<[1%nat := t']> (d_tables doc)) (d_settings doc))))) /\
  (length people = 1 \/ length people = 2 \/ 2 < length people)%nat.
Proof.
  split; [intros env s w w' Hc Hp; exact (build_replacements_after_convert _ _ _ _ _ _ Hc Hp)|].
  destruct date_info as [[h day] g]. intros d H.
  destruct people as [|p1 [|p2 [|p3 rest]]].
  - (* no visitor: [people[0]] raises *)
    date_fields H. vm_compute in H. discriminate H.
  - date_fields H. vm_compute in H. injection H as <-.
    split; [|split; [|split]];
      [| intros ? ? [=] | cbn [length]; lia | left; reflexivity].
    intros q [= <-]. conj_compute.
  - date_fields H. vm_compute in H. injection H as <-.
    split; [|split; [|split]];
      [intros ? [=] | | cbn [length]; lia | right; left; reflexivity].
    intros q1 q2 [= <- <-]. conj_compute.
  - date_fields H.
    destruct (of_nat_length_cases p1 p2 p3 rest) as (N1 & N2 & N3).
    rewrite N1, N2 in H.
    destruct (index_last (p1 :: p2 :: p3 :: rest)) as [?|pl] eqn:EL;
      [vm_compute in H; discriminate H|].
    vm_compute in H. injection H as <-.
    split; [|split; [|split]];
      [intros ? [=] | intros ? ? [=] | | right; right; cbn [length]; lia].
    intros _. conj_compute.
    + exists p1. split; [reflexivity | vm_compute; reflexivity].
    + exists pl. split; [|vm_compute; reflexivity].
      unfold index_last in EL. destruct (last _); congruence.
    + intros doc. unfold write_overflow. rewrite N3. reflexivity.
Qed.

Lemma replacements_by_count_witness :
  let people := [Sample.ali; Sample.badr; Sample.carl; Sample.dana] in
  exists d,
    build_replacements (u "19/06/1445", u "الإثنين", u "01/01/2024") people = inr d /\
    dict_get d (u "(الزائر1)") = Some [] /\
    (exists p, people !! 0%nat = Some p /\ dict_get d (u "(اولهم)") = Some (name p)) /\
    (exists p, last people = Some p /\ dict_get d (u "(اخرهم)") = Some (name p)).
Proof.
  intros people.
  destruct (build_replacements (u "19/06/1445", u "الإثنين", u "01/01/2024") people)
    as [e | d] eqn:E; [vm_compute in E; discriminate E|].
  exists d. split; [reflexivity|].
  destruct (replacements_by_count (u "19/06/1445", u "الإثنين", u "01/01/2024") people)
    as [_ Hr].
  destruct (Hr _ E) as (_ & _ & H & _).
  destruct (H ltac:(cbn; lia)) as (H1 & _ & _ & _ & _ & _ & Hf & Hl & _).
  auto.
Defined.

(** ** The visitor-count label *)

Lemma digits_fuel_length (f : nat) (n : N) (acc : pystr) :
  (length acc <= length (digits_fuel f n acc))%nat.
Proof.
  revert n acc; induction f as [|f IH]; intros n acc; cbn [digits_fuel]; [lia|].
  destruct (n <? 10)%N; [cbn [length]; lia|].
  etransitivity; [|apply IH]. cbn [length]; lia.
Qed.

Lemma log2_fuel (n : N) (k : N) :
  (2 ^ k <= n)%N -> exists f, N.to_nat (N.log2 n) = (N.to_nat k + f)%nat.
Proof.
  intros H. assert (k <= N.log2 n)%N.
  { rewrite <- (N.log2_pow2 k) by lia. apply N.log2_le_mono; exact H. }
  exists (N.to_nat (N.log2 n) - N.to_nat k)%nat. lia.
Qed.

Lemma digits_one (n : N) : (n < 10)%N -> digits n = [(48 + n)%N].
Proof.
  intros H. unfold digits. cbn [digits_fuel].
  apply N.ltb_lt in H as H'. rewrite H'. rewrite N.mod_small by exact H. reflexivity.
Qed.

Lemma digits_two (n : N) :
  (10 <= n < 100)%N -> digits n = [(48 + n / 10)%N; (48 + n mod 10)%N].
Proof.
  intros [H1 H2]. unfold digits.
  destruct (log2_fuel n 3) as [f Hf]; [cbn; lia|]. rewrite Hf.
  change (S (N.to_nat 3 + f)) with (S (S (2 + f))). cbn [digits_fuel].
  assert ((n <? 10)%N = false) as -> by (apply N.ltb_ge; lia).
  assert (n / 10 < 10)%N as Hq by (apply N.Div0.div_lt_upper_bound; lia).
  apply N.ltb_lt in Hq as Hq'. rewrite Hq'.
  rewrite (N.mod_small (n / 10)) by exact Hq. reflexivity.
Qed.

Lemma digits_three (n : N) : (100 <= n)%N -> (3 <= length (digits n))%nat.
Proof.
  intros H. unfold digits.
  destruct (log2_fuel n 6) as [f Hf]; [cbn; lia|]. rewrite Hf.
  change (S (N.to_nat 6 + f)) with (S (S (S (4 + f)))). cbn [digits_fuel].
  assert ((n <? 10)%N = false) as -> by (apply N.ltb_ge; lia).
  assert (10 <= n / 10)%N by (apply N.div_le_lower_bound; lia).
  assert ((n / 10 <? 10)%N = false) as -> by (apply N.ltb_ge; lia).
  destruct (n / 10 / 10 <? 10)%N; [cbn [length]; lia|].
  etransitivity; [|apply digits_fuel_length]. cbn [length]; lia.
Qed.

(** [format(n, "02d")] for a count: two digits below 100, the plain decimal
    numeral from 100 on. *)
Lemma format_02d_count (n : Z) :
  0 <= n ->
  (n < 10 -> format_02d n = [48%N; (48 + Z.to_N n)%N]) /\
  (10 <= n < 100 -> format_02d n = [(48 + Z.to_N (n / 10))%N; (48 + Z.to_N (n mod 10))%N]) /\
  (100 <= n -> format_02d n = str_of_int n /\ (3 <= length (format_02d n))%nat).
Proof.
  intros Hn. unfold format_02d, str_of_int.
  assert ((n <? 0) = false) as -> by (apply Z.ltb_ge; lia).
  rewrite Z.abs_eq by lia.
  split; [|split].
  - intros H. rewrite digits_one by lia. reflexivity.
  - intros H. rewrite digits_two by lia.
    rewrite Z2N.inj_div, Z2N.inj_mod by lia. reflexivity.
  - intros H. pose proof (digits_three (Z.to_N n) ltac:(lia)) as L.
    destruct (digits (Z.to_N n)) as [|c1 [|c2 [|c3 r]]]; cbn [length] in L; try lia.
    split; [reflexivity | cbn [length]; lia].
Qed.

Lemma count_label_in_table (date_info : pystr * pystr * pystr) (people : list Person)
    (d : dict) :
  build_replacements date_info people = inr d ->
  dict_get d K_count = Some (count_label (Z.of_nat (length people))).
Proof.
  intros H. destruct date_info as [[h day] g].
  unfold build_replacements in H.
  remember (count_label (Z.of_nat (length people))) as L eqn:HL. clear HL.
  destruct people as [|p1 [|p2 [|p3 rest]]].
  - date_fields H. vm_compute in H. discriminate H.
  - date_fields H. vm_compute in H. injection H as <-. vm_compute; reflexivity.
  - date_fields H. vm_compute in H. injection H as <-. vm_compute; reflexivity.
  - date_fields H.
    destruct (of_nat_length_cases p1 p2 p3 rest) as (N1 & N2 & N3).
    rewrite N1, N2 in H.
    destruct (index_last (p1 :: p2 :: p3 :: rest)) as [?|pl] eqn:EL;
      [vm_compute in H; discriminate H|].
    vm_compute in H. injection H as <-. vm_compute; reflexivity.
Qed.

(** C8 (as amended): whenever the replacement table is built, the count
    placeholder [K_count] is mapped to [count_label n]: the fixed label text,
    an opening bracket, the number [n] of visitors in decimal padded with
    zeros to at least two digits, a closing bracket and the checkbox mark.
    The number has exactly two digits for fewer than 100 visitors and all its
    digits (three or more, no padding) from 100 visitors on. *)
Theorem count_label_padded (date_info : pystr * pystr * pystr) (people : list Person)
    (d : dict) :
  build_replacements date_info people = inr d ->
  let n := Z.of_nat (length people) in
  dict_get d K_count = Some (count_label n) /\
  count_label n = u "الموضح هوياتهم بالبيان المرفق وعددهم (" ++ format_02d n ++ u ") ☒" /\
  (n < 10 -> format_02d n = [48%N; (48 + Z.to_N n)%N]) /\
  (10 <= n < 100 -> format_02d n = [(48 + Z.to_N (n / 10))%N; (48 + Z.to_N (n mod 10))%N]) /\
  (100 <= n -> format_02d n = str_of_int n /\ (3 <= length (format_02d n))%nat).
Proof.
  intros H n. split; [|split; [reflexivity | apply format_02d_count; subst n; lia]].
  exact (count_label_in_table _ _ _ H).
Qed.

Lemma count_label_padded_witness :
  let people := [Sample.ali; Sample.badr; Sample.carl] in
  exists d,
    build_replacements (u "19/06/1445", u "الإثنين", u "01/01/2024") people = inr d /\
    dict_get d K_count = Some (count_label 3) /\
    count_label 3 = u "الموضح هوياتهم بالبيان المرفق وعددهم (" ++ format_02d 3 ++ u ") ☒" /\
    format_02d 3 = u "03".
Proof.
  intros people.
  destruct (build_replacements (u "19/06/1445", u "الإثنين", u "01/01/2024") people)
    as [e | d] eqn:E; [vm_compute in E; discriminate E|].
  exists d. split; [reflexivity|].
  destruct (count_label_padded _ _ _ E) as (H1 & H2 & H3 & _).
  split; [exact H1 | split; [exact H2 | exact (H3 ltac:(cbn; lia))]].
Defined.

(** C8, the claim as stated fails: with 100 visitors the label carries the
    three-digit number 100, so it is not the fixed text around a two-digit
    number. *)
Lemma count_label_of_100_visitors :
  let people := replicate 100 Sample.ali in
  exists d,
    build_replacements (u "19/06/1445", u "الإثنين", u "01/01/2024") people = inr d /\
    dict_get d K_count = Some (u "الموضح هوياتهم بالبيان المرفق وعددهم (100) ☒") /\
    ~ (exists c1 c2 : N,
         dict_get d K_count =
           Some (u "الموضح هوياتهم بالبيان المرفق وعددهم (" ++ [c1; c2] ++ u ") ☒")).
Proof.
  intros people.
  destruct (build_replacements (u "19/06/1445", u "الإثنين", u "01/01/2024") people)
    as [e | d] eqn:E; [vm_compute in E; discriminate E|].
  exists d. split; [reflexivity|].
  vm_compute in E. injection E as <-.
  split; [vm_compute; reflexivity|].
  intros (c1 & c2 & H). apply (f_equal (option_map (@length N))) in H.
  vm_compute in H. discriminate H.
Qed.

(** ** The table of all visitors *)

Lemma cell_text_set (s : pystr) : cell_text (set_cell_text s) = s.
Proof. unfold cell_text, set_cell_text, paragraph_text. cbn. apply app_nil_r. Qed.

(** Styling a cell just written leaves one centred paragraph with one bold
    Arial 15pt run holding the stripped text. *)
Lemma set_cell_style_written (s : pystr) :
  set_cell_style (set_cell_text s) = styled_cell s.
Proof. unfold set_cell_style. rewrite cell_text_set. reflexivity. Qed.

#[local] Arguments set_cell_style : simpl never.
#[local] Arguments set_cell_text : simpl never.

(** Lines 240 to 246 on one row: they succeed exactly on a row of at least
    three cells, whose first three cells become the styled id number,
    nationality and name. *)
Lemma write_style_inv (p : Person) (r r' : row) :
  rbind (write_person p r) style_row = inr r' ->
  exists c0 c1 c2 rest,
    r_cells r = c0 :: c1 :: c2 :: rest /\
    r_cells r' = set_cell_style (set_cell_text (id_number p))
                 :: set_cell_style (set_cell_text (nationality p))
                 :: set_cell_style (set_cell_text (name p)) :: rest.
Proof.
  destruct r as [[|c0 [|c1 [|c2 rest]]]];
    unfold write_person, style_row, write_cell, style_cell, index; cbn; intros H;
    try discriminate H.
  injection H as <-. exists c0, c1, c2, rest. split; reflexivity.
Qed.

Lemma write_style_total (p : Person) (r : row) :
  (3 <= length (r_cells r))%nat -> exists r', rbind (write_person p r) style_row = inr r'.
Proof.
  destruct r as [[|c0 [|c1 [|c2 rest]]]]; cbn [r_cells length]; intros H; try lia.
  unfold write_person, style_row, write_cell, style_cell, index; cbn. eauto.
Qed.

Lemma holds_person_of_cells (p : Person) (r r' : row) (c0 c1 c2 : cell) (rest : list cell) :
  r_cells r = c0 :: c1 :: c2 :: rest ->
  r_cells r' = set_cell_style (set_cell_text (id_number p))
               :: set_cell_style (set_cell_text (nationality p))
               :: set_cell_style (set_cell_text (name p)) :: rest ->
  holds_person p r r'.
Proof.
  intros E E'. unfold holds_person. rewrite E, E', <- !set_cell_style_written.
  repeat split.
Qed.

(** One turn of the loop for visitor number [i].  Row [b] is the one
    written: [b = i] while the table reaches row [i - 1] (the rows after the
    header are reused by index, and a row is appended when the table ends at
    row [i - 1]); on a table that started without any row, every row is
    appended and [b = i - 1].  No other row changes. *)
Lemma overflow_step_inv (t t1 : table) (i b : nat) (p : Person) :
  (b = i /\ 1 <= i <= length (t_rows t) \/ b = length (t_rows t) /\ i = b + 1)%nat ->
  overflow_step t (Z.of_nat i, p) = inr t1 ->
  t_ncols t1 = t_ncols t /\
  length (t_rows t1) = Nat.max (length (t_rows t)) (b + 1) /\
  (exists r', t_rows t1 !! b = Some r' /\ holds_person p (row_at t b) r') /\
  (forall m, m <> b -> t_rows t1 !! m = t_rows t !! m).
Proof.
  intros Hi. unfold overflow_step.
  destruct (Z.of_nat i <=? Z.of_nat (length (t_rows t)) - 1) eqn:C.
  - apply Z.leb_le in C. assert (b = i /\ i < length (t_rows t))%nat as [-> Hlt] by lia.
    rewrite Nat2Z.id.
    destruct (lookup_lt_is_Some_2 _ _ Hlt) as [r Hr].
    rewrite (index_Some _ _ _ Hr). cbn [rbind].
    destruct (write_person p r) as [e|r1] eqn:W; [discriminate|]. cbn [rbind].
    destruct (style_row r1) as [e|r2] eqn:ES; [discriminate|]. cbn [rbind].
    intros [= <-]. cbn [t_rows t_ncols].
    assert (rbind (write_person p r) style_row = inr r2) as WS by (rewrite W; exact ES).
    destruct (write_style_inv _ _ _ WS) as (c0 & c1 & c2 & rest & E & E').
    split; [reflexivity|]. split; [rewrite length_insert; lia|].
    split.
    + exists r2. split; [apply list_lookup_insert_eq; exact Hlt|].
      unfold row_at. rewrite Hr. cbn. eapply holds_person_of_cells; eassumption.
    + intros m Hm. apply list_lookup_insert_ne. congruence.
  - apply Z.leb_gt in C. assert (b = length (t_rows t)) as Hl by lia.
    unfold add_row at 1 2. cbn [t_rows t_ncols].
    rewrite (index_Some _ _ (mkRow (replicate (t_ncols t) new_cell)))
      by (rewrite lookup_app_r, Nat.sub_diag by lia; reflexivity).
    cbn [rbind].
    destruct (write_person p _) as [e|r1] eqn:W; [discriminate|]. cbn [rbind].
    destruct (style_row r1) as [e|r2] eqn:ES; [discriminate|]. cbn [rbind].
    intros [= <-]. cbn [t_rows t_ncols].
    assert (rbind (write_person p (mkRow (replicate (t_ncols t) new_cell))) style_row
            = inr r2) as WS by (rewrite W; exact ES).
    destruct (write_style_inv _ _ _ WS) as (c0 & c1 & c2 & rest & E & E').
    split; [reflexivity|].
    split; [rewrite length_insert, length_app; cbn [length]; lia|].
    split.
    + exists r2. split.
      * rewrite Hl. apply list_lookup_insert_eq. rewrite length_app; cbn [length]; lia.
      * unfold row_at. rewrite (lookup_ge_None_2 (t_rows t) b) by lia. cbn.
        eapply holds_person_of_cells; eassumption.
    + intros m Hm. rewrite <- Hl. rewrite list_lookup_insert_ne by congruence.
      destruct (decide (m < length (t_rows t))%nat).
      * apply lookup_app_l; assumption.
      * rewrite (lookup_ge_None_2 (t_rows t) m) by lia.
        apply lookup_ge_None_2. rewrite length_app; cbn [length]; lia.
Qed.

Lemma overflow_step_total (t : table) (i : nat) (p : Person) :
  table_ok t ->
  exists t1, overflow_step t (Z.of_nat i, p) = inr t1 /\ table_ok t1.
Proof.
  intros [Hrows Hcols]. unfold overflow_step.
  destruct (Z.of_nat i <=? Z.of_nat (length (t_rows t)) - 1) eqn:C.
  - apply Z.leb_le in C. assert (i < length (t_rows t))%nat as Hlt by lia.
    rewrite Nat2Z.id.
    destruct (lookup_lt_is_Some_2 _ _ Hlt) as [r Hr].
    rewrite (index_Some _ _ _ Hr). cbn [rbind].
    assert (3 <= length (r_cells r))%nat as H3
        by (eapply (proj1 (Forall_lookup _ _) Hrows); exact Hr).
    destruct (write_style_total p r H3) as [r' WS].
    destruct (write_style_inv _ _ _ WS) as (c0 & c1 & c2 & rest & E & E').
    destruct (write_person p r) as [e|r1]; [discriminate|]. cbn [rbind] in WS |- *.
    rewrite WS. cbn [rbind]. eexists; split; [reflexivity|].
    split; cbn [t_rows t_ncols]; [|exact Hcols].
    apply Forall_insert; [exact Hrows|]. rewrite E'; cbn [length]; lia.
  - unfold add_row at 1 2. cbn [t_rows t_ncols].
    rewrite (index_Some _ _ (mkRow (replicate (t_ncols t) new_cell)))
      by (rewrite lookup_app_r, Nat.sub_diag by lia; reflexivity).
    cbn [rbind].
    assert (3 <= length (r_cells (mkRow (replicate (t_ncols t) new_cell))))%nat as H3
        by (cbn [r_cells]; rewrite length_replicate; exact Hcols).
    destruct (write_style_total p _ H3) as [r' WS].
    destruct (write_style_inv _ _ _ WS) as (c0 & c1 & c2 & rest & E & E').
    destruct (write_person p _) as [e|r1]; [discriminate|]. cbn [rbind] in WS |- *.
    rewrite WS. cbn [rbind]. eexists; split; [reflexivity|].
    split; cbn [t_rows t_ncols]; [|exact Hcols].
    apply Forall_insert.
    + apply Forall_app; split; [exact Hrows|].
      constructor; [|constructor]. cbn [r_cells]; rewrite length_replicate; exact Hcols.
    + rewrite E'; cbn [length]; lia.
Qed.

Lemma row_at_step (t t1 : table) (b m : nat) :
  t_ncols t1 = t_ncols t ->
  (forall m, m <> b -> t_rows t1 !! m = t_rows t !! m) ->
  (b < m)%nat -> row_at t1 m = row_at t m.
Proof.
  intros Hc Hs Hm. unfold row_at. rewrite Hc, Hs by lia. reflexivity.
Qed.

(** The loop of lines 231 to 246 from visitor number [i] on, the first
    visitor going to row [b]. *)
Lemma overflow_loop_inv (l : list Person) :
  forall (t t' : table) (i b : nat),
    (b = i /\ 1 <= i <= length (t_rows t) \/ b = length (t_rows t) /\ i = b + 1)%nat ->
    overflow_loop t (enumerate (Z.of_nat i) l) = inr t' ->
    t_ncols t' = t_ncols t /\
    length (t_rows t') = Nat.max (length (t_rows t)) (b + length l) /\
    (forall k p, l !! k = Some p ->
       exists r', t_rows t' !! (b + k)%nat = Some r' /\
                  holds_person p (row_at t (b + k)) r') /\
    (forall m, (m < b \/ b + length l <= m)%nat -> t_rows t' !! m = t_rows t !! m).
Proof.
  induction l as [|p l IH]; intros t t' i b Hi; cbn [enumerate overflow_loop].
  - intros [= <-]. split; [reflexivity|]. split; [cbn [length]; lia|].
    split; [intros k q Hk; discriminate Hk | reflexivity].
  - destruct (overflow_step t (Z.of_nat i, p)) as [e|t1] eqn:ES; [discriminate|].
    cbn [rbind]. intros L.
    destruct (overflow_step_inv _ _ _ _ _ Hi ES) as (Hc & Hl & (r1 & Hr1 & Hp1) & Hs).
    replace (Z.of_nat i + 1) with (Z.of_nat (S i)) in L by lia.
    destruct (IH t1 t' (S i) (S b) ltac:(lia) L) as (Hc' & Hl' & Hw & Hu).
    split; [congruence|]. split; [cbn [length]; lia|]. split.
    + intros [|k] q Hk.
      * injection Hk as <-. exists r1. rewrite Nat.add_0_r. split; [|exact Hp1].
        rewrite Hu by lia. exact Hr1.
      * destruct (Hw k q Hk) as (r' & Hr' & Hp').
        exists r'. replace (b + S k)%nat with (S b + k)%nat by lia.
        split; [exact Hr'|].
        rewrite <- (row_at_step t t1 b (S b + k)) by (assumption || lia). exact Hp'.
    + intros m Hm. cbn [length] in Hm. rewrite Hu by lia. apply Hs. lia.
Qed.

Lemma overflow_loop_total (l : list Person) :
  forall (t : table) (i : nat),
    table_ok t -> exists t', overflow_loop t (enumerate (Z.of_nat i) l) = inr t'.
Proof.
  induction l as [|p l IH]; intros t i Hok; cbn [enumerate overflow_loop].
  - eauto.
  - destruct (overflow_step_total t i p Hok) as (t1 & ES & Hok1).
    rewrite ES. cbn [rbind].
    replace (Z.of_nat i + 1) with (Z.of_nat (S i)) by lia.
    apply IH; exact Hok1.
Qed.

(** ** Running the monad *)

Lemma bind_inr {S A B} (m : ST S A) (k : A -> ST S B) (s s' : S) (b : B) :
  bind m k s = (inr b, s') ->
  exists a s1, m s = (inr a, s1) /\ k a s1 = (inr b, s').
Proof.
  unfold bind. destruct (m s) as [[e|a] s1]; [discriminate|]. eauto.
Qed.

Lemma bind_inl {S A B} (m : ST S A) (k : A -> ST S B) (s s' : S) (e : exn) :
  bind m k s = (inl e, s') ->
  m s = (inl e, s') \/ exists a s1, m s = (inr a, s1) /\ k a s1 = (inl e, s').
Proof.
  unfold bind. destruct (m s) as [[e'|a] s1]; intros H;
    [injection H as -> ->; left; reflexivity | right; eauto].
Qed.

Lemma call_inr (env : Env) (s : site) (w w' : world) (x : unit) :
  call env s w = (inr x, w') -> fault env s = None /\ w' = w.
Proof.
  unfold call. destruct (fault env s); unfold raise, ret; [discriminate|].
  intros [= _ <-]; auto.
Qed.

Lemma call_run (env : Env) (s : site) (w : world) :
  call env s w = match fault env s with
                 | Some e => (inl e, w)
                 | None => (inr tt, w)
                 end.
Proof. unfold call. destruct (fault env s); reflexivity. Qed.

Lemma read_write_same (p : pystr) (f : file) (w : world) :
  read_file (write_file p f w) p = Some f.
Proof. unfold read_file, write_file; cbn. rewrite str_eqb_refl. reflexivity. Qed.

Lemma read_write_other (p q : pystr) (f : file) (w : world) :
  p <> q -> read_file (write_file p f w) q = read_file w q.
Proof.
  intros H. unfold read_file, write_file; cbn.
  destruct (str_eqb p q) eqn:E; [apply str_eqb_eq in E; contradiction | reflexivity].
Qed.

(** ** [embed_fonts] never raises *)

(** Whatever the library calls inside do, [embed_fonts] returns a boolean;
    the tables and the files are as before; on success the three settings are
    appended and an INFO line is logged, on failure an ERROR line. *)
Lemma embed_fonts_total (env : Env) (doc : document) (w : world) :
  exists b doc' w',
    embed_fonts env (doc, w) = (inr b, (doc', w')) /\
    d_tables doc' = d_tables doc /\ fs w' = fs w /\
    ((b = true /\
      d_settings doc' = d_settings doc ++ [(u "w:embedSystemFonts", u "true");
                                           (u "w:embedTrueTypeFonts", u "true");
                                           (u "w:saveSubsetFonts", u "true")] /\
      log w' = log w ++ [(INFO, u "Added font embedding settings to document")])
     \/ (b = false /\
         exists e, log w' = log w ++ [(ERROR, u "Failed to set font embedding: "
                                               ++ str_of_exn e)])).
Proof.
  unfold embed_fonts, try_except, bind, append_setting, in_world, call, get, modify,
    logger, ret, raise.
  cbn [fst snd].
  destruct (fault env S_import) as [e|]; cbn [fst snd];
    [do 3 eexists; split; [reflexivity|]; cbn; repeat split; right; split; eauto|].
  destruct (length (d_settings doc) =? 0)%nat; cbn [fst snd];
    [destruct (fault env S_add_settings_part) as [e|]; cbn [fst snd];
     [do 3 eexists; split; [reflexivity|]; cbn; repeat split; right; split; eauto|] |].
  all: destruct (fault env (S_oxml (u "w:embedSystemFonts"))) as [e|]; cbn [fst snd];
    [do 3 eexists; split; [reflexivity|]; cbn; repeat split; right; split; eauto|].
  all: destruct (fault env (S_oxml (u "w:embedTrueTypeFonts"))) as [e|]; cbn [fst snd];
    [do 3 eexists; split; [reflexivity|]; cbn; repeat split; right; split; eauto|].
  all: destruct (fault env (S_oxml (u "w:saveSubsetFonts"))) as [e|]; cbn [fst snd];
    [do 3 eexists; split; [reflexivity|]; cbn; repeat split; right; split; eauto|].
  all: do 3 eexists; split; [reflexivity|]; cbn; repeat split; left;
    rewrite <- !app_assoc; repeat split.
Qed.

(** ** [process_document] step by step *)

Lemma shutil_copy_inr (env : Env) (src dst : pystr) (w w' : world) (x : unit) :
  shutil_copy env src dst w = (inr x, w') ->
  exists f, read_file w src = Some f /\ w' = write_file dst f w.
Proof.
  unfold shutil_copy. intros H.
  apply bind_inr in H as (? & w1 & H1 & H). apply call_inr in H1 as [_ ->].
  apply bind_inr in H as (w2 & w3 & H2 & H). injection H2 as <- <-.
  destruct (read_file w src) as [f|]; [|discriminate].
  exists f. split; [reflexivity | unfold modify in H; congruence].
Qed.

Lemma open_document_inr (env : Env) (p : pystr) (w w' : world) (d : document) :
  open_document env p w = (inr d, w') -> read_file w p = Some (FDocx d) /\ w' = w.
Proof.
  unfold open_document. intros H.
  apply bind_inr in H as (? & w1 & H1 & H). apply call_inr in H1 as [_ ->].
  apply bind_inr in H as (w2 & w3 & H2 & H). injection H2 as <- <-.
  destruct (read_file w p) as [[d'| |]|]; try discriminate.
  injection H as <- <-. auto.
Qed.

Lemma save_document_inr (env : Env) (doc : document) (p : pystr) (w w' : world) (x : unit) :
  save_document env doc p w = (inr x, w') -> w' = write_file p (FDocx doc) w.
Proof.
  unfold save_document. intros H.
  apply bind_inr in H as (? & w1 & H1 & H). apply call_inr in H1 as [_ ->].
  unfold modify in H. congruence.
Qed.

Lemma with_local_embed_fonts (env : Env) (doc : document) (w : world) :
  exists b doc' w',
    with_local doc (embed_fonts env) w = (inr (b, doc'), w') /\
    d_tables doc' = d_tables doc /\ fs w' = fs w.
Proof.
  destruct (embed_fonts_total env doc w) as (b & doc' & w' & E & Ht & Hf & _).
  exists b, doc', w'. unfold with_local. rewrite E. auto.
Qed.

(** A run of [process_document] that returns: the template was a Word
    document, the replacement table was built, the tables were filled and the
    visitors' table written; the file saved at [output_file] holds exactly
    those tables, and [output_file] is the value returned. *)
Lemma process_document_inr (env : Env) (h day g : pystr) (people : list Person)
    (template_file output_file : pystr) (w w' : world) (r : pystr) :
  process_document env (h, day, g) people template_file output_file w = (inr r, w') ->
  exists doc0 replacements doc1 doc2,
    read_file w template_file = Some (FDocx doc0) /\
    build_replacements (h, day, g) people = inr replacements /\
    write_overflow people (fill_tables replacements people day doc0) = inr doc1 /\
    d_tables doc2 = d_tables doc1 /\
    read_file w' output_file = Some (FDocx doc2) /\
    r = output_file.
Proof.
  unfold process_document. intros H.
  apply bind_inr in H as (? & w1 & H1 & H).
  apply shutil_copy_inr in H1 as (f & Hf & ->).
  apply bind_inr in H as (doc0 & w2 & H2 & H).
  apply open_document_inr in H2 as [H2 ->].
  rewrite read_write_same in H2. injection H2 as ->.
  apply bind_inr in H as (repl & w3 & H3 & H). unfold lift in H3. injection H3 as H3 <-.
  apply bind_inr in H as (doc1 & w4 & H4 & H). unfold lift in H4. injection H4 as H4 <-.
  apply bind_inr in H as ([b doc2] & w5 & H5 & H).
  destruct (with_local_embed_fonts env doc1 (write_file output_file (FDocx doc0) w))
    as (b' & doc2' & w5' & E & Ht & _).
  rewrite E in H5. injection H5 as -> -> ->.
  apply bind_inr in H as (? & w6 & H6 & H). apply save_document_inr in H6 as ->.
  apply bind_inr in H as (? & w7 & H7 & H). unfold logger, modify in H7.
  injection H7 as _ <-. unfold ret in H. injection H as <- <-.
  exists doc0, repl, doc1, doc2. cbn [snd].
  repeat split; try assumption. apply read_write_same.
Qed.



(** ** Font embedding is advisory *)

Lemma shutil_copy_with_fault (env : Env) (f : site -> option exn) (a b : pystr) (w : world) :
  f (S_copy a b) = fault env (S_copy a b) ->
  shutil_copy (with_fault env f) a b w = shutil_copy env a b w.
Proof. intros H. unfold shutil_copy, bind. rewrite !call_run. cbn [fault with_fault]. rewrite H. reflexivity. Qed.

Lemma open_document_with_fault (env : Env) (f : site -> option exn) (p : pystr) (w : world) :
  f (S_Document p) = fault env (S_Document p) ->
  open_document (with_fault env f) p w = open_document env p w.
Proof. intros H. unfold open_document, bind. rewrite !call_run. cbn [fault with_fault]. rewrite H. reflexivity. Qed.

Lemma save_document_fst (env : Env) (doc : document) (p : pystr) (w : world) :
  fst (save_document env doc p w) =
  match fault env (S_save p) with
  | Some e => inl e
  | None => inr tt
  end.
Proof.
  unfold save_document, bind. rewrite call_run.
  destruct (fault env (S_save p)); reflexivity.
Qed.

(** The outcome of [process_document] (the path returned or the exception
    raised) in terms of the steps before and after [embed_fonts], whose own
    result is not consulted. *)
Lemma process_document_fst (env : Env) (h day g : pystr) (people : list Person)
    (template_file output_file : pystr) (w : world) :
  fst (process_document env (h, day, g) people template_file output_file w) =
  match shutil_copy env template_file output_file w with
  | (inl e, _) => inl e
  | (inr _, w1) =>
      match open_document env output_file w1 with
      | (inl e, _) => inl e
      | (inr doc, _) =>
          match build_replacements (h, day, g) people with
          | inl e => inl e
          | inr replacements =>
              match write_overflow people (fill_tables replacements people day doc) with
              | inl e => inl e
              | inr _ =>
                  match fault env (S_save output_file) with
                  | Some e => inl e
                  | None => inr output_file
                  end
              end
          end
      end
  end.
Proof.
  unfold process_document, bind at 1.
  destruct (shutil_copy env template_file output_file w) as [[e|x] w1]; [reflexivity|].
  unfold bind at 1.
  destruct (open_document env output_file w1) as [[e|doc] w2]; [reflexivity|].
  unfold bind at 1, lift at 1.
  destruct (build_replacements (h, day, g) people) as [e|repl]; [reflexivity|].
  unfold bind at 1, lift at 1.
  destruct (write_overflow people (fill_tables repl people day doc)) as [e|doc1];
    [reflexivity|].
  unfold bind at 1.
  destruct (with_local_embed_fonts env doc1 w2) as (b & doc2 & w3 & E & _). rewrite E.
  cbn [snd]. unfold bind at 1.
  pose proof (save_document_fst env doc2 output_file w3) as Hs.
  destruct (save_document env doc2 output_file w3) as [[e|x'] w4]; cbn [fst] in Hs;
    destruct (fault env (S_save output_file)); try discriminate Hs.
  - cbn [fst]. injection Hs as ->. reflexivity.
  - reflexivity.
Qed.



(** ** Which files a computation can change *)

Lemma touches_ret {A} (P : pystr -> Prop) (a : A) : touches P (ret a).
Proof. intros w q _. reflexivity. Qed.

Lemma touches_raise {A} (P : pystr -> Prop) (e : exn) : touches P (raise (A := A) e).
Proof. intros w q _. reflexivity. Qed.

Lemma touches_lift {A} (P : pystr -> Prop) (r : result A) : touches P (lift r).
Proof. intros w q _. reflexivity. Qed.

Lemma touches_get (P : pystr -> Prop) : touches P get.
Proof. intros w q _. reflexivity. Qed.

Lemma touches_logger (P : pystr -> Prop) (l : level) (msg : pystr) : touches P (logger l msg).
Proof. intros w q _. reflexivity. Qed.

Lemma touches_call (P : pystr -> Prop) (env : Env) (s : site) : touches P (call env s).
Proof. intros w q _. rewrite call_run. destruct (fault env s); reflexivity. Qed.

Lemma touches_write (P : pystr -> Prop) (p : pystr) (f : file) :
  P p -> touches P (modify (write_file p f)).
Proof.
  intros Hp w q Hq. unfold modify; cbn [snd]. apply read_write_other. congruence.
Qed.

Lemma touches_bind {A B} (P : pystr -> Prop) (m : M A) (k : A -> M B) :
  touches P m -> (forall a, touches P (k a)) -> touches P (bind m k).
Proof.
  intros Hm Hk w q Hq. unfold bind. specialize (Hm w q Hq).
  destruct (m w) as [[e|a] w1]; cbn [snd] in *; [exact Hm|].
  rewrite (Hk a w1 q Hq). exact Hm.
Qed.

Lemma touches_try_except {A} (P : pystr -> Prop) (m : M A) (h : exn -> M A) :
  touches P m -> (forall e, touches P (h e)) -> touches P (try_except m h).
Proof.
  intros Hm Hh w q Hq. unfold try_except. specialize (Hm w q Hq).
  destruct (m w) as [[e|a] w1]; cbn [snd] in *; [|exact Hm].
  rewrite (Hh e w1 q Hq). exact Hm.
Qed.

Lemma touches_foldM {A B} (P : pystr -> Prop) (f : B -> A -> M B) (l : list A) :
  (forall b a, touches P (f b a)) -> forall b, touches P (foldM f l b).
Proof.
  intros Hf. induction l as [|a l IH]; intros b; cbn [foldM].
  - apply touches_ret.
  - apply touches_bind; [apply Hf | exact IH].
Qed.

Lemma touches_if {A} (P : pystr -> Prop) (c : bool) (m1 m2 : M A) :
  touches P m1 -> touches P m2 -> touches P (if c then m1 else m2).
Proof. destruct c; auto. Qed.

Create HintDb touch.

#[local] Hint Resolve touches_ret touches_raise touches_lift touches_get touches_logger
  touches_call touches_if : touch.

Lemma touches_shutil_copy (P : pystr -> Prop) (env : Env) (src dst : pystr) :
  P dst -> touches P (shutil_copy env src dst).
Proof.
  intros Hd. unfold shutil_copy.
  apply touches_bind; [auto with touch|]. intros _.
  apply touches_bind; [auto with touch|]. intros w.
  destruct (read_file w src); [apply touches_write; exact Hd | auto with touch].
Qed.

Lemma touches_open_document (P : pystr -> Prop) (env : Env) (p : pystr) :
  touches P (open_document env p).
Proof.
  unfold open_document.
  apply touches_bind; [auto with touch|]. intros _.
  apply touches_bind; [auto with touch|]. intros w.
  destruct (read_file w p) as [[| |]|]; auto with touch.
Qed.

Lemma touches_embed_fonts (P : pystr -> Prop) (env : Env) (doc : document) :
  touches P (with_local doc (embed_fonts env)).
Proof.
  intros w q _. destruct (with_local_embed_fonts env doc w) as (b & doc' & w' & E & _ & Hf).
  rewrite E. cbn [snd]. unfold read_file. rewrite Hf. reflexivity.
Qed.

(** [process_document] writes no file but [output_file]. *)
Lemma touches_process_document (P : pystr -> Prop) (env : Env)
    (date_info : pystr * pystr * pystr) (people : list Person)
    (template_file output_file : pystr) :
  P output_file ->
  touches P (process_document env date_info people template_file output_file).
Proof.
  intros Ho. unfold process_document. destruct date_info as [[h day] g].
  apply touches_bind; [apply touches_shutil_copy; exact Ho|]. intros _.
  apply touches_bind; [apply touches_open_document|]. intros doc.
  apply touches_bind; [auto with touch|]. intros repl.
  apply touches_bind; [auto with touch|]. intros doc1.
  apply touches_bind; [apply touches_embed_fonts|]. intros bd.
  apply touches_bind.
  { unfold save_document. apply touches_bind; [auto with touch|]. intros _.
    apply touches_write; exact Ho. }
  intros _. apply touches_bind; auto with touch.
Qed.

(** [convert_to_pdf] writes no file but [pdf_file]. *)
Lemma touches_convert_to_pdf (P : pystr -> Prop) (env : Env) (docx_file pdf_file : pystr) :
  P pdf_file -> touches P (convert_to_pdf env docx_file pdf_file).
Proof.
  intros Hp. unfold convert_to_pdf.
  apply touches_try_except.
  - apply touches_bind; [auto with touch|]. intros w.
    destruct (unoconv env docx_file pdf_file (read_file w docx_file))
      as [e | rc err out]; [auto with touch|].
    apply touches_bind.
    { destruct out; [apply touches_write; exact Hp | auto with touch]. }
    intros _. apply touches_if.
    + apply touches_bind; auto with touch.
    + apply touches_bind; [auto with touch|]. intros w1.
      apply touches_if; [apply touches_bind|]; auto with touch.
  - intros e. apply touches_bind; auto with touch.
Qed.

Lemma touches_convert_to_hijri (P : pystr -> Prop) (env : Env) (s : pystr) :
  touches P (convert_to_hijri env s).
Proof.
  intros w q _. rewrite convert_to_hijri_run.
  destruct (convert_to_hijri_body env s) as [e | [[h n] g]]; reflexivity.
Qed.

Lemma startswith_prefix (a s : pystr) : startswith a (a ++ s) = true.
Proof. induction a as [|c a IH]; cbn; [reflexivity|]. rewrite N.eqb_refl. exact IH. Qed.

Lemma u_getpass : u "getpass_" = [103; 101; 116; 112; 97; 115; 115; 95]%N.
Proof. vm_compute. reflexivity. Qed.

(** The working files of a request lie below the temporary directory. *)
Lemma below_tempdir (env : Env) (x : pystr) :
  tempdir_ok env -> below (tempdir env) (path_join (tempdir env) (u "getpass_" ++ x)) = true.
Proof.
  intros (c & Hl & Hc). unfold below, path_join. rewrite u_getpass. cbn [app startswith].
  change (47 =? 103)%N with false. cbn [andb]. rewrite Hl.
  apply N.eqb_neq in Hc. rewrite Hc.
  match goal with
  | |- startswith ?a (tempdir env ++ 47%N :: ?y) = true =>
      change (startswith a (tempdir env ++ ([47%N] ++ y)) = true)
  end.
  rewrite app_assoc. apply startswith_prefix.
Qed.

Lemma touches_date_step (env : Env) (people : list Person) (st : loop_state)
    (id : Z * pystr) :
  tempdir_ok env ->
  touches (fun q => below (tempdir env) q = true)
    (date_step env people (tempdir env) st id).
Proof.
  intros Hok. destruct id as [i date]. unfold date_step.
  apply touches_try_except.
  - apply touches_bind; [apply touches_convert_to_hijri|]. intros di.
    apply touches_bind.
    { apply touches_process_document. apply below_tempdir; exact Hok. }
    intros r. apply touches_bind.
    { apply touches_convert_to_pdf. apply below_tempdir; exact Hok. }
    intros ok. apply touches_if; [|apply touches_bind]; auto with touch.
  - intros e. apply touches_if; [apply touches_bind|]; auto with touch.
Qed.

Lemma fs_lookup_filter (dir : pystr) (l : list (pystr * file)) (q : pystr) :
  fs_lookup (filter (fun e => negb (below dir (fst e)) = true) l) q =
  if below dir q then None else fs_lookup l q.
Proof.
  induction l as [|[p f] l IH]; cbn [fs_lookup].
  - destruct (below dir q); reflexivity.
  - rewrite filter_cons. cbn [fst].
    destruct (decide (negb (below dir p) = true)) as [Hp|Hp]; cbn [fs_lookup].
    + destruct (str_eqb p q) eqn:E; [|exact IH].
      apply str_eqb_eq in E as ->. apply negb_true_iff in Hp. rewrite Hp. reflexivity.
    + rewrite IH. destruct (str_eqb p q) eqn:E; [|reflexivity].
      apply str_eqb_eq in E as ->. apply not_true_is_false, negb_false_iff in Hp.
      rewrite Hp. reflexivity.
Qed.

Lemma read_remove_tree (dir : pystr) (w : world) (q : pystr) :
  read_file (remove_tree dir w) q = if below dir q then None else read_file w q.
Proof. unfold read_file, remove_tree. cbn [fs]. apply fs_lookup_filter. Qed.


(** ** The endpoint: what every response looks like *)

Lemma generate_getpass_run (env : Env) (data : GetPassData) (w : world) :
  generate_getpass env data w =
  match request_body env data w with
  | (inr response, w1) => (inr response, w1)
  | (inl e, w1) =>
      (inl (HTTPException 500 (u "Internal Server Error: " ++ str_of_exn e)),
       mkWorld (fs w1) (log w1 ++ [(ERROR, u "Error processing request: " ++ str_of_exn e)]))
  end.
Proof.
  unfold generate_getpass, try_except.
  change (with_temporary_directory env _) with (request_body env data).
  destruct (request_body env data w) as [[e|r] w1]; reflexivity.
Qed.

(** The handler answers with a file, or with status 500 and a detail that
    starts with "Internal Server Error: "; no other status leaves it. *)
Lemma post_generate_getpass_run (env : Env) (data : GetPassData) (w : world) :
  post_generate_getpass env data w =
  match request_body env data w with
  | (inr response, w1) => (Http_file response, w1)
  | (inl e, w1) =>
      (Http_error 500 (u "Internal Server Error: " ++ str_of_exn e),
       mkWorld (fs w1) (log w1 ++ [(ERROR, u "Error processing request: " ++ str_of_exn e)]))
  end.
Proof.
  unfold post_generate_getpass. rewrite generate_getpass_run.
  destruct (request_body env data w) as [[e|r] w1]; reflexivity.
Qed.

Lemma status_200_or_500 (env : Env) (data : GetPassData) (w : world) :
  status_of (fst (post_generate_getpass env data w)) = 200 \/
  status_of (fst (post_generate_getpass env data w)) = 500.
Proof.
  rewrite post_generate_getpass_run.
  destruct (request_body env data w) as [[e|r] w1]; [right | left]; reflexivity.
Qed.

(** ** The loop over the dates *)

Lemma foldM_inr_steps {S A B} (f : B -> A -> ST S B) (l : list A) :
  forall (b b' : B) (s s' : S),
    foldM f l b s = (inr b', s') ->
    forall x, x ∈ l -> exists b1 s1 b2 s2, f b1 x s1 = (inr b2, s2).
Proof.
  induction l as [|a l IH]; intros b b' s s' H x Hx; [inversion Hx|].
  cbn [foldM] in H. apply bind_inr in H as (b1 & s1 & H1 & H).
  apply elem_of_cons in Hx as [-> | Hx]; [eauto | eapply IH; eassumption].
Qed.

Lemma enumerate_elem {A} (l : list A) (x : A) :
  x ∈ l -> forall k, exists i, (i, x) ∈ enumerate k l.
Proof.
  induction l as [|a l IH]; intros Hx k; [inversion Hx|].
  cbn [enumerate]. apply elem_of_cons in Hx as [-> | Hx].
  - exists k. apply elem_of_cons; left; reflexivity.
  - destruct (IH Hx (k + 1)) as [i Hi]. exists i. apply elem_of_cons; right; exact Hi.
Qed.

(** A turn of the loop that returns went through the converter, the
    document operation and the PDF conversion, and recorded their results:
    the document is always appended, the PDF only when it was produced,
    otherwise the success flag drops. *)
Lemma date_step_inr (env : Env) (people : list Person) (temp_dir : pystr)
    (st st' : loop_state) (i : Z) (date : pystr) (w w' : world) :
  date_step env people temp_dir st (i, date) w = (inr st', w') ->
  exists date_info w1 r w2 ok w3,
    convert_to_hijri env date w = (inr date_info, w1) /\
    process_document env date_info people (u "GETPASS.docx") (docx_name temp_dir i) w1
      = (inr r, w2) /\
    convert_to_pdf env (docx_name temp_dir i) (pdf_name temp_dir i) w2 = (inr ok, w3) /\
    fs w' = fs w3 /\
    st' = if ok
          then mkLoop (docx_files st ++ [r]) (pdf_files st ++ [pdf_name temp_dir i])
                 (conversion_success st)
          else mkLoop (docx_files st ++ [r]) (pdf_files st) false.
Proof.
  unfold date_step, try_except. fold (docx_name temp_dir i) (pdf_name temp_dir i).
  match goal with |- (match ?b w with _ => _ end) = _ -> _ => destruct (b w) as [[e|x] w0] eqn:E end.
  - destruct (is_ValueError e); unfold bind, logger, modify, raise; discriminate.
  - intros [= <- <-].
    apply bind_inr in E as (di & w1 & H1 & E).
    apply bind_inr in E as (r & w2 & H2 & E).
    apply bind_inr in E as (ok & w3 & H3 & E).
    exists di, w1, r, w2, ok, w3. repeat split; try assumption.
    + destruct ok; [injection E as <- <-; reflexivity|].
      apply bind_inr in E as (? & w4 & H4 & E). injection H4 as _ <-.
      injection E as _ <-. reflexivity.
    + destruct ok; [injection E as <- _; reflexivity|].
      apply bind_inr in E as (? & w4 & H4 & E). injection E as <- _. reflexivity.
Qed.

(** A date the parser rejects makes its turn raise [HTTPException(400)]. *)
Lemma date_step_bad_date (env : Env) (people : list Person) (temp_dir : pystr)
    (st : loop_state) (i : Z) (date : pystr) (w : world) (e0 : exn) :
  fromisoformat env (replace (u "Z") (u "+00:00") date) = inl e0 ->
  exists w',
    date_step env people temp_dir st (i, date) w =
    (inl (HTTPException 400 (u "Invalid date format: " ++ u "Invalid date format: " ++ date)),
     w') /\ fs w' = fs w.
Proof.
  intros Hp. unfold date_step, try_except, bind at 1.
  rewrite convert_to_hijri_run.
  pose proof (convert_to_hijri_body_cases env date) as Hb. rewrite Hp in Hb. rewrite Hb.
  cbn [is_ValueError str_of_exn]. unfold bind, logger, modify, raise.
  eexists. split; reflexivity.
Qed.

Lemma date_step_not_inr_bad_date (env : Env) (people : list Person) (temp_dir : pystr)
    (i : Z) (date : pystr) (e0 : exn) :
  fromisoformat env (replace (u "Z") (u "+00:00") date) = inl e0 ->
  forall st w st' w', date_step env people temp_dir st (i, date) w <> (inr st', w').
Proof.
  intros Hp st w st' w' H.
  destruct (date_step_bad_date env people temp_dir st i date w e0 Hp) as (w1 & E & _).
  congruence.
Qed.

(** ** No visitor *)

Lemma build_replacements_nil (date_info : pystr * pystr * pystr) :
  build_replacements date_info [] = inl (Exc IndexError (u "list index out of range")).
Proof.
  destruct date_info as [[h day] g]. unfold build_replacements.
  repeat match goal with
         | |- context [index (split 47 ?s) ?k] =>
             let E := fresh "E" in
             destruct (index (split 47 s) k) as [?|?] eqn:E;
             [apply index_inl in E; subst; reflexivity|]; cbn [rbind]
         end.
  vm_compute. reflexivity.
Qed.

Lemma process_document_nil (env : Env) (date_info : pystr * pystr * pystr)
    (template_file output_file : pystr) (w : world) (r : pystr) (w' : world) :
  process_document env date_info [] template_file output_file w <> (inr r, w').
Proof.
  destruct date_info as [[h day] g]. intros H.
  apply process_document_inr in H as (doc0 & repl & _ & _ & _ & Hb & _).
  rewrite build_replacements_nil in Hb. discriminate Hb.
Qed.

Lemma date_step_not_inr_nil (env : Env) (temp_dir : pystr) (id : Z * pystr) :
  forall st w st' w', date_step env [] temp_dir st id w <> (inr st', w').
Proof.
  destruct id as [i date]. intros st w st' w' H.
  apply date_step_inr in H as (di & w1 & r & w2 & _ & _ & _ & H & _).
  exact (process_document_nil _ _ _ _ _ _ _ H).
Qed.

(** ** A loop that cannot finish: the response is an error, no file is made *)

Lemma request_body_run (env : Env) (data : GetPassData) (w : world) :
  request_body env data w =
  match fault env S_mkdtemp with
  | Some e => (inl e, w)
  | None =>
      match date_loop env (people data) (tempdir env) (dates data) w with
      | (inl e, w1) => (inl e, remove_tree (tempdir env) w1)
      | (inr st, w1) =>
          let '(r, w2) := consolidate env st w1 in (r, remove_tree (tempdir env) w2)
      end
  end.
Proof.
  unfold request_body, with_temporary_directory, bind at 1, try_finally.
  rewrite call_run. destruct (fault env S_mkdtemp) as [e0|]; [reflexivity|].
  unfold bind.
  destruct (date_loop env (people data) (tempdir env) (dates data) w) as [[e|st] w1];
    reflexivity.
Qed.

Lemma touches_date_loop (env : Env) (people : list Person) (dates : list pystr) :
  tempdir_ok env ->
  touches (fun q => below (tempdir env) q = true)
    (date_loop env people (tempdir env) dates).
Proof.
  intros Hok. unfold date_loop. apply touches_foldM. intros b a.
  apply touches_date_step; exact Hok.
Qed.

Lemma request_body_loop_fails (env : Env) (data : GetPassData) (w : world) :
  (forall st w', date_loop env (people data) (tempdir env) (dates data) w <> (inr st, w')) ->
  (exists e w', request_body env data w = (inl e, w')) /\
  (tempdir_ok env ->
   forall q f, read_file (snd (request_body env data w)) q = Some f -> read_file w q = Some f).
Proof.
  intros Hl. rewrite request_body_run.
  destruct (fault env S_mkdtemp) as [e0|]; [split; [eauto | auto]|].
  destruct (date_loop env (people data) (tempdir env) (dates data) w) as [[e|st] w1] eqn:E;
    [|exfalso; eapply Hl; reflexivity].
  split; [eauto|]. intros Hok q f. cbn [snd]. rewrite read_remove_tree.
  destruct (below (tempdir env) q) eqn:Eb; [discriminate|].
  pose proof (touches_date_loop env (people data) (dates data) Hok w q) as Ht.
  rewrite E in Ht. cbn [snd] in Ht.
  rewrite Ht by (cbv beta; congruence). auto.
Qed.

Lemma date_loop_fails (env : Env) (people : list Person) (temp_dir : pystr)
    (dates : list pystr) (date : pystr) :
  date ∈ dates ->
  (forall i st w st' w', date_step env people temp_dir st (i, date) w <> (inr st', w')) ->
  forall w st w', date_loop env people temp_dir dates w <> (inr st, w').
Proof.
  intros Hin Hs w st w' H. unfold date_loop in H.
  destruct (enumerate_elem dates date Hin 0) as [i Hi].
  destruct (foldM_inr_steps _ _ _ _ _ _ H _ Hi) as (b1 & s1 & b2 & s2 & E).
  exact (Hs _ _ _ _ _ E).
Qed.

Lemma post_of_failed_loop (env : Env) (data : GetPassData) (w : world) :
  (forall st w', date_loop env (people data) (tempdir env) (dates data) w <> (inr st, w')) ->
  (exists e, fst (post_generate_getpass env data w)
             = Http_error 500 (u "Internal Server Error: " ++ str_of_exn e)) /\
  (tempdir_ok env ->
   forall q f, read_file (snd (post_generate_getpass env data w)) q = Some f ->
               read_file w q = Some f).
Proof.
  intros Hl. destruct (request_body_loop_fails env data w Hl) as [(e & w1 & E) Hc].
  rewrite post_generate_getpass_run. rewrite E in *. cbn [fst snd] in *.
  split; [eauto|]. exact Hc.
Qed.

(** ** Malformed dates, no visitors, no dates *)

Lemma date_loop_first_raises (env : Env) (people : list Person) (temp_dir : pystr)
    (date : pystr) (rest : list pystr) (w w' : world) (e : exn) :
  date_step env people temp_dir (mkLoop [] [] true) (0, date) w = (inl e, w') ->
  date_loop env people temp_dir (date :: rest) w = (inl e, w').
Proof.
  intros H. unfold date_loop. cbn [enumerate foldM]. unfold bind. rewrite H. reflexivity.
Qed.

(** C1: a request with a date the parser rejects is answered with status 500,
    not 400: the [HTTPException(400)] raised for the date is caught by the
    handler's own [except Exception] and wrapped, and no request at all is
    answered with status 400.  No file is created or
    changed by such a request.  When the rejected date is the first one, the
    detail is "Internal Server Error: " followed by the text of the swallowed
    exception, "400: Invalid date format: Invalid date format: <date>". *)
Theorem malformed_date_answered_with_500 (env : Env) (data : GetPassData) (w : world)
    (date : pystr) (e0 : exn) :
  date ∈ dates data ->
  fromisoformat env (replace (u "Z") (u "+00:00") date) = inl e0 ->
  (exists e, fst (post_generate_getpass env data w)
             = Http_error 500 (u "Internal Server Error: " ++ str_of_exn e)) /\
  (forall data0 w0, status_of (fst (post_generate_getpass env data0 w0)) <> 400) /\
  (tempdir_ok env ->
   forall q f, read_file (snd (post_generate_getpass env data w)) q = Some f ->
               read_file w q = Some f) /\
  (forall rest, dates data = date :: rest -> fault env S_mkdtemp = None ->
     fst (post_generate_getpass env data w)
     = Http_error 500
         (u "Internal Server Error: " ++ str_of_int 400 ++ u ": "
            ++ u "Invalid date format: " ++ u "Invalid date format: " ++ date)).
Proof.
  intros Hin Hp.
  assert (forall st w', date_loop env (people data) (tempdir env) (dates data) w
                        <> (inr st, w')) as Hl.
  { intros st w'. eapply date_loop_fails; [exact Hin|].
    intros i. eapply date_step_not_inr_bad_date; exact Hp. }
  destruct (post_of_failed_loop env data w Hl) as [(e & He) Hc].
  split; [eauto|].
  split; [intros data0 w0; destruct (status_200_or_500 env data0 w0) as [-> | ->]; lia|].
  split; [exact Hc|].
  intros rest Hd Hm. rewrite post_generate_getpass_run, request_body_run, Hm, Hd.
  destruct (date_step_bad_date env (people data) (tempdir env) (mkLoop [] [] true) 0 date w
              e0 Hp) as (w1 & E & _).
  rewrite (date_loop_first_raises _ _ _ _ _ _ _ _ E). reflexivity.
Qed.

Lemma malformed_date_answered_with_500_witness :
  fst (post_generate_getpass Sample.env (mkData [Sample.ali] [u "not-a-date"]) Sample.world0)
  = Http_error 500
      (u "Internal Server Error: " ++ str_of_int 400 ++ u ": "
         ++ u "Invalid date format: " ++ u "Invalid date format: " ++ u "not-a-date").
Proof.
  assert (u "not-a-date" ∈ dates (mkData [Sample.ali] [u "not-a-date"])) as Hin
      by (apply list_elem_of_singleton; reflexivity).
  assert (fromisoformat Sample.env (replace (u "Z") (u "+00:00") (u "not-a-date"))
          = inl (Exc ValueError (u "Invalid isoformat string: 'not-a-date'"))) as Hp
      by (vm_compute; reflexivity).
  destruct (malformed_date_answered_with_500 Sample.env _ Sample.world0 _ _ Hin Hp)
    as (_ & _ & _ & H).
  exact (H [] eq_refl eq_refl).
Defined.

Example malformed_date_detail :
  fst (post_generate_getpass Sample.env (mkData [Sample.ali] [u "not-a-date"]) Sample.world0)
  = Http_error 500
      (u "Internal Server Error: 400: Invalid date format: Invalid date format: not-a-date").
Proof. vm_compute. reflexivity. Qed.

Lemma shutil_copy_ok (env : Env) (src dst : pystr) (w : world) (f : file) :
  fault env (S_copy src dst) = None -> read_file w src = Some f ->
  shutil_copy env src dst w = (inr tt, write_file dst f w).
Proof.
  intros Hf Hr. unfold shutil_copy, bind, get. rewrite call_run, Hf, Hr. reflexivity.
Qed.

Lemma open_document_ok (env : Env) (p : pystr) (w : world) (d : document) :
  fault env (S_Document p) = None -> read_file w p = Some (FDocx d) ->
  open_document env p w = (inr d, w).
Proof.
  intros Hf Hr. unfold open_document, bind, get. rewrite call_run, Hf, Hr. reflexivity.
Qed.

(** C9: with no visitor the replacement table is never built: the branch for
    more than two visitors is taken and [people[0]] raises [IndexError], so
    [process_document] never returns, whatever the template and the date; a
    request with an empty people list and at least one date is answered with
    status 500 and creates or changes no file.  When the first date converts
    and the template is copied and opened, the detail is "Internal Server
    Error: list index out of range". *)
Theorem no_visitor_answered_with_500 (env : Env) (data : GetPassData) (w : world) :
  people data = [] -> dates data <> [] ->
  (forall date_info,
     build_replacements date_info [] = inl (Exc IndexError (u "list index out of range"))) /\
  (forall date_info template_file output_file w0 r w1,
     process_document env date_info [] template_file output_file w0 <> (inr r, w1)) /\
  (exists e, fst (post_generate_getpass env data w)
             = Http_error 500 (u "Internal Server Error: " ++ str_of_exn e)) /\
  (tempdir_ok env ->
   forall q f, read_file (snd (post_generate_getpass env data w)) q = Some f ->
               read_file w q = Some f) /\
  (forall date rest date_info w1 doc0,
     dates data = date :: rest -> fault env S_mkdtemp = None ->
     convert_to_hijri env date w = (inr date_info, w1) ->
     fault env (S_copy (u "GETPASS.docx") (docx_name (tempdir env) 0)) = None ->
     fault env (S_Document (docx_name (tempdir env) 0)) = None ->
     read_file w (u "GETPASS.docx") = Some (FDocx doc0) ->
     fst (post_generate_getpass env data w)
     = Http_error 500 (u "Internal Server Error: " ++ u "list index out of range")).
Proof.
  intros Hp Hd.
  split; [exact build_replacements_nil|].
  split; [intros; apply process_document_nil|].
  assert (forall st w', date_loop env (people data) (tempdir env) (dates data) w
                        <> (inr st, w')) as Hl.
  { intros st w'. destruct (dates data) as [|date rest] eqn:E; [contradiction|].
    rewrite Hp. apply (date_loop_fails env [] (tempdir env) (date :: rest) date).
    - apply elem_of_cons; left; reflexivity.
    - intros i. apply date_step_not_inr_nil. }
  destruct (post_of_failed_loop env data w Hl) as [He Hc].
  split; [exact He|]. split; [exact Hc|].
  intros date rest [[h day] g] w1 doc0 Hdates Hm Hconv Hcopy Hopen Htpl.
  rewrite post_generate_getpass_run, request_body_run, Hm, Hdates, Hp.
  assert (exists w2, date_step env [] (tempdir env) (mkLoop [] [] true) (0, date) w
                     = (inl (Exc IndexError (u "list index out of range")), w2)) as [w2 E].
  { unfold date_step, try_except, bind at 1. rewrite Hconv.
    fold (docx_name (tempdir env) 0) (pdf_name (tempdir env) 0).
    unfold bind at 1.
    pose proof (process_document_fst env h day g [] (u "GETPASS.docx")
                  (docx_name (tempdir env) 0) w1) as F.
    assert (read_file w1 (u "GETPASS.docx") = Some (FDocx doc0)) as Htpl1.
    { pose proof (touches_convert_to_hijri (fun _ => False) env date w (u "GETPASS.docx")) as T.
      rewrite Hconv in T. cbn [snd] in T. rewrite T by auto. exact Htpl. }
    rewrite (shutil_copy_ok _ _ _ _ _ Hcopy Htpl1) in F.
    rewrite (open_document_ok _ _ _ _ Hopen (read_write_same _ _ _)) in F.
    rewrite build_replacements_nil in F.
    destruct (process_document env (h, day, g) [] (u "GETPASS.docx")
                (docx_name (tempdir env) 0) w1) as [[e|r] w2]; cbn [fst] in F;
      [|discriminate F].
    injection F as ->. cbn [is_ValueError]. unfold raise. eauto. }
  rewrite (date_loop_first_raises _ _ _ _ _ _ _ _ E). reflexivity.
Qed.

Lemma no_visitor_answered_with_500_witness :
  exists e,
    fst (post_generate_getpass Sample.env (mkData [] [u "2024-01-01"]) Sample.world0)
    = Http_error 500 (u "Internal Server Error: " ++ str_of_exn e).
Proof.
  assert (dates (mkData [] [u "2024-01-01"]) <> []) as Hd by discriminate.
  destruct (no_visitor_answered_with_500 Sample.env (mkData [] [u "2024-01-01"])
              Sample.world0 eq_refl Hd)
    as (_ & _ & H & _).
  exact H.
Defined.

Example no_visitor_detail :
  fst (post_generate_getpass Sample.env (mkData [] [u "2024-01-01"]) Sample.world0)
  = Http_error 500 (u "Internal Server Error: list index out of range").
Proof. vm_compute. reflexivity. Qed.

(** ** No date *)

Lemma consolidate_nothing (env : Env) (w : world) :
  consolidate env (mkLoop [] [] true) w =
  match fault env (S_makedirs (u "output")) with
  | Some e => (inl e, w)
  | None => (inl (HTTPException 500 (u "Failed to generate documents")), w)
  end.
Proof.
  unfold consolidate, bind at 1. rewrite call_run.
  destruct (fault env (S_makedirs (u "output"))); reflexivity.
Qed.

Lemma read_file_log (w : world) (l : list (level * pystr)) (q : pystr) :
  read_file (mkWorld (fs w) l) q = read_file w q.
Proof. reflexivity. Qed.

Lemma detail_is_wrapped (x : pystr) :
  u "Internal Server Error: " ++ x <> u "Failed to generate documents".
Proof.
  assert (exists t, u "Internal Server Error: " = 73%N :: t) as [t ->]
      by (vm_compute; eauto).
  assert (exists t', u "Failed to generate documents" = 70%N :: t') as [t' ->]
      by (vm_compute; eauto).
  cbn [app]. intros [=].
Qed.

(** C10: with an empty list of dates the loop does nothing: the success flag
    is still true, there is no PDF and no document, no file is created, every
    return branch is skipped and [HTTPException(500, "Failed to generate
    documents")] is raised.  The client does not receive that detail: the
    exception is caught by the handler's own [except Exception], and the
    response is status 500 with the detail "Internal Server Error: 500: Failed
    to generate documents". *)
Theorem no_date_answered_with_500 (env : Env) (persons : list Person) (w : world) :
  date_loop env persons (tempdir env) [] w = (inr (mkLoop [] [] true), w) /\
  exists detail w',
    post_generate_getpass env (mkData persons []) w = (Http_error 500 detail, w') /\
    detail <> u "Failed to generate documents" /\
    (forall q f, read_file w' q = Some f -> read_file w q = Some f) /\
    (fault env S_mkdtemp = None -> fault env (S_makedirs (u "output")) = None ->
     detail = u "Internal Server Error: " ++ str_of_int 500 ++ u ": "
                ++ u "Failed to generate documents" /\
     log w' = log w ++ [(ERROR, u "Error processing request: " ++ str_of_int 500 ++ u ": "
                                  ++ u "Failed to generate documents")]).
Proof.
  assert (date_loop env persons (tempdir env) [] w = (inr (mkLoop [] [] true), w)) as Hloop
      by reflexivity.
  split; [exact Hloop|].
  rewrite post_generate_getpass_run, request_body_run. cbn [people dates].
  rewrite Hloop, consolidate_nothing.
  destruct (fault env S_mkdtemp) as [e1|].
  { do 2 eexists. split; [reflexivity|]. split; [apply detail_is_wrapped|].
    split; [auto | discriminate]. }
  destruct (fault env (S_makedirs (u "output"))) as [e2|].
  { do 2 eexists. split; [reflexivity|]. split; [apply detail_is_wrapped|].
    split; [|discriminate]. intros q f. rewrite read_file_log, read_remove_tree.
    destruct (below _ _); [discriminate | auto]. }
  do 2 eexists. split; [reflexivity|]. split; [apply detail_is_wrapped|].
  split; [|intros _ _; split; reflexivity].
  intros q f. rewrite read_file_log, read_remove_tree.
  destruct (below _ _); [discriminate | auto].
Qed.

Example no_date_detail :
  fst (post_generate_getpass Sample.env (mkData [Sample.ali] []) Sample.world0)
  = Http_error 500 (u "Internal Server Error: 500: Failed to generate documents").
Proof. vm_compute. reflexivity. Qed.

Lemma merger_appends (env : Env) (files : list pystr) :
  forall (acc pages : list pystr) (w w' : world),
    foldM (merger_append env) files acc w = (inr pages, w') ->
    w' = w /\ exists rest, pdf_pages w files = Some rest /\ pages = acc ++ rest.
Proof.
  induction files as [|p files IH]; intros acc pages w w' H; cbn [foldM pdf_pages] in *.
  - injection H as <- <-. split; [reflexivity|]. exists []. rewrite app_nil_r. auto.
  - apply bind_inr in H as (acc1 & w1 & H1 & H).
    unfold merger_append in H1.
    apply bind_inr in H1 as (? & w2 & C & H1). apply call_inr in C as [_ ->].
    apply bind_inr in H1 as (w3 & w4 & G & H1). injection G as <- <-.
    destruct (read_file w p) as [[d|ps|ms]|] eqn:R; try discriminate H1.
    injection H1 as <- <-.
    destruct (IH _ _ _ _ H) as (-> & rest & Hr & ->).
    split; [reflexivity|]. rewrite Hr. exists (ps ++ rest). rewrite app_assoc. auto.
Qed.

(** [merge_pdfs] returns a boolean.  When it is [True] the output file holds
    the pages of the input files in list order and no other file changed;
    when it is [False] no file changed. *)
Lemma merge_pdfs_total (env : Env) (files : list pystr) (out : pystr) (w : world) :
  exists ok w',
    merge_pdfs env files out w = (inr ok, w') /\
    (forall q, q <> out -> read_file w' q = read_file w q) /\
    if ok then exists pages, pdf_pages w files = Some pages /\
                             read_file w' out = Some (FPdf pages)
    else forall q, read_file w' q = read_file w q.
Proof.
  unfold merge_pdfs, try_except.
  match goal with |- context [match ?b w with _ => _ end] => destruct (b w) as [[e|x] w1] eqn:E end.
  - exists false. eexists. split; [reflexivity|].
    assert (forall q, read_file w1 q = read_file w q) as Hw.
    { apply bind_inl in E as [E | (? & w0 & E0 & E)].
      { rewrite call_run in E. destruct (fault env _); [|discriminate E].
        injection E as _ <-. reflexivity. }
      apply call_inr in E0 as [_ ->].
      apply bind_inl in E as [E | (pages & w2 & E1 & E)].
      - pose proof (touches_foldM (fun _ => False) (merger_append env) files) as T.
        intros q. specialize (T ltac:(intros b a; unfold merger_append;
          apply touches_bind; [auto with touch|]; intros _;
          apply touches_bind; [auto with touch|]; intros w0;
          destruct (read_file w0 a) as [[| |]|]; auto with touch) [] w q).
        rewrite E in T. apply T. auto.
      - apply merger_appends in E1 as (-> & _).
        apply bind_inl in E as [E | (? & w3 & E2 & E)].
        + rewrite call_run in E. destruct (fault env _); [|discriminate E].
          injection E as _ <-. reflexivity.
        + apply bind_inl in E as [E | (? & w4 & E3 & E)]; discriminate E. }
    split; [intros q _; apply Hw | exact Hw].
  - apply bind_inr in E as (? & w0 & C0 & E). apply call_inr in C0 as [_ ->].
    apply bind_inr in E as (pages & w2 & E1 & E).
    apply merger_appends in E1 as (-> & rest & Hr & ->).
    apply bind_inr in E as (? & w3 & C & E). apply call_inr in C as [_ ->].
    apply bind_inr in E as (? & w4 & Wm & E). unfold modify in Wm. injection Wm as _ <-.
    injection E as <- <-.
    exists true. eexists. split; [reflexivity|].
    split; [intros q Hq; apply read_write_other; congruence|].
    exists rest. split; [exact Hr | apply read_write_same].
Qed.

Lemma zip_writes (env : Env) (out : pystr) (files : list pystr) :
  forall (acc members : list (pystr * file)) (w w' : world),
    foldM (zip_write env out) files acc w = (inr members, w') ->
    map fst members = map fst acc ++ map basename files /\
    (files <> [] -> read_file w' out = Some (FZip members)) /\
    (files = [] -> w' = w) /\
    (forall q, q <> out -> read_file w' q = read_file w q).
Proof.
  induction files as [|p files IH]; intros acc members w w' H; cbn [foldM] in H.
  - injection H as <- <-. rewrite app_nil_r. repeat split; congruence.
  - apply bind_inr in H as (acc1 & w1 & H1 & H).
    unfold zip_write in H1.
    apply bind_inr in H1 as (? & w2 & C & H1). apply call_inr in C as [_ ->].
    apply bind_inr in H1 as (w3 & w4 & G & H1). injection G as <- <-.
    destruct (read_file w p) as [f|] eqn:R; [|discriminate H1].
    apply bind_inr in H1 as (? & w5 & Wm & H1). unfold modify in Wm. injection Wm as _ <-.
    injection H1 as <- <-.
    destruct (IH _ _ _ _ H) as (Hn & Hr & He & Ho).
    split; [rewrite Hn, map_app; cbn [map fst]; rewrite <- app_assoc; reflexivity|].
    split; [|split; [discriminate|]].
    + intros _. destruct files as [|p' files'].
      * rewrite (He eq_refl). injection H as <- <-. apply read_write_same.
      * apply Hr. discriminate.
    + intros q Hq. rewrite (Ho q Hq). apply read_write_other. congruence.
Qed.

(** [create_docx_zip] returns a boolean.  When it is [True] the archive holds
    one member per document, named by the document's base name, in list
    order.  No file but the archive changes. *)
Lemma create_docx_zip_total (env : Env) (files : list pystr) (out : pystr) (w : world) :
  exists ok w',
    create_docx_zip env files out w = (inr ok, w') /\
    (forall q, q <> out -> read_file w' q = read_file w q) /\
    (ok = true ->
     exists members, read_file w' out = Some (FZip members) /\
                     map fst members = map basename files).
Proof.
  unfold create_docx_zip, try_except.
  match goal with |- context [match ?b w with _ => _ end] => destruct (b w) as [[e|x] w1] eqn:E end.
  - exists false. eexists. split; [reflexivity|]. split; [|discriminate].
    intros q Hq. rewrite read_file_log.
    assert (touches (fun p => p = out)
              (call env (S_zip_open out) ;;
               modify (write_file out (FZip [])) ;;
               foldM (zip_write env out) files [] ;; ret true)%M) as T.
    { apply touches_bind; [auto with touch|]. intros _.
      apply touches_bind; [apply touches_write; reflexivity|]. intros _.
      apply touches_bind; [|auto with touch].
      apply touches_foldM. intros b a. unfold zip_write.
      apply touches_bind; [auto with touch|]. intros _.
      apply touches_bind; [auto with touch|]. intros w0.
      destruct (read_file w0 a); [|auto with touch].
      apply touches_bind; [apply touches_write; reflexivity | auto with touch]. }
    specialize (T w q Hq). rewrite E in T. exact T.
  - apply bind_inr in E as (? & w2 & C & E). apply call_inr in C as [_ ->].
    apply bind_inr in E as (? & w3 & Wm & E). unfold modify in Wm. injection Wm as _ <-.
    apply bind_inr in E as (members & w4 & F & E). injection E as <- <-.
    destruct (zip_writes _ _ _ _ _ _ _ F) as (Hn & Hr & He & Ho).
    exists true. eexists. split; [reflexivity|].
    split; [intros q Hq; rewrite (Ho q Hq); apply read_write_other; congruence|].
    intros _. exists members. split; [|exact Hn].
    destruct files as [|p files]; [|apply Hr; discriminate].
    rewrite (He eq_refl). injection F as <- _. apply read_write_same.
Qed.

Lemma shutil_copy2_ok (env : Env) (src dst : pystr) (w : world) (f : file) :
  fault env (S_copy2 src dst) = None -> read_file w src = Some f ->
  shutil_copy2 env src dst w = (inr tt, write_file dst f w).
Proof.
  intros Hf Hr. unfold shutil_copy2, bind, get. rewrite call_run, Hf, Hr. reflexivity.
Qed.

Lemma len_gt_1 {A} (l : list A) : (1 < length l)%nat -> (1 <? len l) = true.
Proof. intros H. apply Z.ltb_lt. unfold len. lia. Qed.

Lemma len_one {A} (x : A) : (1 <? len [x]) = false /\ (len [x] =? 1) = true.
Proof. split; reflexivity. Qed.

Lemma len_not_one {A} (l : list A) : length l <> 1%nat -> (len l =? 1) = false.
Proof. intros H. apply Z.eqb_neq. unfold len. lia. Qed.

Lemma enumerate_length {A} (l : list A) : forall k, length (enumerate k l) = length l.
Proof. induction l as [|a l IH]; intros k; cbn; [|rewrite IH]; reflexivity. Qed.

(** What the loop leaves in its variables: one document per date, named
    after the position of the date; the PDFs produced, in the order of the
    dates; and a success flag that is still true exactly when every date has
    its PDF. *)
Lemma date_steps_state (env : Env) (persons : list Person) (temp_dir : pystr)
    (l : list pystr) :
  forall (k : Z) (st0 st : loop_state) (w w' : world),
    foldM (date_step env persons temp_dir) (enumerate k l) st0 w = (inr st, w') ->
    docx_files st = docx_files st0 ++ map (docx_name temp_dir) (map fst (enumerate k l)) /\
    sublist (pdf_files st)
      (pdf_files st0 ++ map (pdf_name temp_dir) (map fst (enumerate k l))) /\
    (conversion_success st = true ->
     conversion_success st0 = true /\
     pdf_files st = pdf_files st0 ++ map (pdf_name temp_dir) (map fst (enumerate k l))) /\
    (conversion_success st = false ->
     conversion_success st0 = false \/
     (length (pdf_files st) < length (pdf_files st0) + length l)%nat).
Proof.
  induction l as [|date l IH]; intros k st0 st w w' H; cbn [enumerate foldM map fst] in *.
  - injection H as <- <-. rewrite !app_nil_r. repeat split; auto.
  - apply bind_inr in H as (st1 & w1 & H1 & H).
    apply date_step_inr in H1 as (di & w2 & r & w3 & ok & w4 & _ & Hp & _ & _ & Hst).
    destruct di as [[h day] g].
    apply process_document_inr in Hp as (_ & _ & _ & _ & _ & _ & _ & _ & _ & ->).
    destruct (IH _ _ _ _ _ H) as (Hd & Hs & Ht & Hf). clear IH H.
    assert (length (pdf_files st) <= length (pdf_files st1) + length l)%nat as Hlen.
    { apply sublist_length in Hs. rewrite length_app, !length_map in Hs.
      rewrite enumerate_length in Hs. exact Hs. }
    destruct ok; subst st1; cbn [docx_files pdf_files conversion_success] in *.
    + rewrite <- !app_assoc in *. cbn [app] in *.
      split; [exact Hd|]. split; [exact Hs|]. split; [exact Ht|].
      intros Hc. destruct (Hf Hc) as [?|Hl]; [auto|right].
      rewrite length_app in Hl. cbn [length] in *. lia.
    + rewrite <- !app_assoc in Hd. cbn [app] in Hd.
      split; [exact Hd|]. split.
      * etransitivity; [exact Hs|]. apply sublist_app; [reflexivity|].
        apply sublist_cons. reflexivity.
      * split; [intros Hc; destruct (Ht Hc) as [? _]; discriminate|].
        intros _. right. cbn [length]. lia.
Qed.

Lemma consolidate_after_pdf_stage (env : Env) (st : loop_state) (w w1 : world)
    (first : option FileResponse * bool) :
  fault env (S_makedirs (u "output")) = None ->
  pdf_stage env st w = (inr first, w1) ->
  consolidate env st w =
  match first with
  | (Some response, _) => (inr response, w1)
  | (None, conversion_success) =>
      match word_stage env st conversion_success w1 with
      | (inr (Some response), w2) => (inr response, w2)
      | (inr None, w2) => (inl GENERATION_FAILED, w2)
      | (inl e, w2) => (inl e, w2)
      end
  end.
Proof.
  intros Hm Hp. unfold consolidate, bind at 1. rewrite call_run, Hm.
  unfold bind at 1. rewrite Hp. destruct first as [[r|] cs]; [reflexivity|].
  unfold bind. destruct (word_stage env st cs w1) as [[e|[r|]] w2]; reflexivity.
Qed.

Lemma pdf_stage_merge (env : Env) (st : loop_state) (w w1 : world) (ok : bool) :
  conversion_success st = true -> (1 < length (pdf_files st))%nat ->
  merge_pdfs env (pdf_files st) OUT_PDF w = (inr ok, w1) ->
  pdf_stage env st w = (inr (if ok then (Some PDF_RESPONSE, true) else (None, false)), w1).
Proof.
  intros Hc Hn Hm. unfold pdf_stage. rewrite Hc, (len_gt_1 _ Hn). cbn [andb].
  unfold bind. rewrite Hm.
  destruct ok; reflexivity.
Qed.

Lemma pdf_stage_single (env : Env) (st : loop_state) (w : world) (p : pystr) (f : file) :
  conversion_success st = true -> pdf_files st = [p] ->
  fault env (S_copy2 p OUT_PDF) = None -> read_file w p = Some f ->
  pdf_stage env st w = (inr (Some PDF_RESPONSE, true), write_file OUT_PDF f w).
Proof.
  intros Hc Hp Hf Hr. unfold pdf_stage. rewrite Hc, Hp.
  destruct (len_one p) as [-> ->]. cbn [andb].
  unfold bind at 1, lift, index. cbn [lookup list_lookup]. unfold bind.
  rewrite (shutil_copy2_ok _ _ _ _ _ Hf Hr).
  reflexivity.
Qed.

Lemma pdf_stage_skipped (env : Env) (st : loop_state) (w : world) :
  conversion_success st = false \/ pdf_files st = [] ->
  pdf_stage env st w = (inr (None, conversion_success st), w).
Proof.
  intros [Hc | Hp]; unfold pdf_stage; [rewrite Hc | rewrite Hp]; cbn [andb];
    [reflexivity|]. rewrite !andb_false_r. reflexivity.
Qed.

Lemma word_stage_single (env : Env) (st : loop_state) (w : world) (d : pystr) (f : file) :
  docx_files st = [d] ->
  fault env (S_copy2 d OUT_DOCX) = None -> read_file w d = Some f ->
  word_stage env st false w = (inr (Some DOCX_RESPONSE), write_file OUT_DOCX f w).
Proof.
  intros Hd Hf Hr. unfold word_stage. cbn [negb]. rewrite Hd.
  destruct (len_one d) as [_ ->].
  unfold bind at 1, lift, index. cbn [lookup list_lookup]. unfold bind.
  rewrite (shutil_copy2_ok _ _ _ _ _ Hf Hr).
  reflexivity.
Qed.

Lemma word_stage_zip (env : Env) (st : loop_state) (w w1 : world) (ok : bool) :
  length (docx_files st) <> 1%nat ->
  create_docx_zip env (docx_files st) OUT_ZIP w = (inr ok, w1) ->
  word_stage env st false w = (inr (if ok then Some ZIP_RESPONSE else None), w1).
Proof.
  intros Hn Hz. unfold word_stage. cbn [negb]. rewrite (len_not_one _ Hn).
  unfold bind. rewrite Hz.
  destruct ok; reflexivity.
Qed.

(** The variables after the whole loop: one document per date; the PDFs are
    a sub-sequence of the per-date PDF names in date order; the flag is true
    exactly when there are as many PDFs as dates. *)
Lemma date_loop_state (env : Env) (persons : list Person) (temp_dir : pystr)
    (dates : list pystr) (w w' : world) (st : loop_state) :
  date_loop env persons temp_dir dates w = (inr st, w') ->
  docx_files st = map (docx_name temp_dir) (map fst (enumerate 0 dates)) /\
  length (docx_files st) = length dates /\
  sublist (pdf_files st) (map (pdf_name temp_dir) (map fst (enumerate 0 dates))) /\
  (conversion_success st = true <-> length (pdf_files st) = length dates).
Proof.
  intros H. unfold date_loop in H.
  destruct (date_steps_state _ _ _ _ _ _ _ _ _ H) as (Hd & Hs & Ht & Hf).
  cbn [docx_files pdf_files conversion_success app length] in *.
  split; [exact Hd|]. split; [rewrite Hd, !length_map; apply enumerate_length|].
  split; [exact Hs|]. split.
  - intros Hc. destruct (Ht Hc) as [_ ->]. rewrite !length_map. apply enumerate_length.
  - intros Hl. destruct (conversion_success st); [reflexivity|].
    destruct (Hf eq_refl) as [?|?]; [discriminate | lia].
Qed.



Example consolidation_merges_in_order :
  let data := mkData [Sample.ali] [u "2024-01-01"; u "2024-01-02"; u "2024-01-03"] in
  let '(r, w) := post_generate_getpass Sample.env data Sample.world0 in
  r = Http_file PDF_RESPONSE /\
  read_file w OUT_PDF
  = Some (FPdf [u "page of /tmp/tmpk3v9x1/getpass_0.docx";
                u "page of /tmp/tmpk3v9x1/getpass_1.docx";
                u "page of /tmp/tmpk3v9x1/getpass_2.docx"]) /\
  map fst (fs w) = [OUT_PDF; u "GETPASS.docx"].
Proof. vm_compute. repeat split. Qed.

Example consolidation_single_pdf :
  let data := mkData [Sample.ali; Sample.badr] [u "2024-01-01"] in
  let '(r, w) := post_generate_getpass Sample.env data Sample.world0 in
  r = Http_file PDF_RESPONSE /\
  read_file w OUT_PDF = Some (FPdf [u "page of /tmp/tmpk3v9x1/getpass_0.docx"]).
Proof. vm_compute. repeat split. Qed.

Example consolidation_single_docx :
  let data := mkData [Sample.ali] [u "2024-01-01"] in
  fst (post_generate_getpass Sample.env_no_pdf data Sample.world0) = Http_file DOCX_RESPONSE.
Proof. vm_compute. reflexivity. Qed.

(** ** The filler of lines 189 to 223 *)

(** Restyling a run keeps its text and gives it one of the two sizes and an
    explicit weight. *)
Lemma restyle_run_formats (replacements : dict) (persons : list Person) (day : pystr)
    (r : run) (al : option alignment) :
  let r' := fst (restyle_run replacements persons day r al) in
  r_text r' = r_text r /\
  (r_font_size r' = Some 8 \/ r_font_size r' = Some 15) /\
  (r_bold r' = Some true \/ r_bold r' = Some false).
Proof.
  unfold restyle_run.
  destruct (contains _ _); [cbn; auto |].
  destruct (in_set _ _); [cbn; auto |].
  destruct (in_set _ _); cbn; auto.
Qed.

Lemma restyle_runs_fold (replacements : dict) (persons : list Person) (day : pystr)
    (runs : list run) :
  forall (acc : list run) (al : option alignment),
    exists runs' al',
      fold_left
        (fun (acc : list run * option alignment) r =>
           let '(r', al') := restyle_run replacements persons day r (snd acc) in
           (fst acc ++ [r'], al'))
        runs (acc, al) = (acc ++ runs', al') /\
      Forall2 (fun r r' => r_text r' = r_text r /\
                           (r_font_size r' = Some 8 \/ r_font_size r' = Some 15) /\
                           (r_bold r' = Some true \/ r_bold r' = Some false))
              runs runs'.
Proof.
  induction runs as [| r runs IH]; intros acc al.
  - exists [], al. cbn [fold_left]. rewrite app_nil_r. split; [reflexivity | constructor].
  - cbn [fold_left snd fst].
    pose proof (restyle_run_formats replacements persons day r al) as Hr.
    destruct (restyle_run replacements persons day r al) as [r' al1].
    destruct (IH (acc ++ [r']) al1) as (runs' & al' & E & F).
    exists (r' :: runs'), al'. split.
    + rewrite E, <- app_assoc. reflexivity.
    + constructor; [exact Hr | exact F].
Qed.

Lemma restyle_paragraph_formats (replacements : dict) (persons : list Person) (day : pystr)
    (p : paragraph) :
  Forall2 (fun r r' => r_text r' = r_text r /\
                       (r_font_size r' = Some 8 \/ r_font_size r' = Some 15) /\
                       (r_bold r' = Some true \/ r_bold r' = Some false))
          (p_runs p) (p_runs (restyle_paragraph replacements persons day p)).
Proof.
  unfold restyle_paragraph.
  destruct (restyle_runs_fold replacements persons day (p_runs p) [] (p_alignment p))
    as (runs' & al' & E & F).
  rewrite E. exact F.
Qed.

Lemma restyle_paragraph_text (replacements : dict) (persons : list Person) (day : pystr)
    (p : paragraph) :
  paragraph_text (restyle_paragraph replacements persons day p) = paragraph_text p.
Proof.
  unfold paragraph_text. f_equal.
  pose proof (restyle_paragraph_formats replacements persons day p) as F.
  induction F as [| r r' l l' (Ht & _) _ IH]; [reflexivity |].
  cbn [map]. rewrite Ht, IH. reflexivity.
Qed.

(** The runs of a cell, paragraph after paragraph. *)
Lemma fill_cell_runs (replacements : dict) (persons : list Person) (day : pystr) (c : cell)
    (r' : run) :
  r' ∈ cell_runs (fill_cell replacements persons day c) ->
  (r_font_size r' = Some 8 \/ r_font_size r' = Some 15) /\
  (r_bold r' = Some true \/ r_bold r' = Some false).
Proof.
  unfold cell_runs, fill_cell. cbn [c_paragraphs].
  intros H. apply list_elem_of_In, in_concat in H. destruct H as (l & Hl & Hr).
  apply in_map_iff in Hl. destruct Hl as (p' & <- & Hp').
  apply in_map_iff in Hp'. destruct Hp' as (p & <- & _).
  pose proof (restyle_paragraph_formats replacements persons day p) as F.
  apply list_elem_of_In in Hr.
  apply list_elem_of_lookup in Hr. destruct Hr as (i & Hi).
  destruct (Forall2_lookup_r _ _ _ _ _ F Hi) as (r & _ & _ & Hs & Hb).
  split; assumption.
Qed.

Lemma fill_cell_text (replacements : dict) (persons : list Person) (day : pystr) (c : cell) :
  cell_text (fill_cell replacements persons day c)
  = cell_text (substitute_cell replacements c).
Proof.
  unfold cell_text, fill_cell. cbn [c_paragraphs]. f_equal.
  rewrite map_map. apply map_ext. intros p. apply restyle_paragraph_text.
Qed.

Lemma lookup_map {A B} (f : A -> B) (l : list A) (i : nat) (x : A) :
  l !! i = Some x -> map f l !! i = Some (f x).
Proof.
  revert i. induction l as [| a l IH]; intros [| i] H; try discriminate.
  - injection H as ->. reflexivity.
  - exact (IH i H).
Qed.


(** Once the text of a cell has been set, the substitution keeps it a cell
    of one paragraph with one run. *)
Lemma substitute_cell_set (replacements : dict) :
  forall s, exists s', substitute_cell replacements (set_cell_text s) = set_cell_text s'.
Proof.
  unfold substitute_cell.
  induction replacements as [| kv l IH]; intros s; cbn [fold_left].
  - exists s. reflexivity.
  - destruct (contains _ _); apply IH.
Qed.



(** ** [set_cell_style] *)

Lemma lstrip_head (s : pystr) :
  lstrip s = [] \/ exists c t, lstrip s = c :: t /\ isspace c = false.
Proof.
  induction s as [| c s IH]; [left; reflexivity |].
  cbn [lstrip]. destruct (isspace c) eqn:E; [exact IH |].
  right. exists c, s. split; [reflexivity | exact E].
Qed.

Lemma rstrip_rstrip (s : pystr) : rstrip (rstrip s) = rstrip s.
Proof.
  induction s as [| c s IH]; [reflexivity |].
  cbn [rstrip]. destruct (rstrip s) as [| x r] eqn:E.
  - destruct (isspace c) eqn:Ec; [reflexivity |]. cbn [rstrip]. rewrite Ec. reflexivity.
  - cbn [rstrip] in IH |- *. cbn [rstrip]. rewrite IH. reflexivity.
Qed.

Lemma rstrip_head (c : N) (t : pystr) :
  isspace c = false -> exists r, rstrip (c :: t) = c :: r.
Proof.
  intros E. cbn [rstrip]. destruct (rstrip t); [rewrite E |]; eexists; reflexivity.
Qed.

Lemma strip_strip (s : pystr) : strip (strip s) = strip s.
Proof.
  unfold strip.
  destruct (lstrip_head s) as [-> | (c & t & -> & E)]; [reflexivity |].
  destruct (rstrip_head c t E) as (r & Hr).
  rewrite Hr. cbn [lstrip]. rewrite E, <- Hr. apply rstrip_rstrip.
Qed.

(** X3: [set_cell_style] brings any cell to one form, a single centred
    paragraph with a single bold run in Arial at 15 points that holds the
    cell's text without the white space around it, and applying it a second
    time changes nothing. *)
Theorem set_cell_style_idempotent (c : cell) :
  set_cell_style c = styled_cell (cell_text c) /\
  cell_text (set_cell_style c) = strip (cell_text c) /\
  set_cell_style (set_cell_style c) = set_cell_style c.
Proof.
  assert (H : forall c0, set_cell_style c0 = styled_cell (cell_text c0)) by reflexivity.
  assert (T : forall s, cell_text (styled_cell s) = strip s).
  { intros s. unfold styled_cell, cell_text, paragraph_text.
    cbn [c_paragraphs map p_runs r_text concat join]. apply app_nil_r. }
  split; [apply H |]. split.
  - rewrite H. apply T.
  - rewrite (H (set_cell_style c)), H, T. unfold styled_cell. rewrite strip_strip. reflexivity.
Qed.

(** ** [convert_to_pdf], [merge_pdfs] and [create_docx_zip] on their own *)

(** X4: [convert_to_pdf] never raises and writes no file but [pdf_file].  It
    returns [True] exactly when the converter process ended with return code
    0 and [pdf_file] exists afterwards; a process that left no file succeeds
    when a file of that name was there before.  [True] logs nothing, every
    [False] logs one ERROR line. *)
Theorem convert_to_pdf_outcome (env : Env) (docx_file pdf_file : pystr) (w : world) :
  exists ok w',
    convert_to_pdf env docx_file pdf_file w = (inr ok, w') /\
    (forall q, q <> pdf_file -> read_file w' q = read_file w q) /\
    (ok = true <->
     exists err out,
       unoconv env docx_file pdf_file (read_file w docx_file) = Exited 0 err out /\
       path_exists w' pdf_file = true) /\
    (forall err,
       unoconv env docx_file pdf_file (read_file w docx_file) = Exited 0 err None ->
       ok = path_exists w pdf_file) /\
    (if ok then log w' = log w else exists msg, log w' = log w ++ [(ERROR, msg)]).
Proof.
  destruct (convert_to_pdf env docx_file pdf_file w) as [r w'] eqn:E.
  assert (T : forall q, q <> pdf_file -> read_file w' q = read_file w q).
  { intros q Hq.
    pose proof (touches_convert_to_pdf (fun q => q = pdf_file) env docx_file pdf_file
                  eq_refl w q Hq) as T.
    rewrite E in T. exact T. }
  revert E. unfold convert_to_pdf, try_except, bind, get.
  destruct (unoconv env docx_file pdf_file (read_file w docx_file)) as [e | rc err out].
  - unfold raise, logger, modify, ret. intros [= <- <-].
    exists false. eexists. split; [reflexivity |]. split; [exact T |].
    split; [split; [discriminate | intros (? & ? & ? & _); discriminate] |].
    split; [discriminate |]. cbn [log]. eauto.
  - destruct (rc =? 0) eqn:Z; cbn [negb].
    + apply Z.eqb_eq in Z. subst rc.
      assert (L : forall x l, path_exists (mkWorld (fs x) l) pdf_file = path_exists x pdf_file)
        by reflexivity.
      destruct out as [f |]; unfold modify, ret, logger;
        match goal with
        | |- context [path_exists ?x pdf_file] => destruct (path_exists x pdf_file) eqn:P
        end; cbn [negb]; intros [= <- <-].
      * exists true. eexists. split; [reflexivity |]. split; [exact T |].
        split; [split; [intros _; exists err; eexists; split; [reflexivity | exact P]
                       | reflexivity] |].
        split; [intros err0 [=] | reflexivity].
      * unfold path_exists in P. rewrite read_write_same in P. discriminate P.
      * exists true. eexists. split; [reflexivity |]. split; [exact T |].
        split; [split; [intros _; exists err; eexists; split; [reflexivity | exact P]
                       | reflexivity] |].
        split; [intros _ _; reflexivity | reflexivity].
      * exists false. eexists. split; [reflexivity |]. split; [exact T |].
        split; [split; [discriminate | intros (? & ? & _ & P'); rewrite L, P in P';
                                       discriminate P'] |].
        split; [intros _ _; reflexivity | cbn [log]; eauto].
    + assert (rc <> 0) as Hrc by (apply Z.eqb_neq, Z).
      destruct out as [f |]; unfold modify, ret, logger; intros [= <- <-].
      all: exists false; eexists; split; [reflexivity |]; split; [exact T |];
        split; [split; [discriminate | intros (? & ? & H & _); congruence] |];
        split; [intros err0 H; congruence | cbn [log]; eauto].
Qed.

Lemma merger_append_run (env : Env) (pages : list pystr) (pdf : pystr) (w : world) :
  merger_append env pages pdf w =
  match fault env (S_merger_append pdf) with
  | Some e => (inl e, w)
  | None =>
      match read_file w pdf with
      | Some (FPdf ps) => (inr (pages ++ ps), w)
      | Some _ => (inl (Exc LibraryError (u "EOF marker not found")), w)
      | None => (inl (file_not_found pdf), w)
      end
  end.
Proof.
  unfold merger_append, bind, get. rewrite call_run.
  destruct (fault env (S_merger_append pdf)); [reflexivity |].
  destruct (read_file w pdf) as [[| |] |]; reflexivity.
Qed.

(** The loop of [merger.append] calls, when no call fails on its own. *)
Lemma merger_appends_run (env : Env) (w : world) (files : list pystr) :
  Forall (fun p => fault env (S_merger_append p) = None) files ->
  forall acc : list pystr,
    match pdf_pages w files with
    | Some rest => foldM (merger_append env) files acc w = (inr (acc ++ rest), w)
    | None => exists e, foldM (merger_append env) files acc w = (inl e, w)
    end.
Proof.
  induction 1 as [| p files Hp _ IH]; intros acc; cbn [pdf_pages foldM].
  - unfold ret. rewrite app_nil_r. reflexivity.
  - unfold bind. rewrite merger_append_run, Hp.
    destruct (read_file w p) as [[d | ps | ms] |]; try (eexists; reflexivity).
    specialize (IH (acc ++ ps)).
    destruct (pdf_pages w files) as [rest |].
    + rewrite IH, app_assoc. reflexivity.
    + exact IH.
Qed.

(** X5: when the PDF library raises nothing on its own, [merge_pdfs] is
    decided by its input files.  If every one of them is a PDF the result is
    [True] and the only change is the output file, which holds their pages in
    list order (for an empty list, a PDF without pages); if one is missing or
    is no PDF the result is [False], no file is written and one ERROR line is
    logged. *)
Theorem merge_pdfs_decided_by_inputs (env : Env) (files : list pystr) (out : pystr)
    (w : world) :
  fault env S_PdfMerger = None ->
  Forall (fun p => fault env (S_merger_append p) = None) files ->
  fault env (S_merger_write out) = None ->
  match pdf_pages w files with
  | Some pages => merge_pdfs env files out w = (inr true, write_file out (FPdf pages) w)
  | None =>
      exists msg, merge_pdfs env files out w
                  = (inr false, mkWorld (fs w) (log w ++ [(ERROR, msg)]))
  end.
Proof.
  intros H0 Hf Hw.
  pose proof (merger_appends_run env w files Hf []) as L.
  destruct (pdf_pages w files) as [pages |].
  - unfold merge_pdfs, try_except. unfold bind at 1. rewrite call_run, H0.
    unfold bind at 1. rewrite L. unfold bind. rewrite call_run, Hw. reflexivity.
  - destruct L as (e & L). eexists.
    unfold merge_pdfs, try_except. unfold bind at 1. rewrite call_run, H0.
    unfold bind at 1. rewrite L. reflexivity.
Qed.

Lemma merge_pdfs_decided_by_inputs_witness :
  merge_pdfs Sample.env [u "a.pdf"; u "b.pdf"] (u "out.pdf")
    (mkWorld [(u "a.pdf", FPdf [u "1"; u "2"]); (u "b.pdf", FPdf [u "3"])] [])
  = (inr true,
     write_file (u "out.pdf") (FPdf [u "1"; u "2"; u "3"])
       (mkWorld [(u "a.pdf", FPdf [u "1"; u "2"]); (u "b.pdf", FPdf [u "3"])] [])).
Proof.
  apply (merge_pdfs_decided_by_inputs Sample.env [u "a.pdf"; u "b.pdf"] (u "out.pdf")
           (mkWorld [(u "a.pdf", FPdf [u "1"; u "2"]); (u "b.pdf", FPdf [u "3"])] [])).
  - reflexivity.
  - repeat constructor.
  - reflexivity.
Defined.

Lemma zip_write_run (env : Env) (out : pystr) (members : list (pystr * file))
    (p : pystr) (w : world) :
  zip_write env out members p w =
  match fault env (S_zip_write p) with
  | Some e => (inl e, w)
  | None =>
      match read_file w p with
      | Some f => (inr (members ++ [(basename p, f)]),
                   write_file out (FZip (members ++ [(basename p, f)])) w)
      | None => (inl (file_not_found p), w)
      end
  end.
Proof.
  unfold zip_write, bind, get. rewrite call_run.
  destruct (fault env (S_zip_write p)); [reflexivity |].
  destruct (read_file w p); reflexivity.
Qed.

(** The loop of [zipf.write] calls on an open archive: the archive holds the
    members written so far, whether the loop ends or raises. *)
Lemma zip_write_loop (env : Env) (out : pystr) (w0 : world) (files : list pystr) :
  out ∉ files ->
  forall (acc : list (pystr * file)) (w : world),
    (forall q, q <> out -> read_file w q = read_file w0 q) ->
    read_file w out = Some (FZip acc) ->
    exists r w' done,
      foldM (zip_write env out) files acc w = (r, w') /\
      read_file w' out = Some (FZip (acc ++ done)) /\
      log w' = log w /\
      Forall2 (fun p m => fst m = basename p /\ read_file w0 p = Some (snd m))
              (take (length done) files) done /\
      ((exists m, r = inr m) <->
       Forall (fun p => fault env (S_zip_write p) = None /\ is_Some (read_file w0 p)) files) /\
      ((exists m, r = inr m) -> length done = length files).
Proof.
  induction files as [| p files IH]; intros Hout acc w Hw Ha; cbn [foldM].
  - exists (inr acc), w, []. rewrite app_nil_r. unfold ret.
    split; [reflexivity |]. split; [exact Ha |]. split; [reflexivity |].
    split; [constructor |]. split; [split; [constructor | eauto] | reflexivity].
  - apply not_elem_of_cons in Hout as [Hp Hout].
    assert (Hp' : p <> out) by congruence.
    unfold bind. rewrite zip_write_run.
    destruct (fault env (S_zip_write p)) as [e |] eqn:F.
    { exists (inl e), w, []. rewrite app_nil_r.
      split; [reflexivity |]. split; [exact Ha |]. split; [reflexivity |].
      split; [constructor |]. split; [split |].
      - intros (? & ?); discriminate.
      - intros H. apply Forall_cons in H as [[H _] _]. congruence.
      - intros (? & ?); discriminate. }
    rewrite (Hw p Hp').
    destruct (read_file w0 p) as [f |] eqn:R.
    2:{ exists (inl (file_not_found p)), w, []. rewrite app_nil_r.
        split; [reflexivity |]. split; [exact Ha |]. split; [reflexivity |].
        split; [constructor |]. split; [split |].
        - intros (? & ?); discriminate.
        - intros H. apply Forall_cons in H as [[_ [? H]] _]. congruence.
        - intros (? & ?); discriminate. }
    destruct (IH Hout (acc ++ [(basename p, f)])
                (write_file out (FZip (acc ++ [(basename p, f)])) w))
      as (r & w' & done & E & Hr & Hl & F2 & Hiff & Hlen).
    { intros q Hq. rewrite read_write_other by congruence. apply Hw, Hq. }
    { apply read_write_same. }
    exists r, w', ((basename p, f) :: done).
    split; [exact E |]. split; [rewrite Hr, <- app_assoc; reflexivity |].
    split; [exact Hl |]. split; [|split].
    + cbn [length take]. constructor; [split; [reflexivity | exact R] | exact F2].
    + rewrite Hiff. split.
      * intros H. constructor; [split; [exact F | eauto] | exact H].
      * intros H. apply Forall_cons in H as [_ H]. exact H.
    + intros H. cbn [length]. f_equal. apply Hlen, H.
Qed.

(** X6: once the archive could be opened, [create_docx_zip] never raises and
    always leaves an archive at [output_zip], also when it returns [False]:
    the archive then holds the documents written before the failure.  Each
    member is named by the base name of its document and holds what the
    document held, in list order.  The result is [True] exactly when every
    document exists and no write fails on its own, and then there is one
    member per document. *)
Theorem create_docx_zip_leaves_archive (env : Env) (files : list pystr) (out : pystr)
    (w : world) :
  fault env (S_zip_open out) = None ->
  out ∉ files ->
  exists ok w' members,
    create_docx_zip env files out w = (inr ok, w') /\
    read_file w' out = Some (FZip members) /\
    Forall2 (fun p m => fst m = basename p /\ read_file w p = Some (snd m))
            (take (length members) files) members /\
    (ok = true <->
     Forall (fun p => fault env (S_zip_write p) = None /\ is_Some (read_file w p)) files) /\
    (ok = true -> length members = length files).
Proof.
  intros Ho Hout.
  destruct (zip_write_loop env out w files Hout [] (write_file out (FZip []) w))
    as (r & w' & done & E & Hr & Hl & F2 & Hiff & Hlen).
  { intros q Hq. apply read_write_other. congruence. }
  { apply read_write_same. }
  unfold create_docx_zip, try_except. unfold bind at 1. rewrite call_run, Ho.
  unfold bind at 1. unfold modify at 1. unfold bind at 1. rewrite E.
  cbn [app] in Hr.
  destruct r as [e | m].
  - exists false. eexists. exists done. split; [reflexivity |].
    split; [rewrite read_file_log; exact Hr |]. split; [exact F2 |].
    split; [|discriminate].
    split; [discriminate |]. intros H. apply Hiff in H as (? & ?). discriminate.
  - exists true, w', done. split; [reflexivity |]. split; [exact Hr |].
    split; [exact F2 |]. split.
    + split; [intros _; apply Hiff; eauto | reflexivity].
    + intros _. apply Hlen. eauto.
Qed.

Lemma create_docx_zip_leaves_archive_witness :
  exists ok w' members,
    create_docx_zip Sample.env [u "GETPASS.docx"; u "missing.docx"] (u "out.zip") Sample.world0
    = (inr ok, w') /\
    read_file w' (u "out.zip") = Some (FZip members) /\
    Forall2 (fun p m => fst m = basename p /\ read_file Sample.world0 p = Some (snd m))
            (take (length members) [u "GETPASS.docx"; u "missing.docx"]) members /\
    (ok = true <->
     Forall (fun p => fault Sample.env (S_zip_write p) = None /\
                      is_Some (read_file Sample.world0 p))
            [u "GETPASS.docx"; u "missing.docx"]) /\
    (ok = true -> length members = 2%nat).
Proof.
  apply (create_docx_zip_leaves_archive Sample.env [u "GETPASS.docx"; u "missing.docx"]
           (u "out.zip") Sample.world0).
  - reflexivity.
  - intros H. apply elem_of_cons in H as [H | H]; [vm_compute in H; discriminate |].
    apply list_elem_of_singleton in H. vm_compute in H. discriminate.
Defined.

(** ** [process_document] and [embed_fonts] on their own *)

Lemma open_document_world (env : Env) (p : pystr) (w : world) :
  snd (open_document env p w) = w.
Proof.
  unfold open_document, bind, get. rewrite call_run.
  destruct (fault env (S_Document p)); [reflexivity |].
  destruct (read_file w p) as [[| |] |]; reflexivity.
Qed.

Lemma save_document_raises (env : Env) (doc : document) (p : pystr) (w w' : world) (e : exn) :
  save_document env doc p w = (inl e, w') -> w' = w.
Proof.
  unfold save_document, bind. rewrite call_run.
  destruct (fault env (S_save p)); unfold modify; congruence.
Qed.

(** X7: [process_document] writes no file but [output_file]: a template at
    another path is never changed, whether the call returns or raises.  When
    it returns, the value is [output_file] and a Word document is stored
    there.  When it raises after the copy was made, [output_file] is left
    behind holding the unfilled copy of the template. *)
Theorem process_document_writes_only_output (env : Env)
    (date_info : pystr * pystr * pystr) (persons : list Person)
    (template_file output_file : pystr) (w : world) :
  (forall q, q <> output_file ->
     read_file (snd (process_document env date_info persons template_file output_file w)) q
     = read_file w q) /\
  (forall p w',
     process_document env date_info persons template_file output_file w = (inr p, w') ->
     p = output_file /\ exists doc, read_file w' output_file = Some (FDocx doc)) /\
  (forall e w' f,
     process_document env date_info persons template_file output_file w = (inl e, w') ->
     fault env (S_copy template_file output_file) = None ->
     read_file w template_file = Some f ->
     read_file w' output_file = Some f).
Proof.
  split; [|split].
  - intros q Hq.
    apply (touches_process_document (fun p => p = output_file) env date_info persons
             template_file output_file eq_refl w q Hq).
  - intros p w' H. destruct date_info as [[h day] g].
    apply process_document_inr in H as (_ & _ & _ & doc & _ & _ & _ & _ & H & ->).
    split; [reflexivity | eauto].
  - intros e w' f H Hf Hr. destruct date_info as [[h day] g].
    unfold process_document in H.
    assert (K : forall w1, fs w1 = fs (write_file output_file f w) ->
                           read_file w1 output_file = Some f).
    { intros w1 E. unfold read_file. rewrite E. apply read_write_same. }
    apply bind_inl in H as [H | (? & w1 & H1 & H)];
      [rewrite (shutil_copy_ok _ _ _ _ _ Hf Hr) in H; discriminate H |].
    rewrite (shutil_copy_ok _ _ _ _ _ Hf Hr) in H1. injection H1 as _ <-.
    apply bind_inl in H as [H | (doc & w2 & H2 & H)].
    { apply K. pose proof (open_document_world env output_file
                             (write_file output_file f w)) as O.
      rewrite H in O. cbn [snd] in O. rewrite O. reflexivity. }
    apply open_document_inr in H2 as [_ ->].
    apply bind_inl in H as [H | (repl & w3 & H3 & H)];
      [unfold lift in H; injection H as _ <-; apply K; reflexivity |].
    unfold lift in H3. injection H3 as _ <-.
    apply bind_inl in H as [H | (doc1 & w4 & H4 & H)];
      [unfold lift in H; injection H as _ <-; apply K; reflexivity |].
    unfold lift in H4. injection H4 as _ <-.
    destruct (with_local_embed_fonts env doc1 (write_file output_file f w))
      as (b & doc2 & w5 & E & _ & Hfs).
    apply bind_inl in H as [H | (bd & w6 & H5 & H)]; [rewrite E in H; discriminate H |].
    rewrite E in H5. injection H5 as <- <-.
    apply bind_inl in H as [H | (? & w7 & H6 & H)].
    { apply save_document_raises in H as ->. apply K, Hfs. }
    apply bind_inl in H as [H | (? & w8 & _ & H)]; discriminate H.
Qed.

Lemma process_document_writes_only_output_witness :
  exists e w',
    process_document Sample.env (u "23/06/1445", u "الجمعة", u "05/01/2024") []
      (u "GETPASS.docx") (u "out.docx") Sample.world0 = (inl e, w') /\
    read_file w' (u "out.docx") = Some (FDocx Sample.template).
Proof.
  eexists. eexists. split; [vm_compute; reflexivity |].
  apply (proj2 (proj2 (process_document_writes_only_output Sample.env
                         (u "23/06/1445", u "الجمعة", u "05/01/2024") []
                         (u "GETPASS.docx") (u "out.docx") Sample.world0))
           (Exc IndexError (u "list index out of range"))).
  - vm_compute. reflexivity.
  - reflexivity.
  - vm_compute. reflexivity.
Defined.

(** The three settings of [embed_fonts], in the order they are appended. *)
Ltac appended k :=
  do 3 eexists; exists k; split; [reflexivity |];
  cbn [fst snd d_settings d_tables]; unfold FONT_SETTINGS; cbn [take];
  rewrite <- ?app_assoc, ?app_nil_r; cbn [app];
  split; [reflexivity |]; split; [lia |]; split; [try discriminate; reflexivity | ];
  try discriminate; reflexivity.

Lemma embed_fonts_appends_run (env : Env) (doc : document) (w : world) :
  exists b doc' w' k,
    embed_fonts env (doc, w) = (inr b, (doc', w')) /\
    d_settings doc' = d_settings doc ++ take k FONT_SETTINGS /\
    (k <= 3)%nat /\ (b = true <-> k = 3%nat).
Proof.
  unfold embed_fonts, try_except, bind, append_setting, in_world, call, get, modify,
    logger, ret, raise.
  cbn [fst snd].
  destruct (fault env S_import) as [e |]; cbn [fst snd]; [appended 0%nat |].
  destruct (length (d_settings doc) =? 0)%nat; cbn [fst snd];
    [destruct (fault env S_add_settings_part) as [e |]; cbn [fst snd];
     [appended 0%nat |] |].
  all: destruct (fault env (S_oxml (u "w:embedSystemFonts"))) as [e |]; cbn [fst snd];
    [appended 0%nat |].
  all: destruct (fault env (S_oxml (u "w:embedTrueTypeFonts"))) as [e |]; cbn [fst snd];
    [appended 1%nat |].
  all: destruct (fault env (S_oxml (u "w:saveSubsetFonts"))) as [e |]; cbn [fst snd];
    [appended 2%nat |].
  all: appended 3%nat.
Qed.

(** X8: [embed_fonts] only ever appends.  The settings it leaves are the
    settings it found followed by the first [k] of its three entries, in
    their order; it returns [True] exactly when all three were appended.  A
    failure half way is not undone: the entries appended before it stay in
    the document that is saved. *)
Theorem embed_fonts_only_appends (env : Env) (doc : document) (w : world) :
  exists b doc' w' k,
    embed_fonts env (doc, w) = (inr b, (doc', w')) /\
    d_settings doc' = d_settings doc ++ take k FONT_SETTINGS /\
    (k <= 3)%nat /\ (b = true <-> k = 3%nat) /\
    d_tables doc' = d_tables doc /\ fs w' = fs w.
Proof.
  destruct (embed_fonts_appends_run env doc w) as (b & doc' & w' & k & E & Hs & Hk & Hb).
  destruct (embed_fonts_total env doc w) as (b0 & doc0 & w0 & E0 & Ht & Hf & _).
  rewrite E in E0. injection E0 as <- <- <-.
  exists b, doc', w', k. auto 10.
Qed.

(** ** From the converted date to the placeholders *)

(** The seven date entries of the table are the weekday name and the fields
    of the two date strings. *)
Lemma build_replacements_dates (h day g : pystr) (persons : list Person)
    (a b c a' b' c' : pystr) (repl : dict) :
  split 47 h = [a; b; c] -> split 47 g = [a'; b'; c'] ->
  build_replacements (h, day, g) persons = inr repl ->
  dict_get repl K_day = Some day /\
  dict_get repl K_D = Some a /\ dict_get repl K_M = Some b /\ dict_get repl K_Y = Some c /\
  dict_get repl K_d = Some a' /\ dict_get repl K_m = Some b' /\
  dict_get repl K_yyyy = Some c'.
Proof.
  intros Hh Hg H. unfold build_replacements in H. rewrite Hh, Hg in H.
  unfold index at 1 2 3 4 5 6 in H. cbn [lookup list_lookup rbind] in H.
  destruct persons as [| p1 [| p2 [| p3 rest]]].
  - vm_compute in H. discriminate H.
  - vm_compute in H. injection H as <-. conj_compute.
  - vm_compute in H. injection H as <-. conj_compute.
  - destruct (of_nat_length_cases p1 p2 p3 rest) as (N1 & N2 & _).
    rewrite N1, N2 in H.
    destruct (index_last (p1 :: p2 :: p3 :: rest)) as [? | pl] eqn:EL;
      [vm_compute in H; discriminate H |].
    vm_compute in H. injection H as <-. conj_compute.
Qed.

(** X9: the converter and the replacement table fit together.  For a date
    the converter accepts, the table built from its result maps [(اليوم)] to
    the weekday name it returned, [D], [M], [Y] to the Hijri day and month
    padded to two digits and the Hijri year, and [d], [m], [yyyy] to the
    day and month of the parsed date padded to two digits and its year:
    splitting the formatted strings at the slashes gives back the fields they
    were formatted from. *)
Theorem date_placeholders_of_converted_date (env : Env) (s : pystr) (w w' : world)
    (h n g : pystr) (persons : list Person) (repl : dict) :
  convert_to_hijri env s w = (inr (h, n, g), w') ->
  build_replacements (h, n, g) persons = inr repl ->
  exists d hy hm hd,
    fromisoformat env (replace (u "Z") (u "+00:00") s) = inr d /\
    ummalqura env (year d) (month d) (day d) = (hy, hm, hd) /\
    dict_get repl K_day = Some n /\
    dict_get repl K_D = Some (format_02d hd) /\
    dict_get repl K_M = Some (format_02d hm) /\
    dict_get repl K_Y = Some (str_of_int hy) /\
    dict_get repl K_d = Some (format_02d (day d)) /\
    dict_get repl K_m = Some (format_02d (month d)) /\
    dict_get repl K_yyyy = Some (str_of_int (year d)).
Proof.
  intros Hc Hb. rewrite convert_to_hijri_run in Hc.
  pose proof (convert_to_hijri_body_cases env s) as C.
  destruct (fromisoformat env _) as [e | d]; [rewrite C in Hc; discriminate Hc |].
  destruct C as (n0 & _ & C).
  destruct (in_gregorian_range _ _ _); [| rewrite C in Hc; discriminate Hc].
  destruct (ummalqura env _ _ _) as [[hy hm] hd] eqn:U.
  rewrite C in Hc.
  assert (h = format_02d hd ++ u "/" ++ format_02d hm ++ u "/" ++ str_of_int hy /\
          n = n0 /\
          g = format_02d (day d) ++ u "/" ++ format_02d (month d) ++ u "/"
                ++ str_of_int (year d)) as (-> & -> & ->)
    by (repeat split; congruence).
  exists d, hy, hm, hd. split; [reflexivity |]. split; [exact U |].
  eapply build_replacements_dates; [| | exact Hb];
    apply split_date; auto using format_02d_no_slash, str_of_int_no_slash.
Qed.

Lemma date_placeholders_of_converted_date_witness :
  exists repl,
    build_replacements (u "23/06/1445", u "الجمعة", u "05/01/2024") [Sample.ali] = inr repl /\
    dict_get repl K_D = Some (u "23") /\ dict_get repl K_yyyy = Some (u "2024").
Proof.
  destruct (build_replacements (u "23/06/1445", u "الجمعة", u "05/01/2024") [Sample.ali])
    as [e | repl] eqn:B; [vm_compute in B; discriminate B |].
  exists repl. split; [reflexivity |].
  destruct (date_placeholders_of_converted_date Sample.env (u "2024-01-05") Sample.world0
              (snd (convert_to_hijri Sample.env (u "2024-01-05") Sample.world0))
              (u "23/06/1445") (u "الجمعة") (u "05/01/2024") [Sample.ali] repl)
    as (d & hy & hm & hd & P & U & _ & HD & _ & _ & _ & _ & HY).
  - vm_compute. reflexivity.
  - exact B.
  - vm_compute in P. injection P as <-. vm_compute in U. injection U as <- <- <-.
    split; [exact HD | exact HY].
Defined.

(** ** One date of the loop *)

Lemma date_step_run (env : Env) (persons : list Person) (temp_dir : pystr)
    (st : loop_state) (i : Z) (date : pystr) (w w1 : world)
    (date_info : pystr * pystr * pystr) :
  convert_to_hijri env date w = (inr date_info, w1) ->
  date_step env persons temp_dir st (i, date) w =
  match process_document env date_info persons (u "GETPASS.docx") (docx_name temp_dir i) w1 with
  | (inl e, w2) =>
      if is_ValueError e then
        (inl (HTTPException 400 (u "Invalid date format: " ++ str_of_exn e)),
         mkWorld (fs w2) (log w2 ++ [(ERROR, u "Invalid date format: " ++ str_of_exn e)]))
      else (inl e, w2)
  | (inr r, w2) =>
      match convert_to_pdf env (docx_name temp_dir i) (pdf_name temp_dir i) w2 with
      | (inr true, w3) =>
          (inr (mkLoop (docx_files st ++ [r]) (pdf_files st ++ [pdf_name temp_dir i])
                  (conversion_success st)), w3)
      | (inr false, w3) =>
          (inr (mkLoop (docx_files st ++ [r]) (pdf_files st) false),
           mkWorld (fs w3)
             (log w3 ++ [(WARNING, u "Failed to convert " ++ docx_name temp_dir i
                                     ++ u " to PDF")]))
      | (inl e, w3) =>
          if is_ValueError e then
            (inl (HTTPException 400 (u "Invalid date format: " ++ str_of_exn e)),
             mkWorld (fs w3) (log w3 ++ [(ERROR, u "Invalid date format: " ++ str_of_exn e)]))
          else (inl e, w3)
      end
  end.
Proof.
  intros Hc. unfold date_step, try_except. unfold bind at 1. rewrite Hc.
  unfold bind at 1. fold (docx_name temp_dir i). fold (pdf_name temp_dir i).
  destruct (process_document env date_info persons (u "GETPASS.docx")
              (docx_name temp_dir i) w1) as [[e | r] w2].
  - destruct (is_ValueError e); reflexivity.
  - unfold bind at 1.
    destruct (convert_to_pdf env (docx_name temp_dir i) (pdf_name temp_dir i) w2)
      as [[e | [|]] w3]; [destruct (is_ValueError e) | |]; reflexivity.
Qed.

(** X10: the [except ValueError] of the loop covers the whole turn, not the
    date conversion alone.  A [ValueError] that [process_document] raises for
    a date the converter accepted leaves the turn as
    [HTTPException(400, "Invalid date format: ...")] with the text of that
    exception; an exception of any other class leaves the turn as it is. *)
Theorem any_ValueError_reported_as_date_error (env : Env) (persons : list Person)
    (temp_dir : pystr) (st : loop_state) (i : Z) (date : pystr) (w w1 w2 : world)
    (date_info : pystr * pystr * pystr) (e : exn) :
  convert_to_hijri env date w = (inr date_info, w1) ->
  process_document env date_info persons (u "GETPASS.docx") (docx_name temp_dir i) w1
    = (inl e, w2) ->
  fst (date_step env persons temp_dir st (i, date) w) =
  inl (if is_ValueError e
       then HTTPException 400 (u "Invalid date format: " ++ str_of_exn e)
       else e).
Proof.
  intros Hc Hp. rewrite (date_step_run _ _ _ _ _ _ _ _ _ Hc), Hp.
  destruct (is_ValueError e); reflexivity.
Qed.

Lemma any_ValueError_reported_as_date_error_witness :
  fst (date_step
         (with_fault Sample.env
            (fun s => match s with
                      | S_save _ => Some (Exc ValueError (u "cannot save"))
                      | _ => None
                      end))
         [Sample.ali] (u "/tmp/tmpk3v9x1") (mkLoop [] [] true) (0, u "2024-01-05")
         Sample.world0)
  = inl (HTTPException 400 (u "Invalid date format: cannot save")).
Proof.
  eapply eq_trans.
  - eapply (any_ValueError_reported_as_date_error
              (with_fault Sample.env
                 (fun s => match s with
                           | S_save _ => Some (Exc ValueError (u "cannot save"))
                           | _ => None
                           end))
              [Sample.ali] (u "/tmp/tmpk3v9x1") (mkLoop [] [] true) 0 (u "2024-01-05")
              Sample.world0).
    + vm_compute. reflexivity.
    + vm_compute. reflexivity.
  - vm_compute. reflexivity.
Defined.

Lemma convert_to_pdf_returns (env : Env) (docx_file pdf_file : pystr) (w : world) :
  exists ok w', convert_to_pdf env docx_file pdf_file w = (inr ok, w').
Proof.
  unfold convert_to_pdf, try_except, bind, get.
  destruct (unoconv env docx_file pdf_file (read_file w docx_file)) as [e | rc err out];
    [do 2 eexists; reflexivity |].
  destruct (rc =? 0); cbn [negb];
    destruct out; unfold modify, ret, logger; try (do 2 eexists; reflexivity).
  all: match goal with
       | |- context [path_exists ?x ?p] => destruct (path_exists x p)
       end; do 2 eexists; reflexivity.
Qed.

(** X11: a failed PDF conversion never ends a turn of the loop.  Once the
    document of a date was produced the turn returns: the document joins the
    list in every case, the PDF joins its list when the conversion returned
    [True], and otherwise the success flag drops and the PDF list stays as
    it was. *)
Theorem conversion_failure_keeps_the_loop (env : Env) (persons : list Person)
    (temp_dir : pystr) (st : loop_state) (i : Z) (date : pystr) (w w1 w2 : world)
    (date_info : pystr * pystr * pystr) (r : pystr) :
  convert_to_hijri env date w = (inr date_info, w1) ->
  process_document env date_info persons (u "GETPASS.docx") (docx_name temp_dir i) w1
    = (inr r, w2) ->
  exists ok st' w',
    date_step env persons temp_dir st (i, date) w = (inr st', w') /\
    fst (convert_to_pdf env (docx_name temp_dir i) (pdf_name temp_dir i) w2) = inr ok /\
    docx_files st' = docx_files st ++ [docx_name temp_dir i] /\
    pdf_files st' = (if ok then pdf_files st ++ [pdf_name temp_dir i] else pdf_files st) /\
    conversion_success st' = conversion_success st && ok.
Proof.
  intros Hc Hp. rewrite (date_step_run _ _ _ _ _ _ _ _ _ Hc), Hp.
  assert (r = docx_name temp_dir i) as ->.
  { destruct date_info as [[h day] g].
    apply process_document_inr in Hp as (_ & _ & _ & _ & _ & _ & _ & _ & _ & ->).
    reflexivity. }
  destruct (convert_to_pdf_returns env (docx_name temp_dir i) (pdf_name temp_dir i) w2)
    as (ok & w3 & E).
  rewrite E. exists ok. destruct ok; do 2 eexists; (split; [reflexivity |]).
  - cbn [fst docx_files pdf_files conversion_success]. rewrite andb_true_r. auto.
  - cbn [fst docx_files pdf_files conversion_success]. rewrite andb_false_r. auto.
Qed.

Lemma conversion_failure_keeps_the_loop_witness :
  exists ok st' w',
    date_step Sample.env_no_pdf [Sample.ali] (u "/tmp/tmpk3v9x1") (mkLoop [] [] true)
      (0, u "2024-01-05") Sample.world0 = (inr st', w') /\
    fst (convert_to_pdf Sample.env_no_pdf (docx_name (u "/tmp/tmpk3v9x1") 0)
           (pdf_name (u "/tmp/tmpk3v9x1") 0)
           (snd (process_document Sample.env_no_pdf
                   (u "23/06/1445", u "الجمعة", u "05/01/2024") [Sample.ali]
                   (u "GETPASS.docx") (docx_name (u "/tmp/tmpk3v9x1") 0)
                   (snd (convert_to_hijri Sample.env_no_pdf (u "2024-01-05")
                           Sample.world0))))) = inr ok /\
    docx_files st' = [] ++ [docx_name (u "/tmp/tmpk3v9x1") 0] /\
    pdf_files st' = (if ok then [] ++ [pdf_name (u "/tmp/tmpk3v9x1") 0] else []) /\
    conversion_success st' = true && ok.
Proof.
  apply (conversion_failure_keeps_the_loop Sample.env_no_pdf [Sample.ali]
           (u "/tmp/tmpk3v9x1") (mkLoop [] [] true) 0 (u "2024-01-05") Sample.world0
           (snd (convert_to_hijri Sample.env_no_pdf (u "2024-01-05") Sample.world0))
           _ (u "23/06/1445", u "الجمعة", u "05/01/2024")
           (docx_name (u "/tmp/tmpk3v9x1") 0)).
  - vm_compute. reflexivity.
  - vm_compute. reflexivity.
Defined.

(** ** The loop over the dates *)

Lemma enumerate_app {A} (l1 l2 : list A) :
  forall k, enumerate k (l1 ++ l2) = enumerate k l1 ++ enumerate (k + len l1) l2.
Proof.
  induction l1 as [| a l1 IH]; intros k; cbn [enumerate app].
  - unfold len. cbn [length]. rewrite Z.add_0_r. reflexivity.
  - rewrite IH.
    replace (k + len (a :: l1)) with (k + 1 + len l1) by (unfold len; cbn [length]; lia).
    reflexivity.
Qed.

Lemma foldM_app_raises {S A B} (f : B -> A -> ST S B) (l1 l2 : list A) :
  forall (b : B) (s s' : S) (e : exn),
    foldM f l1 b s = (inl e, s') -> foldM f (l1 ++ l2) b s = (inl e, s').
Proof.
  induction l1 as [| a l1 IH]; intros b s s' e H; cbn [foldM app] in *; [discriminate H |].
  unfold bind in *. destruct (f b a s) as [[e0 | b1] s1]; [exact H | apply IH, H].
Qed.

(** X12: the loop stops at the first date that fails.  When the dates up to
    some point make the loop raise, the same exception leaves it, in the same
    state of the files and the log, whatever dates follow: nothing is done
    for a date after the failing one. *)
Theorem date_loop_fails_fast (env : Env) (persons : list Person) (temp_dir : pystr)
    (dates later : list pystr) (w w' : world) (e : exn) :
  date_loop env persons temp_dir dates w = (inl e, w') ->
  date_loop env persons temp_dir (dates ++ later) w = (inl e, w').
Proof.
  unfold date_loop. intros H. rewrite enumerate_app. apply foldM_app_raises, H.
Qed.

Lemma date_loop_fails_fast_witness :
  date_loop Sample.env [Sample.ali] (u "/tmp/tmpk3v9x1")
    ([u "2024-01-05"; u "not-a-date"] ++ [u "2024-01-06"]) Sample.world0
  = date_loop Sample.env [Sample.ali] (u "/tmp/tmpk3v9x1")
      [u "2024-01-05"; u "not-a-date"] Sample.world0.
Proof.
  destruct (date_loop Sample.env [Sample.ali] (u "/tmp/tmpk3v9x1")
              [u "2024-01-05"; u "not-a-date"] Sample.world0) as [[e | st] w'] eqn:E.
  - apply (date_loop_fails_fast Sample.env [Sample.ali] (u "/tmp/tmpk3v9x1")
             [u "2024-01-05"; u "not-a-date"] [u "2024-01-06"] Sample.world0 w' e E).
  - vm_compute in E. discriminate E.
Defined.

(** ** The whole request: which files it leaves *)

Lemma touches_merge_pdfs (P : pystr -> Prop) (env : Env) (files : list pystr) (out : pystr) :
  P out -> touches P (merge_pdfs env files out).
Proof.
  intros Ho. unfold merge_pdfs. apply touches_try_except.
  - apply touches_bind; [auto with touch |]. intros _.
    apply touches_bind.
    { apply touches_foldM. intros b a. unfold merger_append.
      apply touches_bind; [auto with touch |]. intros _.
      apply touches_bind; [auto with touch |]. intros w0.
      destruct (read_file w0 a) as [[| |] |]; auto with touch. }
    intros pages. apply touches_bind; [auto with touch |]. intros _.
    apply touches_bind; [apply touches_write, Ho | auto with touch].
  - intros e. apply touches_bind; auto with touch.
Qed.

Lemma touches_create_docx_zip (P : pystr -> Prop) (env : Env) (files : list pystr)
    (out : pystr) :
  P out -> touches P (create_docx_zip env files out).
Proof.
  intros Ho. unfold create_docx_zip. apply touches_try_except.
  - apply touches_bind; [auto with touch |]. intros _.
    apply touches_bind; [apply touches_write, Ho |]. intros _.
    apply touches_bind; [| auto with touch].
    apply touches_foldM. intros b a. unfold zip_write.
    apply touches_bind; [auto with touch |]. intros _.
    apply touches_bind; [auto with touch |]. intros w0.
    destruct (read_file w0 a); [| auto with touch].
    apply touches_bind; [apply touches_write, Ho | auto with touch].
  - intros e. apply touches_bind; auto with touch.
Qed.

Lemma touches_shutil_copy2 (P : pystr -> Prop) (env : Env) (src dst : pystr) :
  P dst -> touches P (shutil_copy2 env src dst).
Proof.
  intros Hd. unfold shutil_copy2.
  apply touches_bind; [auto with touch |]. intros _.
  apply touches_bind; [auto with touch |]. intros w0.
  destruct (read_file w0 src); [apply touches_write, Hd | auto with touch].
Qed.

(** The three paths below the output directory. *)
Lemma touches_consolidate (env : Env) (st : loop_state) :
  touches output_path (consolidate env st).
Proof.
  unfold consolidate.
  apply touches_bind; [auto with touch |]. intros _.
  apply touches_bind.
  { unfold pdf_stage. apply touches_if; [| apply touches_if; [| auto with touch]].
    - apply touches_bind; [apply touches_merge_pdfs; left; reflexivity |].
      intros ok. apply touches_if; auto with touch.
    - apply touches_bind; [auto with touch |]. intros src.
      apply touches_bind; [apply touches_shutil_copy2; left; reflexivity | auto with touch]. }
  intros [[r |] cs]; [auto with touch |].
  apply touches_bind.
  { unfold word_stage. apply touches_if; [| auto with touch].
    apply touches_if.
    - apply touches_bind; [auto with touch |]. intros src.
      apply touches_bind; [apply touches_shutil_copy2; right; left; reflexivity
                          | auto with touch].
    - apply touches_bind; [apply touches_create_docx_zip; right; right; reflexivity |].
      intros ok. apply touches_if; auto with touch. }
  intros [r |]; auto with touch.
Qed.

(** What the request leaves of the files, in terms of the loop and the
    consolidation. *)
Lemma request_body_files (env : Env) (data : GetPassData) (w : world) (q : pystr) :
  tempdir_ok env -> ~ output_path q -> below (tempdir env) q = false ->
  read_file (snd (request_body env data w)) q = read_file w q.
Proof.
  intros Hok Ho Hb. rewrite request_body_run.
  destruct (fault env S_mkdtemp); [reflexivity |].
  pose proof (touches_date_loop env (people data) (dates data) Hok w q) as T.
  assert (N : ~ below (tempdir env) q = true) by (rewrite Hb; discriminate).
  specialize (T N).
  destruct (date_loop env (people data) (tempdir env) (dates data) w) as [[e | st] w1].
  - cbn [snd] in *. rewrite read_remove_tree, Hb. exact T.
  - pose proof (touches_consolidate env st w1 q Ho) as C.
    destruct (consolidate env st w1) as [r w2].
    cbn [snd] in *. rewrite read_remove_tree, Hb, C. exact T.
Qed.

(** X13: a request changes no file outside the temporary directory except
    the three output files [output/getpass.pdf], [output/getpass.docx] and
    [output/getpass_documents.zip]: whatever the response, every other path,
    the template among them, holds afterwards what it held before. *)
Theorem request_leaves_other_files (env : Env) (data : GetPassData) (w : world) (q : pystr) :
  tempdir_ok env ->
  ~ output_path q ->
  below (tempdir env) q = false ->
  read_file (snd (post_generate_getpass env data w)) q = read_file w q.
Proof.
  intros Hok Ho Hb. pose proof (request_body_files env data w q Hok Ho Hb) as R.
  rewrite post_generate_getpass_run.
  destruct (request_body env data w) as [[e | r] w1]; exact R.
Qed.

Lemma request_leaves_other_files_witness :
  read_file
    (snd (post_generate_getpass Sample.env
            (mkData [Sample.ali] [u "2024-01-01"; u "2024-01-02"]) Sample.world0))
    (u "GETPASS.docx")
  = Some (FDocx Sample.template).
Proof.
  rewrite (request_leaves_other_files Sample.env
             (mkData [Sample.ali] [u "2024-01-01"; u "2024-01-02"]) Sample.world0
             (u "GETPASS.docx")).
  - vm_compute. reflexivity.
  - eexists. split; [vm_compute; reflexivity | discriminate].
  - intros [H | [H | H]]; vm_compute in H; discriminate H.
  - vm_compute. reflexivity.
Defined.

(** X14: the temporary directory is released on every path out of the
    handler.  Once the directory was made, no file below it exists after the
    request, whether a file or an error is returned. *)
Theorem temporary_directory_released (env : Env) (data : GetPassData) (w : world)
    (q : pystr) :
  fault env S_mkdtemp = None ->
  below (tempdir env) q = true ->
  read_file (snd (post_generate_getpass env data w)) q = None.
Proof.
  intros Hm Hb. rewrite post_generate_getpass_run, request_body_run, Hm.
  destruct (date_loop env (people data) (tempdir env) (dates data) w) as [[e | st] w1].
  - cbn [snd]. rewrite read_file_log, read_remove_tree, Hb. reflexivity.
  - destruct (consolidate env st w1) as [[e | r] w2]; cbn [snd];
      rewrite ?read_file_log, read_remove_tree, Hb; reflexivity.
Qed.

Lemma temporary_directory_released_witness :
  read_file
    (snd (post_generate_getpass Sample.env
            (mkData [Sample.ali] [u "2024-01-01"; u "not-a-date"]) Sample.world0))
    (docx_name (tempdir Sample.env) 0)
  = None.
Proof.
  apply (temporary_directory_released Sample.env
           (mkData [Sample.ali] [u "2024-01-01"; u "not-a-date"]) Sample.world0
           (docx_name (tempdir Sample.env) 0)).
  - reflexivity.
  - vm_compute. reflexivity.
Defined.

(** ** The whole request: what a returned file is *)

Lemma shutil_copy2_inr (env : Env) (src dst : pystr) (w w' : world) (x : unit) :
  shutil_copy2 env src dst w = (inr x, w') ->
  exists f, read_file w src = Some f /\ w' = write_file dst f w.
Proof.
  unfold shutil_copy2. intros H.
  apply bind_inr in H as (? & w1 & H1 & H). apply call_inr in H1 as [_ ->].
  apply bind_inr in H as (w2 & w3 & H2 & H). injection H2 as <- <-.
  destruct (read_file w src) as [f |]; [| discriminate].
  exists f. split; [reflexivity | unfold modify in H; congruence].
Qed.

Lemma pdf_stage_inr (env : Env) (st : loop_state) (w w1 : world) (r : FileResponse)
    (cs : bool) :
  pdf_stage env st w = (inr (Some r, cs), w1) ->
  r = PDF_RESPONSE /\ (exists f, read_file w1 (path r) = Some f) /\
  conversion_success st = true /\ pdf_files st <> [].
Proof.
  unfold pdf_stage. intros H.
  destruct (conversion_success st); cbn [andb] in H; [| discriminate H].
  destruct (1 <? len (pdf_files st)) eqn:L1.
  - apply bind_inr in H as (ok & w2 & Hm & H).
    destruct (merge_pdfs_total env (pdf_files st) OUT_PDF w) as (ok' & w' & E & _ & Hok).
    rewrite E in Hm. assert (ok' = ok /\ w' = w2) as [-> ->] by (split; congruence).
    destruct ok; [| discriminate H].
    assert (r = PDF_RESPONSE /\ w2 = w1) as [-> ->] by (unfold ret in H; split; congruence).
    destruct Hok as (pages & _ & Hr). cbn [path].
    split; [reflexivity |]. split; [eauto |]. split; [reflexivity |].
    intros E0. rewrite E0 in L1. discriminate L1.
  - destruct (len (pdf_files st) =? 1) eqn:L2; [| discriminate H].
    apply bind_inr in H as (src & w2 & Hs & H).
    apply bind_inr in H as (? & w3 & Hc & H).
    apply shutil_copy2_inr in Hc as (f & _ & ->).
    assert (r = PDF_RESPONSE /\ write_file OUT_PDF f w2 = w1) as [-> <-]
      by (unfold ret in H; split; congruence).
    cbn [path]. split; [reflexivity |]. split; [rewrite read_write_same; eauto |].
    split; [reflexivity |]. intros E0. rewrite E0 in L2. discriminate L2.
Qed.

Lemma word_stage_inr (env : Env) (st : loop_state) (cs : bool) (w w1 : world)
    (r : FileResponse) :
  word_stage env st cs w = (inr (Some r), w1) ->
  (r = DOCX_RESPONSE \/ r = ZIP_RESPONSE) /\ (exists f, read_file w1 (path r) = Some f) /\
  (docx_files st = [] -> r = ZIP_RESPONSE).
Proof.
  unfold word_stage. intros H.
  destruct cs; cbn [negb] in H; [discriminate H |].
  destruct (len (docx_files st) =? 1) eqn:L.
  - apply bind_inr in H as (src & w2 & Hs & H).
    apply bind_inr in H as (? & w3 & Hc & H).
    apply shutil_copy2_inr in Hc as (f & _ & ->).
    assert (r = DOCX_RESPONSE /\ write_file OUT_DOCX f w2 = w1) as [-> <-]
      by (unfold ret in H; split; congruence).
    cbn [path]. split; [left; reflexivity |]. split; [rewrite read_write_same; eauto |].
    intros E0. rewrite E0 in L. discriminate L.
  - apply bind_inr in H as (ok & w2 & Hz & H).
    destruct (create_docx_zip_total env (docx_files st) OUT_ZIP w) as (ok' & w' & E & _ & Hok).
    rewrite E in Hz. assert (ok' = ok /\ w' = w2) as [-> ->] by (split; congruence).
    destruct ok; [| discriminate H].
    assert (r = ZIP_RESPONSE /\ w2 = w1) as [-> ->] by (unfold ret in H; split; congruence).
    destruct (Hok eq_refl) as (members & Hr & _). cbn [path].
    split; [right; reflexivity |]. split; [eauto | reflexivity].
Qed.

Lemma consolidate_inr (env : Env) (st : loop_state) (w w' : world) (r : FileResponse) :
  consolidate env st w = (inr r, w') ->
  (r = PDF_RESPONSE \/ r = DOCX_RESPONSE \/ r = ZIP_RESPONSE) /\
  (exists f, read_file w' (path r) = Some f).
Proof.
  unfold consolidate. intros H.
  apply bind_inr in H as (? & w1 & Hc & H). apply call_inr in Hc as [_ ->].
  apply bind_inr in H as ([[r1 |] cs] & w2 & Hp & H).
  - assert (r1 = r /\ w2 = w') as [-> ->] by (unfold ret in H; split; congruence).
    apply pdf_stage_inr in Hp as (Hr & Hf & _). split; [left; exact Hr | exact Hf].
  - apply bind_inr in H as ([r2 |] & w3 & Hw & H); [| discriminate H].
    assert (r2 = r /\ w3 = w') as [-> ->] by (unfold ret in H; split; congruence).
    apply word_stage_inr in Hw as (Hr & Hf & _). split; [right; exact Hr | exact Hf].
Qed.

(** X15: a file response always names a file that is there.  The response
    is one of the three fixed ones (the PDF, the Word document or the ZIP
    archive, each with its own path, file name and media type), and when the
    handler returns it a file exists at its path, provided the output
    directory does not lie inside the temporary directory. *)
Theorem returned_file_exists (env : Env) (data : GetPassData) (w w' : world)
    (r : FileResponse) :
  post_generate_getpass env data w = (Http_file r, w') ->
  (r = PDF_RESPONSE \/ r = DOCX_RESPONSE \/ r = ZIP_RESPONSE) /\
  (below (tempdir env) (path r) = false -> exists f, read_file w' (path r) = Some f).
Proof.
  rewrite post_generate_getpass_run, request_body_run. intros H.
  destruct (fault env S_mkdtemp); [discriminate H |].
  destruct (date_loop env (people data) (tempdir env) (dates data) w) as [[e | st] w1];
    [discriminate H |].
  destruct (consolidate env st w1) as [[e | r0] w2] eqn:C; [discriminate H |].
  assert (r0 = r /\ remove_tree (tempdir env) w2 = w') as [-> <-] by (split; congruence).
  apply consolidate_inr in C as [Hr (f & Hf)].
  split; [exact Hr |]. intros Hb. exists f. rewrite read_remove_tree, Hb. exact Hf.
Qed.

Lemma returned_file_exists_witness :
  exists r w',
    post_generate_getpass Sample.env_no_pdf
      (mkData [Sample.ali] [u "2024-01-01"; u "2024-01-02"]) Sample.world0 = (Http_file r, w') /\
    (r = PDF_RESPONSE \/ r = DOCX_RESPONSE \/ r = ZIP_RESPONSE) /\
    (below (tempdir Sample.env_no_pdf) (path r) = false ->
     exists f, read_file w' (path r) = Some f).
Proof.
  destruct (post_generate_getpass Sample.env_no_pdf
              (mkData [Sample.ali] [u "2024-01-01"; u "2024-01-02"]) Sample.world0)
    as [[r | sc d] w'] eqn:E; [| vm_compute in E; discriminate E].
  exists r, w'. split; [reflexivity |].
  exact (returned_file_exists Sample.env_no_pdf
           (mkData [Sample.ali] [u "2024-01-01"; u "2024-01-02"]) Sample.world0 w' r E).
Defined.

(** X16: a file is returned only for a request that names at least one
    visitor and at least one date; with an empty list of either kind the
    response is an error. *)
Theorem file_needs_visitors_and_dates (env : Env) (data : GetPassData) (w w' : world)
    (r : FileResponse) :
  post_generate_getpass env data w = (Http_file r, w') ->
  people data <> [] /\ dates data <> [].
Proof.
  intros H.
  assert (Hd : dates data <> []).
  { intros E. rewrite post_generate_getpass_run, request_body_run, E in H.
    destruct (fault env S_mkdtemp); [discriminate H |].
    assert (Hloop : date_loop env (people data) (tempdir env) [] w
                    = (inr (mkLoop [] [] true), w)) by reflexivity.
    rewrite Hloop, consolidate_nothing in H.
    destruct (fault env (S_makedirs (u "output"))); discriminate H. }
  split; [| exact Hd].
  intros E. destruct (dates data) as [| date rest] eqn:D; [contradiction |].
  destruct (post_of_failed_loop env data w) as [(e & He) _].
  - rewrite E, D. apply (date_loop_fails env [] (tempdir env) (date :: rest) date).
    + apply list_elem_of_here.
    + intros i. apply date_step_not_inr_nil.
  - rewrite H in He. discriminate He.
Qed.

Lemma file_needs_visitors_and_dates_witness :
  exists r w',
    post_generate_getpass Sample.env (mkData [Sample.ali] [u "2024-01-01"]) Sample.world0
    = (Http_file r, w') /\
    [Sample.ali] <> [] /\ [u "2024-01-01"] <> [].
Proof.
  destruct (post_generate_getpass Sample.env (mkData [Sample.ali] [u "2024-01-01"])
              Sample.world0) as [[r | sc d] w'] eqn:E; [| vm_compute in E; discriminate E].
  exists r, w'. split; [reflexivity |].
  exact (file_needs_visitors_and_dates Sample.env (mkData [Sample.ali] [u "2024-01-01"])
           Sample.world0 w' r E).
Defined.

(** ** Errors of the table of all visitors *)



(** ** A request without its template *)

(** X18: when the template file is missing, a request whose first date the
    converter accepts is answered with status 500; the detail carries the
    text of the [FileNotFoundError] that [shutil.copy] raised, and the
    request leaves the files as they were. *)
Theorem missing_template_answered_with_500 (env : Env) (persons : list Person)
    (date : pystr) (rest : list pystr) (w : world) (date_info : pystr * pystr * pystr) :
  fault env S_mkdtemp = None ->
  fault env (S_copy (u "GETPASS.docx") (docx_name (tempdir env) 0)) = None ->
  read_file w (u "GETPASS.docx") = None ->
  convert_to_hijri_body env date = inr date_info ->
  fst (post_generate_getpass env (mkData persons (date :: rest)) w)
  = Http_error 500 (u "Internal Server Error: "
                      ++ u "[Errno 2] No such file or directory: '" ++ u "GETPASS.docx"
                      ++ u "'") /\
  forall q f, read_file (snd (post_generate_getpass env (mkData persons (date :: rest)) w)) q
              = Some f -> read_file w q = Some f.
Proof.
  intros Hm Hc Hr Hb.
  pose proof (convert_to_hijri_run env date w) as Hrun. rewrite Hb in Hrun.
  destruct date_info as [[h n] g].
  set (w1 := mkWorld (fs w) (log w ++ [(INFO, u "Converted date: Gregorian " ++ g
                                             ++ u " to Hijri " ++ h ++ u ", Day: " ++ n)]))
    in Hrun.
  assert (Hp : process_document env (h, n, g) persons (u "GETPASS.docx")
                 (docx_name (tempdir env) 0) w1
               = (inl (file_not_found (u "GETPASS.docx")), w1)).
  { unfold process_document, bind at 1, shutil_copy, bind at 1.
    rewrite call_run, Hc. unfold bind at 1, get.
    change (read_file w1 (u "GETPASS.docx")) with (read_file w (u "GETPASS.docx")).
    rewrite Hr. reflexivity. }
  assert (Hs : date_step env persons (tempdir env) (mkLoop [] [] true) (0, date) w
               = (inl (file_not_found (u "GETPASS.docx")), w1)).
  { rewrite (date_step_run _ _ _ _ _ _ _ _ _ Hrun), Hp. reflexivity. }
  pose proof (date_loop_first_raises env persons (tempdir env) date rest w w1 _ Hs) as Hl.
  rewrite post_generate_getpass_run, request_body_run, Hm. cbn [people dates].
  rewrite Hl. cbn [fst snd]. split; [reflexivity |].
  intros q f. rewrite read_file_log, read_remove_tree.
  destruct (below (tempdir env) q); [discriminate | exact (fun H => H)].
Qed.

Lemma missing_template_answered_with_500_witness :
  fst (post_generate_getpass Sample.env (mkData [Sample.ali] [u "2024-01-05"])
         (mkWorld [] []))
  = Http_error 500 (u "Internal Server Error: "
                      ++ u "[Errno 2] No such file or directory: '" ++ u "GETPASS.docx"
                      ++ u "'").
Proof.
  refine (proj1 (missing_template_answered_with_500 Sample.env [Sample.ali]
                   (u "2024-01-05") [] (mkWorld [] [])
                   (u "23/06/1445", u "الجمعة", u "05/01/2024") _ _ _ _)).
  - reflexivity.
  - reflexivity.
  - reflexivity.
  - vm_compute. reflexivity.
Defined.

(** ** The names of the working documents *)

Lemma split_from_nonempty (sep : N) (s : pystr) : forall cur, split_from sep s cur <> [].
Proof.
  induction s as [| c s IH]; intros cur; cbn [split_from]; [discriminate |].
  destruct (c =? sep)%N; [discriminate | apply IH].
Qed.

Lemma last_split_from (a b : pystr) :
  Forall (fun x => x <> 47%N) b ->
  forall cur, last (split_from 47 (a ++ 47%N :: b) cur) = Some b.
Proof.
  intros Hb. induction a as [| c a IH]; intros cur; cbn [app split_from].
  - rewrite N.eqb_refl. rewrite (split_from_end 47 b Hb). reflexivity.
  - destruct (c =? 47)%N.
    + specialize (IH []).
      destruct (split_from 47 (a ++ 47%N :: b) []) as [| x l] eqn:E;
        [exfalso; exact (split_from_nonempty _ _ _ E) |].
      exact IH.
    + apply IH.
Qed.

Lemma basename_path_join (a b : pystr) :
  b <> [] -> Forall (fun x => x <> 47%N) b -> basename (path_join a b) = b.
Proof.
  intros Hne Hb.
  assert (Hplain : basename b = b).
  { unfold basename, split. rewrite (split_from_end 47 b Hb). reflexivity. }
  unfold path_join.
  destruct b as [| c b']; [contradiction |].
  assert (Hc : c <> 47%N) by (inversion Hb; assumption).
  cbn [startswith]. destruct (47 =? c)%N eqn:E; [apply N.eqb_eq in E; congruence |].
  cbn [andb].
  destruct (last a) as [x |] eqn:La; [| exact Hplain].
  destruct (x =? 47)%N eqn:Ex.
  - apply N.eqb_eq in Ex. subst x.
    apply last_Some in La as (a' & ->). rewrite <- app_assoc. cbn [app].
    unfold basename, split. rewrite (last_split_from a' (c :: b') Hb). reflexivity.
  - unfold basename, split. rewrite (last_split_from a (c :: b') Hb). reflexivity.
Qed.

Lemma str_of_int_nonempty_suffix (i : Z) (s : pystr) :
  Forall (fun x => x <> 47%N) s ->
  Forall (fun x => x <> 47%N) (u "getpass_" ++ str_of_int i ++ s).
Proof.
  intros Hs. rewrite u_getpass.
  repeat (apply Forall_cons; split; [discriminate |]).
  apply Forall_app. split; [apply str_of_int_no_slash | exact Hs].
Qed.

(** X19: the documents of a request are named after the position of their
    date, and that is the name they have in the ZIP archive.  When the loop
    over the dates ends, document number [i] is [getpass_<i>.docx] in the
    temporary directory, and its base name, by which [create_docx_zip] names
    the member, is [getpass_<i>.docx] whatever the temporary directory is. *)
Theorem archive_members_named_by_position (env : Env) (persons : list Person)
    (temp_dir : pystr) (dates : list pystr) (w w' : world) (st : loop_state) :
  date_loop env persons temp_dir dates w = (inr st, w') ->
  length (docx_files st) = length dates /\
  forall (i : nat) (p : pystr), docx_files st !! i = Some p ->
    p = docx_name temp_dir (Z.of_nat i) /\
    basename p = u "getpass_" ++ str_of_int (Z.of_nat i) ++ u ".docx".
Proof.
  intros H. apply date_loop_state in H as (Hd & Hl & _).
  split; [exact Hl |]. intros i p Hp.
  assert (E : forall (l : list pystr) k j x,
             map (docx_name temp_dir) (map fst (enumerate k l)) !! j = Some x ->
             x = docx_name temp_dir (k + Z.of_nat j)).
  { induction l as [| a l IH]; intros k j x Hx; [destruct j; discriminate Hx |].
    destruct j as [| j]; cbn [enumerate map fst] in Hx.
    - injection Hx as <-. rewrite Z.add_0_r. reflexivity.
    - apply IH in Hx. rewrite Hx. f_equal. lia. }
  rewrite Hd in Hp. apply E in Hp. rewrite Z.add_0_l in Hp. subst p.
  split; [reflexivity |].
  unfold docx_name. apply basename_path_join.
  - rewrite u_getpass. discriminate.
  - apply str_of_int_nonempty_suffix. vm_compute. repeat constructor; discriminate.
Qed.

Lemma archive_members_named_by_position_witness :
  exists st w',
    date_loop Sample.env [Sample.ali] (u "/tmp/tmpk3v9x1") [u "2024-01-01"; u "2024-01-02"]
      Sample.world0 = (inr st, w') /\
    length (docx_files st) = 2%nat /\
    forall (i : nat) (p : pystr), docx_files st !! i = Some p ->
      p = docx_name (u "/tmp/tmpk3v9x1") (Z.of_nat i) /\
      basename p = u "getpass_" ++ str_of_int (Z.of_nat i) ++ u ".docx".
Proof.
  destruct (date_loop Sample.env [Sample.ali] (u "/tmp/tmpk3v9x1")
              [u "2024-01-01"; u "2024-01-02"] Sample.world0) as [[e | st] w'] eqn:E;
    [vm_compute in E; discriminate E |].
  exists st, w'. split; [reflexivity |].
  exact (archive_members_named_by_position Sample.env [Sample.ali] (u "/tmp/tmpk3v9x1")
           [u "2024-01-01"; u "2024-01-02"] Sample.world0 w' st E).
Defined.

(** ** A request for one date, from end to end *)

Lemma path_join_inj (a x y : pystr) :
  startswith [47%N] x = false -> startswith [47%N] y = false ->
  path_join a x = path_join a y -> x = y.
Proof.
  unfold path_join. intros -> ->.
  destruct (last a) as [c |]; [| exact (fun H => H)].
  destruct (c =? 47)%N; intros H; apply app_inv_head in H; congruence.
Qed.

Lemma docx_name_not_pdf_name (temp_dir : pystr) (i : Z) :
  pdf_name temp_dir i <> docx_name temp_dir i.
Proof.
  unfold docx_name, pdf_name. intros H. apply path_join_inj in H.
  - apply app_inv_head in H. apply app_inv_head in H. vm_compute in H. discriminate H.
  - rewrite u_getpass. reflexivity.
  - rewrite u_getpass. reflexivity.
Qed.

(** [process_document] for one or two visitors, when no library call fails
    on its own and the template is a Word document. *)
Lemma process_document_ok (env : Env) (s : pystr) (w0 w : world)
    (date_info : pystr * pystr * pystr) (persons : list Person) (out : pystr)
    (tpl : document) :
  (forall x, fault env x = None) ->
  convert_to_hijri env s w0 = (inr date_info, w) ->
  (1 <= length persons <= 2)%nat ->
  read_file w (u "GETPASS.docx") = Some (FDocx tpl) ->
  exists repl doc w',
    process_document env date_info persons (u "GETPASS.docx") out w = (inr out, w') /\
    build_replacements date_info persons = inr repl /\
    d_tables doc = d_tables (fill_tables repl persons (snd (fst date_info)) tpl) /\
    read_file w' out = Some (FDocx doc) /\
    (forall q, q <> out -> read_file w' q = read_file w q).
Proof.
  intros Hf Hc Hn Hr.
  destruct (build_replacements_after_convert env s w0 w date_info persons Hc)
    as (repl & Hb); [destruct persons; [cbn [length] in Hn; lia | discriminate] |].
  destruct date_info as [[h day] g].
  pose proof (process_document_fst env h day g persons (u "GETPASS.docx") out w) as F.
  rewrite (shutil_copy_ok env _ out w _ (Hf _) Hr) in F.
  rewrite (open_document_ok env out _ tpl (Hf _) (read_write_same _ _ _)) in F.
  rewrite Hb in F.
  assert (Ho : write_overflow persons (fill_tables repl persons day tpl)
               = inr (fill_tables repl persons day tpl)).
  { unfold write_overflow.
    assert ((2 <? Z.of_nat (length persons)) = false) as -> by (apply Z.ltb_ge; lia).
    reflexivity. }
  rewrite Ho, (Hf (S_save out)) in F.
  destruct (process_document env (h, day, g) persons (u "GETPASS.docx") out w)
    as [[e | r] w'] eqn:E; cbn [fst] in F; [discriminate F |].
  assert (r = out) as -> by congruence.
  pose proof (touches_process_document (fun p => p = out) env (h, day, g) persons
                (u "GETPASS.docx") out eq_refl w) as T.
  rewrite E in T. cbn [snd] in T.
  apply process_document_inr in E
    as (doc0 & repl' & doc1 & doc2 & Hr' & Hb' & Ho' & Ht & Hs & _).
  assert (doc0 = tpl) as -> by congruence.
  assert (repl' = repl) as -> by congruence.
  assert (doc1 = fill_tables repl persons day tpl) as -> by congruence.
  exists repl, doc2, w'. cbn [fst snd]. auto 10.
Qed.

Lemma date_loop_single (env : Env) (persons : list Person) (temp_dir : pystr)
    (date : pystr) (w : world) :
  date_loop env persons temp_dir [date] w
  = match date_step env persons temp_dir (mkLoop [] [] true) (0, date) w with
    | (inl e, w') => (inl e, w')
    | (inr st, w') => (inr st, w')
    end.
Proof.
  unfold date_loop. cbn [enumerate foldM]. unfold bind.
  destruct (date_step env persons temp_dir (mkLoop [] [] true) (0, date) w) as [[e | st] w'];
    reflexivity.
Qed.

Lemma convert_to_pdf_made (env : Env) (docx_file pdf_file : pystr) (w : world)
    (err : pystr) (f : file) :
  unoconv env docx_file pdf_file (read_file w docx_file) = Exited 0 err (Some f) ->
  convert_to_pdf env docx_file pdf_file w = (inr true, write_file pdf_file f w).
Proof.
  intros U. unfold convert_to_pdf, try_except, bind, get. rewrite U.
  unfold modify, ret. cbn [negb Z.eqb]. unfold path_exists. rewrite read_write_same.
  reflexivity.
Qed.

Lemma convert_to_pdf_failed (env : Env) (docx_file pdf_file : pystr) (w : world) :
  match unoconv env docx_file pdf_file (read_file w docx_file) with
  | Spawn_failed _ => True
  | Exited rc _ _ => rc <> 0
  end ->
  exists w', convert_to_pdf env docx_file pdf_file w = (inr false, w') /\
             forall q, q <> pdf_file -> read_file w' q = read_file w q.
Proof.
  intros U.
  pose proof (touches_convert_to_pdf (fun q => q = pdf_file) env docx_file pdf_file
                eq_refl w) as T.
  revert T. unfold convert_to_pdf, try_except, bind, get.
  destruct (unoconv env docx_file pdf_file (read_file w docx_file)) as [e | rc err out].
  - intros T. eexists. split; [reflexivity | exact T].
  - apply Z.eqb_neq in U. rewrite U. cbn [negb].
    destruct out; intros T; eexists; (split; [reflexivity | exact T]).
Qed.

Lemma consolidate_single_docx (env : Env) (d : pystr) (w : world) (f : file) :
  (forall x, fault env x = None) -> read_file w d = Some f ->
  consolidate env (mkLoop [d] [] false) w
  = (inr DOCX_RESPONSE, write_file OUT_DOCX f w).
Proof.
  intros Hf Hr.
  rewrite (consolidate_after_pdf_stage _ _ _ _ _ (Hf _)
             (pdf_stage_skipped env (mkLoop [d] [] false) w (or_introl eq_refl))).
  cbn [conversion_success].
  rewrite (word_stage_single env (mkLoop [d] [] false) w d f eq_refl (Hf _) Hr).
  reflexivity.
Qed.

Lemma consolidate_single_pdf (env : Env) (d p : pystr) (w : world) (f : file) :
  (forall x, fault env x = None) -> read_file w p = Some f ->
  consolidate env (mkLoop [d] [p] true) w
  = (inr PDF_RESPONSE, write_file OUT_PDF f w).
Proof.
  intros Hf Hr.
  rewrite (consolidate_after_pdf_stage _ _ _ _ _ (Hf _)
             (pdf_stage_single env (mkLoop [d] [p] true) w p f eq_refl eq_refl (Hf _) Hr)).
  reflexivity.
Qed.



(** ** The error responses of the handler *)

(** X21: every error the handler answers with has the same shape.  The
    status is 500, the detail is "Internal Server Error: " followed by the
    text of the exception that ended the request, and the last line of the
    log is the ERROR line "Error processing request: " with the same text.
    The details of the exceptions raised inside, "Invalid date format: ..."
    and "Failed to generate documents", never reach the client unwrapped. *)
Theorem every_error_is_a_wrapped_500 (env : Env) (data : GetPassData) (w w' : world)
    (sc : Z) (detail : pystr) :
  post_generate_getpass env data w = (Http_error sc detail, w') ->
  sc = 500 /\
  exists e,
    fst (request_body env data w) = inl e /\
    detail = u "Internal Server Error: " ++ str_of_exn e /\
    last (log w') = Some (ERROR, u "Error processing request: " ++ str_of_exn e) /\
    detail <> u "Failed to generate documents" /\
    forall s, detail <> u "Invalid date format: " ++ s.
Proof.
  rewrite post_generate_getpass_run. intros H.
  destruct (request_body env data w) as [[e | r] w1]; [| discriminate H].
  assert (sc = 500) as -> by congruence.
  assert (detail = u "Internal Server Error: " ++ str_of_exn e) as -> by congruence.
  assert (w' = mkWorld (fs w1) (log w1 ++ [(ERROR, u "Error processing request: "
                                                     ++ str_of_exn e)])) as ->
    by congruence.
  split; [reflexivity |]. exists e. split; [reflexivity |]. split; [reflexivity |].
  split; [cbn [log]; apply last_snoc |]. split; [apply detail_is_wrapped |].
  intros s.
  assert (exists t, u "Internal Server Error: " = 73%N :: 110%N :: 116%N :: t) as [t ->]
    by (vm_compute; eauto).
  assert (exists t', u "Invalid date format: " = 73%N :: 110%N :: 118%N :: t') as [t' ->]
    by (vm_compute; eauto).
  cbn [app]. intros H0. discriminate H0.
Qed.

Lemma every_error_is_a_wrapped_500_witness :
  exists e,
    fst (request_body Sample.env (mkData [Sample.ali] [u "not-a-date"]) Sample.world0)
    = inl e /\
    fst (post_generate_getpass Sample.env (mkData [Sample.ali] [u "not-a-date"])
           Sample.world0)
    = Http_error 500 (u "Internal Server Error: " ++ str_of_exn e).
Proof.
  destruct (post_generate_getpass Sample.env (mkData [Sample.ali] [u "not-a-date"])
              Sample.world0) as [[r | sc d] w'] eqn:E; [vm_compute in E; discriminate E |].
  destruct (every_error_is_a_wrapped_500 Sample.env (mkData [Sample.ali] [u "not-a-date"])
              Sample.world0 w' sc d E) as (-> & e & He & -> & _).
  exists e. split; [exact He | reflexivity].
Defined.
